(** * Expirio extended module: the REST route handlers

    A shallow embedding of the Next.js route handlers of the repository
    (entities, services, payees, subscriptions, user edit and user delete)
    and the properties of their authorization, validation, name resolution
    and persistence behaviour.

    Sources embedded here:
    - [src/unnamed/part_003]: the entities, services, payees and
      subscriptions handlers (GET, POST, PUT, DELETE each);
    - [src/unnamed/part_000]: the entities route whose GET, POST and PUT are
      textually those of part_003 and whose DELETE relies on the schema;
    - [src/unnamed/part_002]: the services route, same relation to part_003;
    - [src/src/app/api/EditUser/route.js]: the user PUT (its second document
      is textually the payees route of part_003);
    - [src/unnamed/part_001]: the user DELETE.

    The two collaborators that are imported and not part of the sources,
    [jsonwebtoken] and the [db] connection, are an environment: the token
    verifier is a function, the relational store is a record of tables and
    every SQL statement of the sources is one primitive over it.

    Scope of the model:
    - body fields, token claims and columns hold JSON scalars; numbers are
      integers;
    - a column stores the bound value as it is and [=] is exact equality of
      two non-null values of the same kind: the column types, collations
      and constraints of the schema are not among the sources, the only
      schema behaviour modelled is the optional [ON DELETE CASCADE];
    - whether the driver refuses an [undefined] bind parameter or sends it
      as null is a parameter of the environment;
    - a response is its status and data; the message texts are left out. *)

From stdpp Require Import gmap strings list fin_maps.
From Stdlib Require Import ZArith Ascii String Bool Lia.

(** ** JavaScript values *)

(** The scalars a parsed JSON body, a decoded token or a result row can
    hold; [VUndef] is what reading an absent property gives. Numbers are
    the integers (ids, amounts). *)
Inductive value :=
| VUndef
| VNull
| VBool (b : bool)
| VNum (n : Z)
| VStr (s : string).

#[global] Instance value_eq_dec : EqDecision value.
Proof. solve_decision. Defined.

(** A JS object used as a record: request bodies, token payloads, rows. *)
Abbreviation obj := (gmap string value).

(** Property access [o.k]: [undefined] when the key is absent. *)
Definition field (o : obj) (k : string) : value := default VUndef (o !! k).

Notation "o .[ k ]" := (field o k) (at level 1, left associativity, format "o .[ k ]").

(** JS truthiness, as tested by [!x], [x || y], [x ? a : b] and [if (x)]. *)
Definition truthy (v : value) : bool :=
  match v with
  | VUndef | VNull => false
  | VBool b => b
  | VNum n => negb (n =? 0)%Z
  | VStr s => negb (String.eqb s "")
  end.

Definition falsy (v : value) : bool := negb (truthy v).

(** [a || b] *)
Definition js_or (a b : value) : value := if truthy a then a else b.

(** [String.prototype.toLowerCase] on the ASCII range; no character
    outside it lowercases to a letter of [income] or [expense]. *)
Definition lower_ascii (c : ascii) : ascii :=
  let n := nat_of_ascii c in
  if (65 <=? n)%nat && (n <=? 90)%nat then ascii_of_nat (n + 32) else c.

Fixpoint lower (s : string) : string :=
  match s with
  | EmptyString => EmptyString
  | String c s' => String (lower_ascii c) (lower s')
  end.

(** [['income', 'expense'].includes(s)] *)
Definition includes_category (s : string) : bool :=
  String.eqb s "income" || String.eqb s "expense".

(** [s.startsWith(p)] *)
Fixpoint startsWith (p s : string) : bool :=
  match p, s with
  | EmptyString, _ => true
  | String _ _, EmptyString => false
  | String a p', String b s' => Ascii.eqb a b && startsWith p' s'
  end.

(** [s.split(sep)] for a one-character separator: never empty, one more
    piece than there are separators. *)
Fixpoint split (sep : ascii) (s : string) : list string :=
  match s with
  | EmptyString => [EmptyString]
  | String c s' =>
      if Ascii.eqb c sep then EmptyString :: split sep s'
      else match split sep s' with
           | [] => [String c EmptyString]
           | w :: ws => String c w :: ws
           end
  end.

(** ** Requests and responses *)

(** [authorization] is [request.headers.get('Authorization')] ([None] for
    [null]); [json_body] is the outcome of [await request.json()] followed by
    the destructuring: [None] when either throws (a body that is not JSON,
    or the JSON [null]). *)
Record Request := {
  authorization : option string;
  json_body : option obj
}.

(** The [data] member of the JSON envelope. *)
Inductive payload :=
| NoData
| DataRows (rows : list obj)
| DataObj (o : obj).

(** [NextResponse.json({message, data?}, {status})]; the message texts are
    not part of the model. *)
Record Response := {
  status : Z;
  data : payload
}.

#[global] Instance payload_eq_dec : EqDecision payload.
Proof. solve_decision. Defined.

#[global] Instance Response_eq_dec : EqDecision Response.
Proof. solve_decision. Defined.

Definition json (st : Z) : Response := {| status := st; data := NoData |}.

(** ** The relational store *)

(** The five tables of the SQL statements. A table is the list of its rows
    in insertion order, a row maps column names to values. *)
Inductive table := Users | Entities | Services | Payees | Subscriptions.

#[global] Instance table_eq_dec : EqDecision table.
Proof. solve_decision. Defined.

Record Store := {
  users : list obj;
  entities : list obj;
  services : list obj;
  payees : list obj;
  subscriptions : list obj
}.

#[global] Instance Store_eq_dec : EqDecision Store.
Proof. solve_decision. Defined.

Definition rows_of (t : table) (s : Store) : list obj :=
  match t with
  | Users => users s
  | Entities => entities s
  | Services => services s
  | Payees => payees s
  | Subscriptions => subscriptions s
  end.

Definition set_rows (t : table) (l : list obj) (s : Store) : Store :=
  match t with
  | Users => {| users := l; entities := entities s; services := services s;
                payees := payees s; subscriptions := subscriptions s |}
  | Entities => {| users := users s; entities := l; services := services s;
                   payees := payees s; subscriptions := subscriptions s |}
  | Services => {| users := users s; entities := entities s; services := l;
                   payees := payees s; subscriptions := subscriptions s |}
  | Payees => {| users := users s; entities := entities s; services := services s;
                 payees := l; subscriptions := subscriptions s |}
  | Subscriptions => {| users := users s; entities := entities s; services := services s;
                        payees := payees s; subscriptions := l |}
  end.

(** The auto-increment key column: [users.sr], [id] elsewhere. *)
Definition pk (t : table) : string :=
  match t with Users => "sr" | _ => "id" end.

(** SQL [a = b]: exact match of two non-null values of the same kind. A
    database that converts between kinds also matches an integer key with
    the string ['2']; the two agree on values of the same kind. *)
Definition sql_eq (a b : value) : bool :=
  match a, b with
  | VNum x, VNum y => (x =? y)%Z
  | VStr x, VStr y => String.eqb x y
  | VBool x, VBool y => Bool.eqb x y
  | _, _ => false
  end.

Definition is_null (v : value) : bool :=
  match v with VUndef | VNull => true | _ => false end.

(** SQL [a != b]: unknown, hence not satisfied, when either side is null. *)
Definition sql_ne (a b : value) : bool :=
  negb (is_null a) && negb (is_null b) && negb (sql_eq a b).

(** One conjunct of a [WHERE] clause with its bound parameter. *)
Inductive cond :=
| CEq (col : string) (v : value)
| CNe (col : string) (v : value).

Definition cond_value (c : cond) : value :=
  match c with CEq _ v | CNe _ v => v end.

Definition holds (r : obj) (c : cond) : bool :=
  match c with
  | CEq col v => sql_eq r.[col] v
  | CNe col v => sql_ne r.[col] v
  end.

(** [WHERE c1 AND c2 AND ...] *)
Definition matches (cs : list cond) (r : obj) : bool := forallb (holds r) cs.

(** [SET col = v, ...] *)
Definition assign (sets : list (string * value)) (r : obj) : obj :=
  foldr (fun cv acc => <[cv.1 := cv.2]> acc) r sets.

(** The column list of a [SELECT]: [None] is [*]. *)
Definition project (cols : option (list string)) (r : obj) : obj :=
  match cols with
  | None => r
  | Some cs => list_to_map (map (fun c => (c, r.[c])) cs)
  end.

(** The key given to an inserted row: one more than the largest key in
    use. An AUTO_INCREMENT column hands out the same key as long as the row
    with the largest key was never deleted, and in any case a key that no
    row of the table has. *)
Definition fresh_id (key : string) (l : list obj) : Z :=
  (1 + foldr (fun r m => match r.[key] with VNum n => Z.max n m | _ => m end) 0 l)%Z.

(** Modelled from the spec: the schema (the DDL) is not among the sources.
    The references are those of the data model: a service belongs to an
    entity, a payee references an entity and a service, a subscription
    references an entity, a service and a payee. These are the foreign keys
    along which [ON DELETE CASCADE], where the schema declares it, removes
    dependent rows. *)
Definition fk_children (t : table) : list (table * string) :=
  match t with
  | Entities => [(Services, "entity_id"); (Payees, "entity_id"); (Subscriptions, "entity_id")]
  | Services => [(Payees, "service_id"); (Subscriptions, "service_id")]
  | Payees => [(Subscriptions, "payee_id")]
  | Users | Subscriptions => []
  end.

(** ** Effects: the world a handler runs in *)

(** What a handler did to its collaborators, in order: a call of
    [jwt.verify], and for every executed statement the table rows it
    returned, inserted, matched for update or removed. *)
Inductive event :=
| EvVerify (token : string)
| EvSelect (t : table) (rows : list obj)
| EvInsert (t : table) (row : obj)
| EvUpdate (t : table) (rows : list obj)
| EvDelete (t : table) (rows : list obj).

#[global] Instance event_eq_dec : EqDecision event.
Proof. solve_decision. Defined.

Record World := {
  db : Store;
  trace : list event
}.

#[global] Instance World_eq_dec : EqDecision World.
Proof. solve_decision. Defined.

(** The errors a handler body can throw. *)
Inductive exn :=
| JsonWebTokenError
| TypeError
| SyntaxError
| DbError.

Inductive outcome (A : Type) :=
| Val (a : A)
| Throw (e : exn).
Arguments Val {A} a.
Arguments Throw {A} e.

(** A computation that may read and write the store, record events and
    throw. Writes made before a throw stay: no statement of the sources
    opens a transaction. *)
Definition M (A : Type) : Type := World -> outcome A * World.

Definition ret {A} (a : A) : M A := fun w => (Val a, w).

Definition bind {A B} (m : M A) (k : A -> M B) : M B :=
  fun w => match m w with
           | (Val a, w') => k a w'
           | (Throw e, w') => (Throw e, w')
           end.

Definition throw {A} (e : exn) : M A := fun w => (Throw e, w).

Notation "x <- m ;; k" := (bind m (fun x => k))
  (at level 20, m at level 99, k at level 200, format "x  <-  m  ;;  '/' k").
Notation "'exec' m ;; k" := (bind m (fun _ => k))
  (at level 20, m at level 99, k at level 200, format "'exec'  m  ;;  '/' k").

Definition emit (ev : event) : M unit :=
  fun w => (Val tt, {| db := db w; trace := trace w ++ [ev] |}).

Definition get_db : M Store := fun w => (Val (db w), w).

Definition put_db (s : Store) : M unit :=
  fun w => (Val tt, {| db := s; trace := trace w |}).

(** [try { body } catch (error) { return json(500) }] *)
Definition try_catch (body : M Response) : World -> Response * World :=
  fun w => match body w with
           | (Val r, w') => (r, w')
           | (Throw _, w') => (json 500, w')
           end.

(** ** The environment: token verifier and database driver *)

(** - [jwt_verify token] is [jwt.verify(token, process.env.JWT_SECRET)]:
      the decoded payload, or [None] when it throws (expired, malformed,
      bad signature, secret not configured);
    - [on_delete_cascade]: whether the schema declares the references of
      [fk_children] with [ON DELETE CASCADE];
    - [undefined_bind_throws]: whether [db.execute] refuses an [undefined]
      bind parameter (otherwise it is sent as [NULL]). *)
Record Env := {
  jwt_verify : string -> option obj;
  on_delete_cascade : bool;
  undefined_bind_throws : bool
}.

(** A stored value: [undefined] is written as [NULL]. *)
Definition to_sql (v : value) : value :=
  match v with VUndef => VNull | _ => v end.

Definition is_undefined (v : value) : bool :=
  match v with VUndef => true | _ => false end.

(** The select list of a join: result column and source column. *)
Record join := {
  j_left : bool;
  j_table : table;
  j_fk : string;
  j_proj : list (string * string)
}.

Definition extend (proj : list (string * string)) (p : option obj) (r : obj) : obj :=
  foldl (fun acc ac =>
           <[ac.1 := match p with Some p => to_sql p.[ac.2] | None => VNull end]> acc)
        r proj.

(** [r JOIN t ON r.fk = t.pk] (inner) or [LEFT JOIN] (padding with nulls).
    A selected column that repeats a name of [r] replaces it, as in the
    row objects the driver builds. *)
Definition join_rows (s : Store) (j : join) (r : obj) : list obj :=
  match List.filter (fun p => sql_eq r.[j_fk j] p.[pk (j_table j)]) (rows_of (j_table j) s) with
  | [] => if j_left j then [extend (j_proj j) None r] else []
  | ps => map (fun p => extend (j_proj j) (Some p) r) ps
  end.

Definition joined (s : Store) (js : list join) (where_ : cond) (r : obj) : list obj :=
  List.filter (fun x => holds x where_)
              (foldl (fun acc j => flat_map (join_rows s j) acc) [r] js).

(** Referential action of a [DELETE] on [t] that removed [dead]: the rows of
    the child tables that reference one of them go too, and so on along the
    chain entities, services, payees, subscriptions (at most three steps). *)
Fixpoint cascade (fuel : nat) (t : table) (dead : list obj) (w : World) : World :=
  match fuel with
  | O => w
  | S fuel' =>
      foldl (fun w cf =>
               let gone r := existsb (fun d => sql_eq r.[cf.2] d.[pk t]) dead in
               let rows := rows_of cf.1 (db w) in
               let removed := List.filter gone rows in
               cascade fuel' cf.1 removed
                 {| db := set_rows cf.1 (List.filter (fun r => negb (gone r)) rows) (db w);
                    trace := trace w ++ [EvDelete cf.1 removed] |})
            w (fk_children t)
  end.

Section Driver.
Context (env : Env).

(** [jwt.verify(token, process.env.JWT_SECRET)] *)
Definition verify (token : option string) : M obj :=
  match token with
  | None => throw JsonWebTokenError
  | Some t =>
      exec emit (EvVerify t) ;;
      match jwt_verify env t with
      | Some decoded => ret decoded
      | None => throw JsonWebTokenError
      end
  end.

(** The parameter array of a [db.execute] call. *)
Definition bind_params (vs : list value) : M unit :=
  if undefined_bind_throws env && existsb is_undefined vs
  then throw DbError else ret tt.

(** [SELECT cols FROM t WHERE cs (LIMIT 1)]: the result rows. *)
Definition db_select (cols : option (list string)) (t : table) (cs : list cond)
           (limit1 : bool) : M (list obj) :=
  exec bind_params (map cond_value cs) ;;
  s <- get_db ;;
  let found := List.filter (matches cs) (rows_of t s) in
  let found := if limit1 then take 1 found else found in
  exec emit (EvSelect t found) ;;
  ret (map (project cols) found).

(** [SELECT t.*, ... FROM t JOIN ... LEFT JOIN ... WHERE where_]: the
    joined rows; the recorded rows are those of [t] that appear in the
    result. *)
Definition db_select_join (t : table) (js : list join) (where_ : cond) : M (list obj) :=
  exec bind_params [cond_value where_] ;;
  s <- get_db ;;
  let base := List.filter (fun r => match joined s js where_ r with [] => false | _ => true end)
                          (rows_of t s) in
  exec emit (EvSelect t base) ;;
  ret (flat_map (joined s js where_) (rows_of t s)).

(** [INSERT INTO t (cols) VALUES (?...)]: [result.insertId]. *)
Definition db_insert (t : table) (cols : list (string * value)) : M Z :=
  exec bind_params (map snd cols) ;;
  s <- get_db ;;
  let id := fresh_id (pk t) (rows_of t s) in
  let row := <[pk t := VNum id]> (list_to_map (map (fun cv => (cv.1, to_sql cv.2)) cols)) in
  exec put_db (set_rows t (rows_of t s ++ [row]) s) ;;
  exec emit (EvInsert t row) ;;
  ret id.

(** [UPDATE t SET sets WHERE cs]: [result.affectedRows]. *)
Definition db_update (t : table) (sets : list (string * value)) (cs : list cond) : M Z :=
  exec bind_params (map snd sets ++ map cond_value cs) ;;
  s <- get_db ;;
  let sets' := map (fun cv => (cv.1, to_sql cv.2)) sets in
  exec put_db (set_rows t (map (fun r => if matches cs r then assign sets' r else r)
                               (rows_of t s)) s) ;;
  exec emit (EvUpdate t (List.filter (matches cs) (rows_of t s))) ;;
  ret (Z.of_nat (List.length (List.filter (matches cs) (rows_of t s)))).

(** [DELETE FROM t WHERE cs]: [result.affectedRows]. *)
Definition db_delete (t : table) (cs : list cond) : M Z :=
  exec bind_params (map cond_value cs) ;;
  s <- get_db ;;
  let dead := List.filter (matches cs) (rows_of t s) in
  exec put_db (set_rows t (List.filter (fun r => negb (matches cs r)) (rows_of t s)) s) ;;
  exec emit (EvDelete t dead) ;;
  exec (fun w => (Val tt, if on_delete_cascade env then cascade 3 t dead w else w)) ;;
  ret (Z.of_nat (List.length dead)).

(** [const body = await request.json()] and the destructuring. *)
Definition request_json (req : Request) : M obj :=
  match json_body req with
  | Some body => ret body
  | None => throw SyntaxError
  end.

(** [v.toLowerCase()]: a [TypeError] on anything but a string. *)
Definition toLowerCase (v : value) : M string :=
  match v with
  | VStr s => ret (lower s)
  | _ => throw TypeError
  end.

(** [category && !['income', 'expense'].includes(category.toLowerCase())] *)
Definition category_invalid (category : value) : M bool :=
  if truthy category
  then lc <- toLowerCase category ;; ret (negb (includes_category lc))
  else ret false.

(** [category ? category.toLowerCase() : existing] *)
Definition category_or (category existing : value) : M value :=
  if truthy category
  then lc <- toLowerCase category ;; ret (VStr lc)
  else ret existing.

(** The opening of every entities, services, payees and subscriptions
    handler:
<<
    const authHeader = request.headers.get('Authorization');
    if (!authHeader || !authHeader.startsWith('Bearer ')) return 401;
    const token = authHeader.split(' ')[1];
    const decoded = jwt.verify(token, process.env.JWT_SECRET);
>>
    The rest of the handler is the continuation [k]. *)
Definition bearer (req : Request) (k : obj -> M Response) : M Response :=
  match authorization req with
  | None => ret (json 401)
  | Some authHeader =>
      if falsy (VStr authHeader) || negb (startsWith "Bearer " authHeader)
      then ret (json 401)
      else decoded <- verify (split " "%char authHeader !! 1%nat) ;; k decoded
  end.

(** The opening of the two user handlers:
<<
    const token = request.headers.get('Authorization')?.split(' ')[1];
    if (!token) return 401;
    const decoded = jwt.verify(token, process.env.JWT_SECRET);
>> *)
Definition second_word (req : Request) (k : obj -> M Response) : M Response :=
  let token := match authorization req with
               | None => None
               | Some h => split " "%char h !! 1%nat
               end in
  match token with
  | None => ret (json 401)
  | Some t =>
      if falsy (VStr t) then ret (json 401)
      else decoded <- verify (Some t) ;; k decoded
  end.

(** The optional name resolution of the payees and subscriptions PUT:
<<
    let xId = null;
    if (x_name) {
      const [[x]] = await db.execute('SELECT id FROM t WHERE col = ?', [x_name]);
      if (!x) return 404;
      xId = x.id;
    }
>>
    The rest of the handler is the continuation [k] of [xId]. *)
Definition resolve (t : table) (col : string) (name : value)
           (k : value -> M Response) : M Response :=
  if truthy name then
    rows <- db_select (Some ["id"]) t [CEq col name] false ;;
    match head rows with
    | None => ret (json 404)
    | Some x => k x.["id"]
    end
  else k VNull.

End Driver.

Definition Handler : Type := Request -> World -> Response * World.

(** The joins of the four list queries. *)
Definition join_users : join :=
  {| j_left := false; j_table := Users; j_fk := "user_id";
     j_proj := [("username", "username"); ("user_id", "sr")] |}.

Definition join_entities : join :=
  {| j_left := true; j_table := Entities; j_fk := "entity_id";
     j_proj := [("entity_id", "id"); ("entity_name", "entity_name")] |}.

Definition join_services : join :=
  {| j_left := true; j_table := Services; j_fk := "service_id";
     j_proj := [("service_id", "id"); ("service_name", "service_name")] |}.

Definition join_services_duration : join :=
  {| j_left := true; j_table := Services; j_fk := "service_id";
     j_proj := [("service_id", "id"); ("service_name", "service_name");
                ("service_duration", "min_duration")] |}.

Definition join_payees : join :=
  {| j_left := true; j_table := Payees; j_fk := "payee_id";
     j_proj := [("payee_name", "payee_name"); ("payee_email", "email");
                ("payee_phone", "phone")] |}.

(** The list handlers differ in table and joins only:
<<
      const [rows] = await db.execute(`SELECT t.*, ... WHERE users.sr = ?`, [decoded.user_id]);
      if (rows.length === 0) return 404;
      return 200 with data: rows;
>>
      [users.sr] is selected as [user_id], the column the filter reads. *)
Definition list_rows (env : Env) (t : table) (js : list join) : Handler :=
  fun req =>
    try_catch (bearer env req (fun decoded =>
      rows <- db_select_join env t js (CEq "user_id" decoded.["user_id"]) ;;
      match rows with
      | [] => ret (json 404)
      | _ => ret {| status := 200; data := DataRows rows |}
      end)).

(** ** Entities (part_003 lines 1-302; GET, POST, PUT also part_000) *)
Module EntitiesRoute.
Section Route.
Context (env : Env).

Definition GET : Handler := list_rows env Entities [join_users].

Definition POST : Handler := fun req =>
  try_catch (bearer env req (fun decoded =>
    body <- request_json req ;;
    let entity_name := body.["entity_name"] in
    let entity_desc := body.["entity_desc"] in
    let entity_short_desc := body.["entity_short_desc"] in
    let category := body.["category"] in
    if falsy entity_name || falsy entity_desc || falsy entity_short_desc || falsy category
    then ret (json 400)
    else
      lc <- toLowerCase category ;;
      if negb (includes_category lc) then ret (json 400)
      else
        insertId <- db_insert env Entities
                      [("user_id", decoded.["user_id"]); ("entity_name", entity_name);
                       ("entity_desc", entity_desc); ("entity_short_desc", entity_short_desc);
                       ("category", VStr lc)] ;;
        ret {| status := 201;
               data := DataObj (list_to_map
                         [("id", VNum insertId); ("user_id", decoded.["user_id"]);
                          ("entity_name", entity_name); ("entity_desc", entity_desc);
                          ("entity_short_desc", entity_short_desc);
                          ("category", VStr lc)]) |})).

Definition PUT : Handler := fun req =>
  try_catch (bearer env req (fun decoded =>
    let user_id := decoded.["user_id"] in
    body <- request_json req ;;
    let id := body.["id"] in
    let entity_name := body.["entity_name"] in
    let entity_desc := body.["entity_desc"] in
    let entity_short_desc := body.["entity_short_desc"] in
    let category := body.["category"] in
    if falsy id || falsy entity_name || falsy entity_desc || falsy entity_short_desc
    then ret (json 400)
    else
      invalid <- category_invalid category ;;
      if invalid then ret (json 400)
      else
        existingEntity <- db_select env None Entities [CEq "id" id; CEq "user_id" user_id] true ;;
        match existingEntity with
        | [] => ret (json 404)
        | existing :: _ =>
            new_category <- category_or category existing.["category"] ;;
            exec db_update env Entities
                   [("entity_name", js_or entity_name existing.["entity_name"]);
                    ("entity_desc", js_or entity_desc existing.["entity_desc"]);
                    ("entity_short_desc", js_or entity_short_desc existing.["entity_short_desc"]);
                    ("category", new_category)]
                   [CEq "id" id; CEq "user_id" user_id] ;;
            ret (json 200)
        end)).

Definition DELETE : Handler := fun req =>
  try_catch (bearer env req (fun decoded =>
    let user_id := decoded.["user_id"] in
    body <- request_json req ;;
    let entity_id := body.["entity_id"] in
    if falsy entity_id then ret (json 400)
    else
      existingEntity <- db_select env None Entities [CEq "id" entity_id; CEq "user_id" user_id] true ;;
      match existingEntity with
      | [] => ret (json 404)
      | _ =>
          exec db_delete env Services [CEq "entity_id" entity_id] ;;
          exec db_delete env Payees [CEq "entity_id" entity_id] ;;
          exec db_delete env Subscriptions [CEq "entity_id" entity_id] ;;
          exec db_delete env Entities [CEq "id" entity_id; CEq "user_id" user_id] ;;
          ret (json 200)
      end)).

End Route.
End EntitiesRoute.

(** ** Entities, the route file part_000: its DELETE (lines 232-267) leaves
    the dependent rows to the schema. *)
Module Part000.
Section Route.
Context (env : Env).

Definition DELETE : Handler := fun req =>
  try_catch (bearer env req (fun decoded =>
    let userId := decoded.["user_id"] in
    body <- request_json req ;;
    let entity_id := body.["entity_id"] in
    if falsy entity_id then ret (json 400)
    else
      rows <- db_select env (Some ["id"]) Entities [CEq "id" entity_id; CEq "user_id" userId] true ;;
      match head rows with
      | None => ret (json 404)
      | Some _ =>
          exec db_delete env Entities [CEq "id" entity_id] ;;
          ret (json 200)
      end)).

End Route.
End Part000.

(** ** Services (part_003 lines 304-645; GET, POST, PUT also part_002) *)
Module ServicesRoute.
Section Route.
Context (env : Env).

Definition GET : Handler := list_rows env Services [join_users; join_entities].

Definition POST : Handler := fun req =>
  try_catch (bearer env req (fun decoded =>
    body <- request_json req ;;
    let service_name := body.["service_name"] in
    let service_desc := body.["service_desc"] in
    let entity_name := body.["entity_name"] in
    let min_duration := body.["min_duration"] in
    let amount := body.["amount"] in
    let category := body.["category"] in
    if falsy service_name || falsy service_desc || falsy min_duration || falsy amount
       || falsy category || falsy entity_name
    then ret (json 400)
    else
      lc <- toLowerCase category ;;
      if negb (includes_category lc) then ret (json 400)
      else
        entityRows <- db_select env (Some ["id"]) Entities [CEq "entity_name" entity_name] true ;;
        match entityRows with
        | [] => ret (json 404)
        | entity :: _ =>
            let entity_id := entity.["id"] in
            insertId <- db_insert env Services
                          [("user_id", decoded.["user_id"]); ("entity_id", entity_id);
                           ("service_name", service_name); ("service_desc", service_desc);
                           ("min_duration", min_duration); ("amount", amount);
                           ("category", VStr lc)] ;;
            ret {| status := 201;
                   data := DataObj (list_to_map
                             [("id", VNum insertId); ("user_id", decoded.["user_id"]);
                              ("entity_id", entity_id); ("entity_name", entity_name);
                              ("service_name", service_name); ("service_desc", service_desc);
                              ("min_duration", min_duration); ("amount", amount);
                              ("category", VStr lc)]) |}
        end)).

Definition PUT : Handler := fun req =>
  try_catch (bearer env req (fun decoded =>
    let user_id := decoded.["user_id"] in
    body <- request_json req ;;
    let id := body.["id"] in
    let entity_name := body.["entity_name"] in
    let service_name := body.["service_name"] in
    let service_desc := body.["service_desc"] in
    let min_duration := body.["min_duration"] in
    let amount := body.["amount"] in
    let category := body.["category"] in
    if falsy id || falsy entity_name then ret (json 400)
    else
      invalid <- category_invalid category ;;
      if invalid then ret (json 400)
      else
        entityRows <- db_select env (Some ["id"]) Entities [CEq "entity_name" entity_name] true ;;
        match entityRows with
        | [] => ret (json 404)
        | entity :: _ =>
            let entity_id := entity.["id"] in
            existingService <- db_select env None Services
                                 [CEq "id" id; CEq "user_id" user_id; CEq "entity_id" entity_id]
                                 true ;;
            match existingService with
            | [] => ret (json 404)
            | existing :: _ =>
                new_category <- category_or category existing.["category"] ;;
                exec db_update env Services
                       [("service_name", js_or service_name existing.["service_name"]);
                        ("service_desc", js_or service_desc existing.["service_desc"]);
                        ("min_duration", js_or min_duration existing.["min_duration"]);
                        ("amount", js_or amount existing.["amount"]);
                        ("category", new_category)]
                       [CEq "id" id; CEq "user_id" user_id; CEq "entity_id" entity_id] ;;
                ret (json 200)
            end
        end)).

Definition DELETE : Handler := fun req =>
  try_catch (bearer env req (fun decoded =>
    let user_id := decoded.["user_id"] in
    body <- request_json req ;;
    let id := body.["id"] in
    if falsy id then ret (json 400)
    else
      existingService <- db_select env None Services [CEq "id" id; CEq "user_id" user_id] true ;;
      match existingService with
      | [] => ret (json 404)
      | _ =>
          exec db_delete env Payees [CEq "service_id" id] ;;
          exec db_delete env Subscriptions [CEq "service_id" id] ;;
          exec db_delete env Services [CEq "id" id; CEq "user_id" user_id] ;;
          ret (json 200)
      end)).

End Route.
End ServicesRoute.

(** ** Services, the route file part_002: its DELETE (lines 273-308). *)
Module Part002.
Section Route.
Context (env : Env).

Definition DELETE : Handler := fun req =>
  try_catch (bearer env req (fun decoded =>
    let userId := decoded.["user_id"] in
    body <- request_json req ;;
    let id := body.["id"] in
    if falsy id then ret (json 400)
    else
      rows <- db_select env (Some ["id"]) Services [CEq "id" id; CEq "user_id" userId] true ;;
      match head rows with
      | None => ret (json 404)
      | Some _ =>
          exec db_delete env Services [CEq "id" id] ;;
          ret (json 200)
      end)).

End Route.
End Part002.

(** ** Payees (part_003 lines 647-881, also the second document of
    EditUser/route.js) *)
Module PayeesRoute.
Section Route.
Context (env : Env).

Definition GET : Handler :=
  list_rows env Payees [join_users; join_entities; join_services].

Definition POST : Handler := fun req =>
  try_catch (bearer env req (fun decoded =>
    let user_id := decoded.["user_id"] in
    body <- request_json req ;;
    let entity_name := body.["entity_name"] in
    let service_name := body.["service_name"] in
    let payee_name := body.["payee_name"] in
    let phone := body.["phone"] in
    let email := body.["email"] in
    let amount := body.["amount"] in
    let category := body.["category"] in
    if falsy entity_name || falsy service_name || falsy payee_name || falsy phone
       || falsy email || falsy amount || falsy category
    then ret (json 400)
    else
      entityRows <- db_select env (Some ["id"]) Entities [CEq "entity_name" entity_name] false ;;
      serviceRows <- db_select env (Some ["id"]) Services [CEq "service_name" service_name] false ;;
      match head entityRows, head serviceRows with
      | Some entity, Some service =>
          exec db_insert env Payees
                 [("user_id", user_id); ("entity_id", entity.["id"]);
                  ("service_id", service.["id"]); ("payee_name", payee_name);
                  ("phone", phone); ("email", email); ("amount", amount);
                  ("category", category)] ;;
          ret (json 201)
      | _, _ => ret (json 404)
      end)).

Definition PUT : Handler := fun req =>
  try_catch (bearer env req (fun decoded =>
    let userId := decoded.["user_id"] in
    body <- request_json req ;;
    let id := body.["id"] in
    let user_id := body.["user_id"] in
    let entity_name := body.["entity_name"] in
    let service_name := body.["service_name"] in
    let payee_name := body.["payee_name"] in
    let phone := body.["phone"] in
    let email := body.["email"] in
    let amount := body.["amount"] in
    let category := body.["category"] in
    if falsy id then ret (json 400)
    else
      let resolvedUserId := js_or user_id userId in
      resolve env Entities "entity_name" entity_name (fun entityId =>
      resolve env Services "service_name" service_name (fun serviceId =>
        exec db_update env Payees
               [("user_id", resolvedUserId); ("entity_id", entityId);
                ("service_id", serviceId); ("payee_name", payee_name);
                ("phone", phone); ("email", email); ("amount", amount);
                ("category", category)]
               [CEq "id" id] ;;
        ret (json 200))))).

Definition DELETE : Handler := fun req =>
  try_catch (bearer env req (fun decoded =>
    let userId := decoded.["user_id"] in
    body <- request_json req ;;
    let id := body.["id"] in
    if falsy id then ret (json 400)
    else
      rows <- db_select env None Payees [CEq "id" id; CEq "user_id" userId] false ;;
      match head rows with
      | None => ret (json 404)
      | Some _ =>
          exec db_delete env Subscriptions [CEq "payee_id" id] ;;
          exec db_delete env Payees [CEq "id" id; CEq "user_id" userId] ;;
          ret (json 200)
      end)).

End Route.
End PayeesRoute.

(** ** Subscriptions (part_003 lines 884-1125) *)
Module SubscriptionsRoute.
Section Route.
Context (env : Env).

Definition GET : Handler :=
  list_rows env Subscriptions
            [join_users; join_entities; join_services_duration; join_payees].

Definition POST : Handler := fun req =>
  try_catch (bearer env req (fun decoded =>
    let user_id := decoded.["user_id"] in
    body <- request_json req ;;
    let entity_name := body.["entity_name"] in
    let service_name := body.["service_name"] in
    let payee_name := body.["payee_name"] in
    let startDate := body.["startDate"] in
    let endDate := body.["endDate"] in
    let amount := body.["amount"] in
    let paymentDate := body.["paymentDate"] in
    let category := body.["category"] in
    if falsy entity_name || falsy service_name || falsy payee_name || falsy startDate
       || falsy endDate || falsy amount || falsy paymentDate || falsy category
    then ret (json 400)
    else
      entityRows <- db_select env (Some ["id"]) Entities [CEq "entity_name" entity_name] false ;;
      serviceRows <- db_select env (Some ["id"]) Services [CEq "service_name" service_name] false ;;
      payeeRows <- db_select env (Some ["id"]) Payees [CEq "payee_name" payee_name] false ;;
      match head entityRows, head serviceRows, head payeeRows with
      | Some entity, Some service, Some payee =>
          exec db_insert env Subscriptions
                 [("user_id", user_id); ("entity_id", entity.["id"]);
                  ("service_id", service.["id"]); ("payee_id", payee.["id"]);
                  ("startDate", startDate); ("endDate", endDate); ("amount", amount);
                  ("paymentDate", paymentDate); ("category", category)] ;;
          ret (json 201)
      | _, _, _ => ret (json 404)
      end)).

Definition PUT : Handler := fun req =>
  try_catch (bearer env req (fun decoded =>
    body <- request_json req ;;
    let id := body.["id"] in
    let user_id := body.["user_id"] in
    let entity_name := body.["entity_name"] in
    let service_name := body.["service_name"] in
    let payee_name := body.["payee_name"] in
    let startDate := body.["startDate"] in
    let endDate := body.["endDate"] in
    let amount := body.["amount"] in
    let paymentDate := body.["paymentDate"] in
    let category := body.["category"] in
    if falsy id then ret (json 400)
    else
      let resolvedUserId := js_or user_id decoded.["user_id"] in
      resolve env Entities "entity_name" entity_name (fun entityId =>
      resolve env Services "service_name" service_name (fun serviceId =>
      resolve env Payees "payee_name" payee_name (fun payeeId =>
        exec db_update env Subscriptions
               [("user_id", resolvedUserId); ("entity_id", entityId);
                ("service_id", serviceId); ("payee_id", payeeId);
                ("startDate", startDate); ("endDate", endDate); ("amount", amount);
                ("paymentDate", paymentDate); ("category", category)]
               [CEq "id" id] ;;
        ret (json 200)))))).

Definition DELETE : Handler := fun req =>
  try_catch (bearer env req (fun decoded =>
    let userId := decoded.["user_id"] in
    body <- request_json req ;;
    let id := body.["id"] in
    if falsy id then ret (json 400)
    else
      rows <- db_select env None Subscriptions [CEq "id" id; CEq "user_id" userId] false ;;
      match head rows with
      | None => ret (json 404)
      | Some _ =>
          exec db_delete env Subscriptions [CEq "id" id; CEq "user_id" userId] ;;
          ret (json 200)
      end)).

End Route.
End SubscriptionsRoute.

(** ** User edit (src/app/api/EditUser/route.js lines 18-55) *)
Module EditUserRoute.
Section Route.
Context (env : Env).

Definition PUT : Handler := fun req =>
  try_catch (second_word env req (fun decoded =>
    let userId := decoded.["id"] in
    body <- request_json req ;;
    let name := body.["name"] in
    let email := body.["email"] in
    let phone := body.["phone"] in
    let username := body.["username"] in
    let password := body.["password"] in
    existingUser <- db_select env None Users [CEq "username" username; CNe "sr" userId] false ;;
    match existingUser with
    | _ :: _ => ret (json 409)
    | [] =>
        affectedRows <- db_update env Users
                          [("name", name); ("email", email); ("phone", phone);
                           ("username", username); ("password", password)]
                          [CEq "sr" userId] ;;
        if (affectedRows =? 0)%Z then ret (json 404) else ret (json 200)
    end)).

End Route.
End EditUserRoute.

(** ** User delete (part_001 lines 18-44) *)
Module DeleteUserRoute.
Section Route.
Context (env : Env).

Definition DELETE : Handler := fun req =>
  try_catch (second_word env req (fun decoded =>
    let userId := decoded.["id"] in
    affectedRows <- db_delete env Users [CEq "sr" userId] ;;
    if (affectedRows =? 0)%Z then ret (json 404) else ret (json 200))).

End Route.
End DeleteUserRoute.

(** ** The endpoints *)

Inductive resource := REntities | RServices | RPayees | RSubscriptions.

Inductive method := mGET | mPOST | mPUT | mDELETE.

(** Every exported handler of the sources: the sixteen of part_003, the two
    DELETE variants of part_000 and part_002, and the two user handlers. *)
Inductive endpoint :=
| Res (r : resource) (m : method)
| EntitiesDELETE000
| ServicesDELETE002
| EditUserPUT
| DeleteUserDELETE.

Definition run (env : Env) (ep : endpoint) : Handler :=
  match ep with
  | Res REntities mGET => EntitiesRoute.GET env
  | Res REntities mPOST => EntitiesRoute.POST env
  | Res REntities mPUT => EntitiesRoute.PUT env
  | Res REntities mDELETE => EntitiesRoute.DELETE env
  | Res RServices mGET => ServicesRoute.GET env
  | Res RServices mPOST => ServicesRoute.POST env
  | Res RServices mPUT => ServicesRoute.PUT env
  | Res RServices mDELETE => ServicesRoute.DELETE env
  | Res RPayees mGET => PayeesRoute.GET env
  | Res RPayees mPOST => PayeesRoute.POST env
  | Res RPayees mPUT => PayeesRoute.PUT env
  | Res RPayees mDELETE => PayeesRoute.DELETE env
  | Res RSubscriptions mGET => SubscriptionsRoute.GET env
  | Res RSubscriptions mPOST => SubscriptionsRoute.POST env
  | Res RSubscriptions mPUT => SubscriptionsRoute.PUT env
  | Res RSubscriptions mDELETE => SubscriptionsRoute.DELETE env
  | EntitiesDELETE000 => Part000.DELETE env
  | ServicesDELETE002 => Part002.DELETE env
  | EditUserPUT => EditUserRoute.PUT env
  | DeleteUserDELETE => DeleteUserRoute.DELETE env
  end.

Definition is_user_endpoint (ep : endpoint) : bool :=
  match ep with
  | EditUserPUT | DeleteUserDELETE => true
  | _ => false
  end.

(** The table a resource handler serves. *)
Definition table_of (r : resource) : table :=
  match r with
  | REntities => Entities
  | RServices => Services
  | RPayees => Payees
  | RSubscriptions => Subscriptions
  end.

(** * Vocabulary of the properties *)

(** ** Credentials *)

(** The header carries the literal scheme: present and starting with
    [Bearer ] (with the space). *)
Definition bearer_header (h : option string) : bool :=
  match h with
  | Some s => startsWith "Bearer " s
  | None => false
  end.

(** The text every handler hands to [jwt.verify]: the second piece of the
    header split at spaces. *)
Definition auth_token (h : option string) : option string :=
  match h with
  | Some s => split " "%char s !! 1%nat
  | None => None
  end.

(** The header has a non-empty second word, whatever the first one is. *)
Definition has_second_word (h : option string) : bool :=
  match auth_token h with
  | Some t => truthy (VStr t)
  | None => false
  end.

(** The test an endpoint applies to the header before it verifies anything. *)
Definition guard_passes (ep : endpoint) (h : option string) : bool :=
  if is_user_endpoint ep then has_second_word h else bearer_header h.

(** The request passes the endpoint's header test and its token verifies
    to the payload [decoded]. *)
Definition authenticated (env : Env) (ep : endpoint) (req : Request) (decoded : obj) : Prop :=
  guard_passes ep (authorization req) = true /\
  exists tok, auth_token (authorization req) = Some tok /\ jwt_verify env tok = Some decoded.


(** Every handler is its header test followed by a body. *)
Definition body_of (env : Env) (ep : endpoint) (req : Request) (k : obj -> M Response) : Prop :=
  run env ep req =
  try_catch (if is_user_endpoint ep then second_word env req k else bearer env req k).

(** ** Worlds and what was recorded *)

(** A world with nothing recorded yet. *)
Definition fresh (s : Store) : World := {| db := s; trace := [] |}.

(** The world after one more event. *)
Definition logged (w : World) (ev : event) : World :=
  {| db := db w; trace := trace w ++ [ev] |}.

(** A statement that writes. *)
Definition is_write (ev : event) : bool :=
  match ev with
  | EvInsert _ _ | EvUpdate _ _ | EvDelete _ _ => true
  | EvVerify _ | EvSelect _ _ => false
  end.

(** [w'] differs from [w] by recorded reads only. *)
Definition read_only (w w' : World) : Prop :=
  db w' = db w /\
  exists evs, trace w' = trace w ++ evs /\ forallb (fun ev => negb (is_write ev)) evs = true.

(** The table rows an event concerns. *)
Definition event_rows (ev : event) : list (table * obj) :=
  match ev with
  | EvVerify _ => []
  | EvSelect t rs | EvUpdate t rs | EvDelete t rs => map (pair t) rs
  | EvInsert t r => [(t, r)]
  end.

(** The table rows a run read, inserted, matched for update or removed. *)
Definition touched (tr : list event) : list (table * obj) := flat_map event_rows tr.

(** Every row of table [t] recorded in the world belongs to user [u]. *)
Definition scoped (u : Z) (t : table) (w : World) : Prop :=
  forall r, In (t, r) (touched (trace w)) -> r.["user_id"] = VNum u.

(** ** Validation and name resolution *)

(** The fields each handler tests with [!field] before anything else. *)
Definition required_fields (r : resource) (m : method) : list string :=
  match r, m with
  | _, mGET => []
  | REntities, mPOST => ["entity_name"; "entity_desc"; "entity_short_desc"; "category"]
  | REntities, mPUT => ["id"; "entity_name"; "entity_desc"; "entity_short_desc"]
  | REntities, mDELETE => ["entity_id"]
  | RServices, mPOST =>
      ["service_name"; "service_desc"; "min_duration"; "amount"; "category"; "entity_name"]
  | RServices, mPUT => ["id"; "entity_name"]
  | RPayees, mPOST =>
      ["entity_name"; "service_name"; "payee_name"; "phone"; "email"; "amount"; "category"]
  | RSubscriptions, mPOST =>
      ["entity_name"; "service_name"; "payee_name"; "startDate"; "endDate"; "amount";
       "paymentDate"; "category"]
  | (RPayees | RSubscriptions), mPUT => ["id"]
  | (RServices | RPayees | RSubscriptions), mDELETE => ["id"]
  end.

(** Some field of the list is absent or falsy in the body. *)
Definition missing (fields : list string) (body : obj) : bool :=
  existsb (fun f => falsy body.[f]) fields.

(** [['income', 'expense'].includes(v.toLowerCase())] holds. *)
Definition category_accepted (v : value) : bool :=
  match v with
  | VStr s => includes_category (lower s)
  | _ => false
  end.

(** The request passes the validation stage of its handler: no required
    field is missing and, where the handler tests the category, the test
    passes. *)
Definition passes_validation (r : resource) (m : method) (body : obj) : bool :=
  negb (missing (required_fields r m) body) &&
  match r, m with
  | (REntities | RServices), mPOST => category_accepted body.["category"]
  | (REntities | RServices), mPUT =>
      falsy body.["category"] || category_accepted body.["category"]
  | _, _ => true
  end.

(** The rows the statement [SELECT ... FROM t WHERE col = name] matches. *)
Definition lookup_name (s : Store) (t : table) (col : string) (name : value) : list obj :=
  List.filter (matches [CEq col name]) (rows_of t s).

(** The names a resource's Create and Update resolve, with the table each is
    looked up in; the column has the name of the body field. *)
Definition references (r : resource) : list (string * table) :=
  match r with
  | REntities => []
  | RServices => [("entity_name", Entities)]
  | RPayees => [("entity_name", Entities); ("service_name", Services)]
  | RSubscriptions =>
      [("entity_name", Entities); ("service_name", Services); ("payee_name", Payees)]
  end.

(** The body supplies the name and its lookup matches no row. *)
Definition resolves_to_nothing (s : Store) (body : obj) (ref : string * table) : bool :=
  truthy body.[ref.1] &&
  match lookup_name s ref.2 ref.1 body.[ref.1] with [] => true | _ => false end.

(** ** Statements and their results *)

(** The rows of a table after [UPDATE ... SET sets WHERE cs]. *)
Definition updated (sets : list (string * value)) (cs : list cond) (l : list obj) : list obj :=
  map (fun r => if matches cs r then assign (map (fun cv => (cv.1, to_sql cv.2)) sets) r else r) l.

(** The world after [DELETE FROM t WHERE cs]. *)
Definition deleted (env : Env) (t : table) (cs : list cond) (w : World) : World :=
  let dead := List.filter (matches cs) (rows_of t (db w)) in
  let w1 := {| db := set_rows t (List.filter (fun r => negb (matches cs r)) (rows_of t (db w)))
                              (db w);
               trace := trace w ++ [EvDelete t dead] |} in
  if on_delete_cascade env then cascade 3 t dead w1 else w1.

(** Every row of [s'] is a row of [s], table by table. *)
Definition store_le (s' s : Store) : Prop :=
  forall t r, In r (rows_of t s') -> In r (rows_of t s).

(** The joins of each resource's list query. *)
Definition list_joins (r : resource) : list join :=
  match r with
  | REntities => [join_users]
  | RServices => [join_users; join_entities]
  | RPayees => [join_users; join_entities; join_services]
  | RSubscriptions => [join_users; join_entities; join_services_duration; join_payees]
  end.

(** The fields the entities and services PUT write. *)
Definition updatable (r : resource) : list string :=
  match r with
  | REntities => ["entity_name"; "entity_desc"; "entity_short_desc"; "category"]
  | RServices => ["service_name"; "service_desc"; "min_duration"; "amount"; "category"]
  | RPayees | RSubscriptions => []
  end.

(** ** Ownership *)

(** Position of a table in the reference chain: a child is further down
    than its parent. *)
Definition rank (t : table) : nat :=
  match t with
  | Users => 0
  | Entities => 1
  | Services => 2
  | Payees => 3
  | Subscriptions => 4
  end.

(** The endpoints whose statements on their own table carry the owner:
    every handler of the four resources but the payees and subscriptions
    PUT. *)
Definition owner_scoped (ep : endpoint) : bool :=
  match ep with
  | Res RPayees mPUT | Res RSubscriptions mPUT => false
  | EditUserPUT | DeleteUserDELETE => false
  | _ => true
  end.

(** The table an endpoint serves. *)
Definition own_table (ep : endpoint) : option table :=
  match ep with
  | Res r _ => Some (table_of r)
  | EntitiesDELETE000 => Some Entities
  | ServicesDELETE002 => Some Services
  | EditUserPUT | DeleteUserDELETE => None
  end.

(** The key column identifies a row of the table. *)
Definition key_unique (t : table) (s : Store) : Prop :=
  forall r1 r2, In r1 (rows_of t s) -> In r2 (rows_of t s) ->
                r1.[pk t] = r2.[pk t] -> r1 = r2.

(** ** Outcomes *)

(** The statuses with which a handler reports that it served the request. *)
Definition success (st : Z) : bool := (st =? 200)%Z || (st =? 201)%Z.

(** The statuses with which a handler turns a request down: invalid input,
    missing credentials, nothing found, conflict. *)
Definition refusal (st : Z) : bool :=
  (st =? 400)%Z || (st =? 401)%Z || (st =? 404)%Z || (st =? 409)%Z.

(** The statuses of the [return] statements of each handler, the catch-all
    included. *)
Definition statuses (ep : endpoint) : list Z :=
  match ep with
  | Res _ mGET => [401; 404; 200; 500]
  | Res REntities mPOST => [401; 400; 201; 500]
  | Res _ mPOST => [401; 400; 404; 201; 500]
  | Res _ mPUT => [401; 400; 404; 200; 500]
  | Res _ mDELETE | EntitiesDELETE000 | ServicesDELETE002 => [401; 400; 404; 200; 500]
  | EditUserPUT => [401; 409; 404; 200; 500]
  | DeleteUserDELETE => [401; 404; 200; 500]
  end%Z.

(** ** Bodies and headers *)

(** The handlers that parse the request body: all but the lists and the
    user delete. *)
Definition reads_body (ep : endpoint) : bool :=
  match ep with
  | Res _ mGET | DeleteUserDELETE => false
  | _ => true
  end.

(** The string contains a space. *)
Fixpoint has_space (s : string) : bool :=
  match s with
  | EmptyString => false
  | String c s' => Ascii.eqb c " " || has_space s'
  end.

(** ** The order of the recorded calls *)

(** [w'] has the recorded calls of [w] and possibly more after them. *)
Definition grows (w w' : World) : Prop := exists evs, trace w' = trace w ++ evs.

(** The calls start with a token verification, or there are none. *)
Definition verified_first (evs : list event) : bool :=
  match evs with
  | [] | EvVerify _ :: _ => true
  | _ => false
  end.

(** ** Deletes *)

(** The six DELETE handlers of the resources: the table each deletes from
    and the body field that holds the key. *)
Definition delete_endpoint (ep : endpoint) : option (table * string) :=
  match ep with
  | Res REntities mDELETE | EntitiesDELETE000 => Some (Entities, "entity_id")
  | Res RServices mDELETE | ServicesDELETE002 => Some (Services, "id")
  | Res RPayees mDELETE => Some (Payees, "id")
  | Res RSubscriptions mDELETE => Some (Subscriptions, "id")
  | _ => None
  end.

(** [WHERE id = ? AND user_id = ?]: the caller's row with that key. *)
Definition own_row (id owner : value) : list cond := [CEq "id" id; CEq "user_id" owner].


(** ** Creates and updates *)

(** The column through which a row references a row of table [t]. *)
Definition fk_to (t : table) : string :=
  match t with
  | Users => "user_id"
  | Entities => "entity_id"
  | Services => "service_id"
  | Payees => "payee_id"
  | Subscriptions => "subscription_id"
  end.


(** The same world with other rows in one table. *)
Definition with_rows (t : table) (rows : list obj) (w : World) : World :=
  {| db := set_rows t rows (db w); trace := trace w |}.

(** ** The user handlers *)

(** The columns the user edit writes, each from the body field of the same
    name. *)
Definition user_fields : list string := ["name"; "email"; "phone"; "username"; "password"].

(** * A concrete deployment

    Two users, ann (7) and bob (8). Bob owns the entity Acme with its
    service Salary and the payee Bob Ltd; ann owns the entity Home with its
    service Rent, the payee Landlord and one subscription. The verifier
    knows one token per user. *)

Definition row (l : list (string * value)) : obj := list_to_map l.

Definition demo_verify (token : string) : option obj :=
  if String.eqb token "tok7" then Some (row [("user_id", VNum 7); ("id", VNum 7)])
  else if String.eqb token "tok8" then Some (row [("user_id", VNum 8); ("id", VNum 8)])
  else None.

(** A schema without cascading references and a driver that refuses
    [undefined] parameters. *)
Definition demo_env : Env :=
  {| jwt_verify := demo_verify; on_delete_cascade := false; undefined_bind_throws := true |}.

(** The same with [ON DELETE CASCADE] on the references. *)
Definition demo_env_cascade : Env :=
  {| jwt_verify := demo_verify; on_delete_cascade := true; undefined_bind_throws := true |}.

(** The same as [demo_env] with a driver that sends [undefined] as null. *)
Definition demo_env_lenient : Env :=
  {| jwt_verify := demo_verify; on_delete_cascade := false; undefined_bind_throws := false |}.

Definition acme : obj :=
  row [("id", VNum 5); ("user_id", VNum 8); ("entity_name", VStr "Acme");
       ("entity_desc", VStr "employer"); ("entity_short_desc", VStr "job");
       ("category", VStr "income")].

Definition home : obj :=
  row [("id", VNum 6); ("user_id", VNum 7); ("entity_name", VStr "Home");
       ("entity_desc", VStr "flat"); ("entity_short_desc", VStr "flat");
       ("category", VStr "expense")].

Definition rent : obj :=
  row [("id", VNum 3); ("user_id", VNum 7); ("entity_id", VNum 6);
       ("service_name", VStr "Rent"); ("service_desc", VStr "monthly rent");
       ("min_duration", VNum 12); ("amount", VNum 900); ("category", VStr "expense")].

Definition salary : obj :=
  row [("id", VNum 4); ("user_id", VNum 8); ("entity_id", VNum 5);
       ("service_name", VStr "Salary"); ("service_desc", VStr "monthly pay");
       ("min_duration", VNum 1); ("amount", VNum 3000); ("category", VStr "income")].

Definition bob_ltd : obj :=
  row [("id", VNum 1); ("user_id", VNum 8); ("entity_id", VNum 5); ("service_id", VNum 4);
       ("payee_name", VStr "Bob Ltd"); ("phone", VStr "555"); ("email", VStr "b@x.io");
       ("amount", VNum 3000); ("category", VStr "income")].

Definition landlord : obj :=
  row [("id", VNum 2); ("user_id", VNum 7); ("entity_id", VNum 6); ("service_id", VNum 3);
       ("payee_name", VStr "Landlord"); ("phone", VStr "777"); ("email", VStr "l@x.io");
       ("amount", VNum 900); ("category", VStr "expense")].

Definition lease : obj :=
  row [("id", VNum 1); ("user_id", VNum 7); ("entity_id", VNum 6); ("service_id", VNum 3);
       ("payee_id", VNum 2); ("startDate", VStr "2025-01-01"); ("endDate", VStr "2025-12-31");
       ("amount", VNum 900); ("paymentDate", VStr "2025-01-05"); ("category", VStr "expense")].

Definition demo_store : Store :=
  {| users := [row [("sr", VNum 7); ("username", VStr "ann")];
               row [("sr", VNum 8); ("username", VStr "bob")]];
     entities := [acme; home];
     services := [rent; salary];
     payees := [bob_ltd; landlord];
     subscriptions := [lease] |}.

Definition demo_world : World := {| db := demo_store; trace := [] |}.

Definition request (h : option string) (body : list (string * value)) : Request :=
  {| authorization := h; json_body := Some (row body) |}.

(** ** Requests *)

(** Ann creates a service under an entity name nobody has. *)
Definition service_for_unknown_entity : Request :=
  request (Some "Bearer tok7")
    [("service_name", VStr "Water"); ("service_desc", VStr "water bill");
     ("entity_name", VStr "Nowhere"); ("min_duration", VNum 1); ("amount", VNum 30);
     ("category", VStr "Expense")].

(** Ann creates a service under bob's entity name. *)
Definition create_service_under_acme : Request :=
  request (Some "Bearer tok7")
    [("service_name", VStr "Consulting"); ("service_desc", VStr "side job");
     ("entity_name", VStr "Acme"); ("min_duration", VNum 1); ("amount", VNum 100);
     ("category", VStr "income")].

(** The service row that request creates. *)
Definition consulting : obj :=
  row [("id", VNum 5); ("user_id", VNum 7); ("entity_id", VNum 5);
       ("service_name", VStr "Consulting"); ("service_desc", VStr "side job");
       ("min_duration", VNum 1); ("amount", VNum 100); ("category", VStr "income")].

(** Ann deletes her entity Home; bob deletes his entity Acme. *)
Definition delete_home : Request := request (Some "Bearer tok7") [("entity_id", VNum 6)].

Definition delete_acme : Request := request (Some "Bearer tok8") [("entity_id", VNum 5)].

(** Ann hands her payee Landlord to bob. *)
Definition reassign_landlord : Request :=
  request (Some "Bearer tok7")
    [("id", VNum 2); ("user_id", VNum 8); ("payee_name", VStr "Landlord");
     ("phone", VStr "777"); ("email", VStr "l@x.io"); ("amount", VNum 900);
     ("category", VStr "expense")].

Definition landlord_reassigned : obj :=
  row [("id", VNum 2); ("user_id", VNum 8); ("entity_id", VNull); ("service_id", VNull);
       ("payee_name", VStr "Landlord"); ("phone", VStr "777"); ("email", VStr "l@x.io");
       ("amount", VNum 900); ("category", VStr "expense")].

(** Ann hands her subscription (1) to bob. *)
Definition reassign_lease : Request :=
  request (Some "Bearer tok7")
    [("id", VNum 1); ("user_id", VNum 8); ("startDate", VStr "2025-01-01");
     ("endDate", VStr "2025-12-31"); ("amount", VNum 900);
     ("paymentDate", VStr "2025-01-05"); ("category", VStr "expense")].

Definition lease_reassigned : obj :=
  row [("id", VNum 1); ("user_id", VNum 8); ("entity_id", VNull); ("service_id", VNull);
       ("payee_id", VNull); ("startDate", VStr "2025-01-01"); ("endDate", VStr "2025-12-31");
       ("amount", VNum 900); ("paymentDate", VStr "2025-01-05"); ("category", VStr "expense")].

(** Ann creates a payee and a subscription with categories outside the
    lowercase [income] and [expense]. *)
Definition create_payee_bogus_category : Request :=
  request (Some "Bearer tok7")
    [("entity_name", VStr "Home"); ("service_name", VStr "Rent"); ("payee_name", VStr "Gym");
     ("phone", VStr "123"); ("email", VStr "g@x.io"); ("amount", VNum 40);
     ("category", VStr "Bogus")].

Definition create_subscription_upper_category : Request :=
  request (Some "Bearer tok7")
    [("entity_name", VStr "Home"); ("service_name", VStr "Rent");
     ("payee_name", VStr "Landlord"); ("startDate", VStr "2026-01-01");
     ("endDate", VStr "2026-12-31"); ("amount", VNum 900);
     ("paymentDate", VStr "2026-01-05"); ("category", VStr "INCOME")].

(** Bob updates his payee 1 without naming its entity and service. *)
Definition update_payee_phone : Request :=
  request (Some "Bearer tok8")
    [("id", VNum 1); ("payee_name", VStr "Bob Ltd"); ("phone", VStr "556");
     ("email", VStr "b@x.io"); ("amount", VNum 3000); ("category", VStr "income")].

Definition update_payee_phone_only : Request :=
  request (Some "Bearer tok8") [("id", VNum 1); ("phone", VStr "556")].

(** Ann updates bob's payee 1; bob updates ann's subscription 1. *)
Definition overwrite_foreign_payee : Request :=
  request (Some "Bearer tok7")
    [("id", VNum 1); ("payee_name", VStr "Mine"); ("phone", VStr "000");
     ("email", VStr "a@x.io"); ("amount", VNum 1); ("category", VStr "expense")].

Definition overwrite_foreign_subscription : Request :=
  request (Some "Bearer tok8")
    [("id", VNum 1); ("startDate", VStr "2030-01-01"); ("endDate", VStr "2030-01-02");
     ("amount", VNum 1); ("paymentDate", VStr "2030-01-01"); ("category", VStr "income")].

(** ** Further tokens *)

(** The demo verifier with one more token, for an account (9) whose user
    row is gone. *)
Definition demo_verify_stale (token : string) : option obj :=
  if String.eqb token "tok9" then Some (row [("user_id", VNum 9); ("id", VNum 9)])
  else demo_verify token.

Definition demo_env_stale : Env :=
  {| jwt_verify := demo_verify_stale; on_delete_cascade := false;
     undefined_bind_throws := true |}.



(** ** Further requests *)

(** The holder of the token of account 9 edits the account. *)
Definition edit_nobody : Request :=
  request (Some "Bearer tok9")
    [("name", VStr "Nobody"); ("email", VStr "n@x.io"); ("phone", VStr "000");
     ("username", VStr "nobody"); ("password", VStr "secret")].


Definition rename_ann : Request :=
  request (Some "Bearer tok7")
    [("name", VStr "Ann"); ("email", VStr "a@x.io"); ("phone", VStr "111");
     ("username", VStr "anna"); ("password", VStr "pw")].

(** Ann creates a payee and names bob as its owner. *)
Definition create_payee_for_bob : Request :=
  request (Some "Bearer tok7")
    [("user_id", VNum 8); ("entity_name", VStr "Home"); ("service_name", VStr "Rent");
     ("payee_name", VStr "Gym"); ("phone", VStr "123"); ("email", VStr "g@x.io");
     ("amount", VNum 40); ("category", VStr "expense")].

(** Ann creates an entity whose category is a number. *)
Definition create_entity_numeric_category : Request :=
  request (Some "Bearer tok7")
    [("entity_name", VStr "Car"); ("entity_desc", VStr "car");
     ("entity_short_desc", VStr "car"); ("category", VNum 1)].

(** Ann creates a second service under her entity Home, with a category
    outside income and expense, and with the category in capitals. *)
Definition create_service_bogus_category : Request :=
  request (Some "Bearer tok7")
    [("service_name", VStr "Water"); ("service_desc", VStr "water bill");
     ("entity_name", VStr "Home"); ("min_duration", VNum 1); ("amount", VNum 30);
     ("category", VStr "Bogus")].


(** Ann updates bob's entity Acme (5). *)
Definition update_foreign_entity : Request :=
  request (Some "Bearer tok7")
    [("id", VNum 5); ("entity_name", VStr "Mine"); ("entity_desc", VStr "mine");
     ("entity_short_desc", VStr "mine")].

(** Ann raises the amount of her service Rent (3) and sends nothing else
    but the name of its entity; she sends the same under the entity name
    Acme; she rewrites its name, duration and category (in capitals) and
    sends an empty description and the amount 0. *)
Definition raise_rent : Request :=
  request (Some "Bearer tok7")
    [("id", VNum 3); ("entity_name", VStr "Home"); ("amount", VNum 950)].

Definition move_rent_to_acme : Request :=
  request (Some "Bearer tok7")
    [("id", VNum 3); ("entity_name", VStr "Acme"); ("amount", VNum 950)].


(** Ann deletes her payee Landlord; bob deletes his service Salary. *)
Definition delete_landlord : Request := request (Some "Bearer tok7") [("id", VNum 2)].

Definition delete_salary : Request := request (Some "Bearer tok8") [("id", VNum 4)].

(** * Properties *)

(** ** The header test *)

Lemma startsWith_cons (a : ascii) (p s : string) :
  startsWith (String a p) s = true ->
  exists s', s = String a s' /\ startsWith p s' = true.
Proof.
  destruct s as [|b s]; simpl; [discriminate|].
  intros H. apply andb_prop in H as [Hab Hp]. apply Ascii.eqb_eq in Hab as ->.
  exists s. split; [reflexivity | exact Hp].
Qed.

Lemma split_nonempty (sep : ascii) (s : string) : split sep s <> [].
Proof.
  destruct s as [|c s]; simpl; [discriminate|].
  destruct (Ascii.eqb c sep); [discriminate|].
  destruct (split sep s); discriminate.
Qed.

Lemma startsWith_bearer_token (h : string) :
  startsWith "Bearer " h = true -> exists tok, split " "%char h !! 1%nat = Some tok.
Proof.
  intros H.
  do 7 (apply startsWith_cons in H as (? & -> & H)).
  simpl.
  match goal with
  | |- context [split _ ?r] =>
      pose proof (split_nonempty " " r); destruct (split " " r) as [|t ts]
  end; [congruence | simpl; eauto].
Qed.

Lemma startsWith_nonempty (h : string) :
  startsWith "Bearer " h = true -> falsy (VStr h) = false.
Proof. destruct h; simpl; [discriminate | reflexivity]. Qed.

Section AuthLemmas.
Context (env : Env).

Lemma bearer_reject req k w :
  bearer_header (authorization req) = false ->
  bearer env req k w = (Val (json 401), w).
Proof.
  unfold bearer, bearer_header. destruct (authorization req) as [h|]; [|reflexivity].
  intros ->. rewrite orb_true_r. reflexivity.
Qed.

Lemma bearer_verify_fail req k w tok :
  bearer_header (authorization req) = true ->
  auth_token (authorization req) = Some tok ->
  jwt_verify env tok = None ->
  bearer env req k w = (Throw JsonWebTokenError, logged w (EvVerify tok)).
Proof.
  unfold bearer, bearer_header, auth_token.
  destruct (authorization req) as [h|]; [|discriminate].
  intros Hs Ht Hv. rewrite Hs, (startsWith_nonempty _ Hs), Ht. simpl.
  unfold bind, verify, bind, emit. simpl. rewrite Hv. reflexivity.
Qed.

Lemma bearer_accept req k w tok decoded :
  bearer_header (authorization req) = true ->
  auth_token (authorization req) = Some tok ->
  jwt_verify env tok = Some decoded ->
  bearer env req k w = k decoded (logged w (EvVerify tok)).
Proof.
  unfold bearer, bearer_header, auth_token.
  destruct (authorization req) as [h|]; [|discriminate].
  intros Hs Ht Hv. rewrite Hs, (startsWith_nonempty _ Hs), Ht. simpl.
  unfold bind, verify, bind, emit. simpl. rewrite Hv. reflexivity.
Qed.

Lemma second_word_reject req k w :
  has_second_word (authorization req) = false ->
  second_word env req k w = (Val (json 401), w).
Proof.
  unfold second_word, has_second_word, auth_token.
  destruct (authorization req) as [h|]; [|reflexivity].
  destruct (split " " h !! 1%nat) as [t|]; [|reflexivity].
  unfold falsy. intros ->. reflexivity.
Qed.

Lemma second_word_verify_fail req k w tok :
  has_second_word (authorization req) = true ->
  auth_token (authorization req) = Some tok ->
  jwt_verify env tok = None ->
  second_word env req k w = (Throw JsonWebTokenError, logged w (EvVerify tok)).
Proof.
  unfold second_word, has_second_word, auth_token.
  destruct (authorization req) as [h|]; [|discriminate].
  destruct (split " " h !! 1%nat) as [t|]; [|discriminate].
  unfold falsy. intros Hs [= ->] Hv. rewrite Hs. simpl.
  unfold bind, verify, bind, emit. simpl. rewrite Hv. reflexivity.
Qed.

Lemma second_word_accept req k w tok decoded :
  has_second_word (authorization req) = true ->
  auth_token (authorization req) = Some tok ->
  jwt_verify env tok = Some decoded ->
  second_word env req k w = k decoded (logged w (EvVerify tok)).
Proof.
  unfold second_word, has_second_word, auth_token.
  destruct (authorization req) as [h|]; [|discriminate].
  destruct (split " " h !! 1%nat) as [t|]; [|discriminate].
  unfold falsy. intros Hs [= ->] Hv. rewrite Hs. simpl.
  unfold bind, verify, bind, emit. simpl. rewrite Hv. reflexivity.
Qed.

Lemma run_shape ep req : exists k, body_of env ep req k.
Proof.
  unfold body_of.
  destruct ep as [[] []| | | |]; simpl; eexists; reflexivity.
Qed.

Lemma run_reject ep req w :
  guard_passes ep (authorization req) = false ->
  run env ep req w = (json 401, w).
Proof.
  intros Hg. destruct (run_shape ep req) as [k ->].
  unfold guard_passes in Hg. unfold try_catch.
  destruct (is_user_endpoint ep).
  - rewrite second_word_reject by assumption. reflexivity.
  - rewrite bearer_reject by assumption. reflexivity.
Qed.

Lemma run_verify_fail ep req w tok :
  guard_passes ep (authorization req) = true ->
  auth_token (authorization req) = Some tok ->
  jwt_verify env tok = None ->
  run env ep req w = (json 500, logged w (EvVerify tok)).
Proof.
  intros Hg Ht Hv. destruct (run_shape ep req) as [k ->].
  unfold guard_passes in Hg. unfold try_catch.
  destruct (is_user_endpoint ep).
  - rewrite (second_word_verify_fail _ _ _ tok) by assumption. reflexivity.
  - rewrite (bearer_verify_fail _ _ _ tok) by assumption. reflexivity.
Qed.

End AuthLemmas.

(** ** C9: the scheme of the header *)

(** C9 at its failing input. The sixteen entities, services, payees and
    subscriptions handlers test [authHeader.startsWith('Bearer ')]; the
    user DELETE (and the user PUT) take the second word of the header
    whatever the first one is. A header [Token tok7], which does not start
    with [Bearer ], is turned away with 401 by the entities DELETE, and is
    verified by the user DELETE, which deletes the user row (status 200,
    two recorded calls). *)
Lemma C9_user_delete_accepts_other_scheme :
  bearer_header (Some "Token tok7") = false /\
  run demo_env (Res REntities mDELETE) (request (Some "Token tok7") [("entity_id", VNum 6)])
      demo_world = (json 401, demo_world) /\
  run demo_env DeleteUserDELETE (request (Some "Token tok7") []) demo_world =
    (json 200,
     {| db := set_rows Users [row [("sr", VNum 8); ("username", VStr "bob")]] demo_store;
        trace := [EvVerify "tok7";
                  EvDelete Users [row [("sr", VNum 7); ("username", VStr "ann")]]] |}) /\
  status (run demo_env DeleteUserDELETE (request (Some "Token tok7") []) demo_world).1 <> 401%Z.
Proof. compute_done. Qed.

(** What each handler does with a header that fails its test: an entities,
    services, payees or subscriptions handler answers 401 to a request
    whose Authorization header is absent or does not start with [Bearer ],
    and a user handler answers 401 to a request whose header is absent or
    has no non-empty second word; in both cases nothing is verified and no
    statement is executed (the world, store and recorded calls, is the one
    before). *)
Theorem header_guard_first (env : Env) (ep : endpoint) (req : Request) (w : World) :
  (if is_user_endpoint ep
   then has_second_word (authorization req)
   else bearer_header (authorization req)) = false ->
  run env ep req w = (json 401, w).
Proof. intros H. apply run_reject. exact H. Qed.

(** A payees PUT with a [Basic] header on the demo deployment. *)
Lemma header_guard_first_witness :
  bearer_header (Some "Basic tok7") = false /\
  run demo_env (Res RPayees mPUT) (request (Some "Basic tok7") [("id", VNum 1)]) demo_world =
    (json 401, demo_world).
Proof.
  split; [reflexivity|].
  apply (header_guard_first demo_env (Res RPayees mPUT)). reflexivity.
Defined.

(** ** C1: requests without a valid token *)




(** ** Running an authenticated request *)

(** Unfolds the handler of the goal's endpoint and takes it past its
    header test and the token verification. *)
Ltac enter_handler Hauth :=
  let Hg := fresh "Hg" in
  let tok := fresh "tok" in
  let Ht := fresh "Ht" in
  let Hv := fresh "Hv" in
  destruct Hauth as (Hg & tok & Ht & Hv);
  unfold guard_passes in Hg; simpl in Hg;
  unfold run, list_rows,
    EntitiesRoute.GET, EntitiesRoute.POST, EntitiesRoute.PUT, EntitiesRoute.DELETE,
    ServicesRoute.GET, ServicesRoute.POST, ServicesRoute.PUT, ServicesRoute.DELETE,
    PayeesRoute.GET, PayeesRoute.POST, PayeesRoute.PUT, PayeesRoute.DELETE,
    SubscriptionsRoute.GET, SubscriptionsRoute.POST, SubscriptionsRoute.PUT,
    SubscriptionsRoute.DELETE, Part000.DELETE, Part002.DELETE,
    EditUserRoute.PUT, DeleteUserRoute.DELETE, try_catch;
  first [ rewrite (bearer_accept _ _ _ _ tok _ Hg Ht Hv)
        | rewrite (second_word_accept _ _ _ _ tok _ Hg Ht Hv) ].

(** Reads the parsed body. *)
Ltac read_body Hbody :=
  unfold request_json; rewrite Hbody; cbv beta iota delta [bind ret].

(** ** C8: missing required fields *)

(** C8: an authenticated Create or Update request (and likewise a Delete
    request) whose body misses a field of the handler's required-field list
    is answered 400; no statement is executed, so no row is inserted or
    modified: the only recorded call is the token verification. *)
Theorem C8_missing_required_field (env : Env) (r : resource) (m : method)
        (req : Request) (w : World) (decoded body : obj) :
  authenticated env (Res r m) req decoded ->
  json_body req = Some body ->
  missing (required_fields r m) body = true ->
  exists tok, run env (Res r m) req w = (json 400, logged w (EvVerify tok)).
Proof.
  intros Hauth Hbody Hmiss.
  destruct r, m; simpl in Hmiss; try discriminate Hmiss;
    rewrite ?orb_false_r, ?orb_assoc in Hmiss;
    enter_handler Hauth; read_body Hbody; rewrite Hmiss; eexists; reflexivity.
Qed.

(** A subscriptions POST by ann whose amount is 0, hence falsy. *)
Lemma C8_missing_required_field_witness :
  authenticated demo_env (Res RSubscriptions mPOST)
    (request (Some "Bearer tok7")
       [("entity_name", VStr "Home"); ("service_name", VStr "Rent");
        ("payee_name", VStr "Landlord"); ("startDate", VStr "2026-01-01");
        ("endDate", VStr "2026-12-31"); ("amount", VNum 0);
        ("paymentDate", VStr "2026-01-05"); ("category", VStr "expense")])
    (row [("user_id", VNum 7); ("id", VNum 7)]) /\
  exists tok,
    run demo_env (Res RSubscriptions mPOST)
      (request (Some "Bearer tok7")
         [("entity_name", VStr "Home"); ("service_name", VStr "Rent");
          ("payee_name", VStr "Landlord"); ("startDate", VStr "2026-01-01");
          ("endDate", VStr "2026-12-31"); ("amount", VNum 0);
          ("paymentDate", VStr "2026-01-05"); ("category", VStr "expense")])
      demo_world
    = (json 400, logged demo_world (EvVerify tok)).
Proof.
  assert (Hauth : authenticated demo_env (Res RSubscriptions mPOST)
    (request (Some "Bearer tok7")
       [("entity_name", VStr "Home"); ("service_name", VStr "Rent");
        ("payee_name", VStr "Landlord"); ("startDate", VStr "2026-01-01");
        ("endDate", VStr "2026-12-31"); ("amount", VNum 0);
        ("paymentDate", VStr "2026-01-05"); ("category", VStr "expense")])
    (row [("user_id", VNum 7); ("id", VNum 7)])).
  { split; [reflexivity|]. exists "tok7". split; reflexivity. }
  split; [exact Hauth|].
  eapply (C8_missing_required_field demo_env RSubscriptions mPOST _ demo_world _ _ Hauth).
  - reflexivity.
  - vm_compute. reflexivity.
Defined.

(** ** Reads, one statement at a time *)

Lemma read_only_refl w : read_only w w.
Proof. split; [reflexivity|]. exists []. rewrite app_nil_r. split; reflexivity. Qed.

Lemma read_only_logged w w1 ev :
  read_only w w1 -> is_write ev = false -> read_only w (logged w1 ev).
Proof.
  intros [Hdb (evs & Htr & Hro)] Hev. split; [exact Hdb|].
  exists (evs ++ [ev]). simpl. rewrite Htr, <- app_assoc. split; [reflexivity|].
  rewrite forallb_app, Hro. simpl. rewrite Hev. reflexivity.
Qed.

Lemma db_logged w ev : db (logged w ev) = db w.
Proof. reflexivity. Qed.

Lemma truthy_defined v : truthy v = true -> is_undefined v = false.
Proof. destruct v; simpl; congruence. Qed.

Lemma falsy_false_defined v : falsy v = false -> is_undefined v = false.
Proof. unfold falsy. destruct v; simpl; congruence. Qed.

Lemma truthy_to_sql v : truthy v = true -> to_sql v = v.
Proof. destruct v; simpl; congruence. Qed.

Section Statements.
Context (env : Env).

Lemma bind_params_ok vs w :
  existsb is_undefined vs = false -> bind_params env vs w = (Val tt, w).
Proof. unfold bind_params. intros ->. rewrite andb_false_r. reflexivity. Qed.

Lemma db_select_run cols t cs lim w :
  existsb is_undefined (map cond_value cs) = false ->
  db_select env cols t cs lim w =
    let found := List.filter (matches cs) (rows_of t (db w)) in
    let found := if lim then take 1 found else found in
    (Val (map (project cols) found), logged w (EvSelect t found)).
Proof.
  intros H. unfold db_select, bind. rewrite (bind_params_ok _ _ H). reflexivity.
Qed.

Lemma resolve_run t col name k w :
  resolve env t col name k w =
    if truthy name then
      match lookup_name (db w) t col name with
      | [] => (Val (json 404), logged w (EvSelect t []))
      | x :: xs => k (project (Some ["id"]) x).["id"] (logged w (EvSelect t (x :: xs)))
      end
    else k VNull w.
Proof.
  unfold resolve, lookup_name. destruct (truthy name) eqn:Hn; [|reflexivity].
  unfold bind at 1. rewrite db_select_run
    by (simpl; rewrite (truthy_defined _ Hn); reflexivity).
  cbv zeta. destruct (List.filter _ _); reflexivity.
Qed.

End Statements.

(** ** C7: names that resolve to nothing *)

Lemma category_invalid_run v w :
  falsy v || category_accepted v = true -> category_invalid v w = (Val false, w).
Proof.
  unfold category_invalid, falsy, category_accepted, bind, toLowerCase, ret.
  destruct v as [| |b|n|s]; cbn [truthy]; try reflexivity.
  - destruct b; [discriminate | reflexivity].
  - destruct (negb (n =? 0)%Z); [discriminate | reflexivity].
  - destruct (negb (String.eqb s "")); [|reflexivity].
    cbn [negb orb]. intros ->. reflexivity.
Qed.

Lemma resolves_to_nothing_inv s body col t :
  resolves_to_nothing s body (col, t) = true ->
  truthy body.[col] = true /\ lookup_name s t col body.[col] = [].
Proof.
  unfold resolves_to_nothing. simpl. intros H. apply andb_prop in H as [Hn Hl].
  split; [exact Hn|]. destruct (lookup_name _ _ _ _); [reflexivity | discriminate Hl].
Qed.

(** Steps the goal past one [SELECT] whose parameters are truthy. *)
Ltac run_select :=
  rewrite db_select_run
    by (simpl; rewrite ?truthy_defined by assumption;
        rewrite ?falsy_false_defined by assumption; reflexivity);
  cbv zeta; rewrite ?db_logged.

Ltac reduce := cbv beta iota zeta delta [toLowerCase ret throw bind negb].

Ltac prove_read_only :=
  repeat (apply read_only_logged; [|reflexivity]); apply read_only_refl.

(** Steps the goal past one optional name resolution, splitting on whether
    the name is supplied and whether its lookup finds a row. *)
Ltac step_resolve :=
  rewrite resolve_run; rewrite ?db_logged;
  match goal with
  | |- context [if truthy ?v then _ else _] => destruct (truthy v) eqn:?
  end;
  [ match goal with
    | |- context [match lookup_name ?s ?t ?c ?v with _ => _ end] =>
        destruct (lookup_name s t c v) eqn:?
    end | ].

Ltac answered_read_only :=
  eexists; split; [reflexivity | prove_read_only].

(** Splits the hypothesis that some reference resolves to nothing into its
    cases. *)
Ltac unresolved_cases Hun :=
  cbn [existsb references] in Hun; rewrite orb_false_r in Hun;
  repeat (apply orb_prop in Hun as [Hun|Hun]);
  apply resolves_to_nothing_inv in Hun as [? Hun].

(** C7: an authenticated Create or Update request that passes the
    handler's validation and supplies an entity, service or payee name whose
    lookup matches no row is answered 404, and no insert or update is
    executed: the store is unchanged and only reads are recorded. *)
Theorem C7_unresolved_name (env : Env) (r : resource) (m : method)
        (req : Request) (w : World) (decoded body : obj) :
  m = mPOST \/ m = mPUT ->
  authenticated env (Res r m) req decoded ->
  json_body req = Some body ->
  passes_validation r m body = true ->
  existsb (resolves_to_nothing (db w) body) (references r) = true ->
  exists w', run env (Res r m) req w = (json 404, w') /\ read_only w w'.
Proof.
  intros Hm Hauth Hbody Hval Hun.
  apply andb_prop in Hval as [Hreq Hcat]. apply negb_true_iff in Hreq.
  destruct r; [discriminate Hun| | |]; destruct Hm as [-> | ->];
    simpl in Hreq; rewrite ?orb_false_r, ?orb_assoc in Hreq;
    enter_handler Hauth; read_body Hbody; rewrite Hreq;
    repeat (apply orb_false_elim in Hreq as [Hreq ?]).
  - (* services POST *)
    destruct body.["category"] as [| | | |s]; try discriminate Hcat.
    simpl in Hcat. reduce. rewrite Hcat. reduce.
    unresolved_cases Hun. unfold lookup_name in Hun.
    run_select. rewrite Hun. answered_read_only.
  - (* services PUT *)
    rewrite (category_invalid_run _ _ Hcat). reduce.
    unresolved_cases Hun. unfold lookup_name in Hun.
    run_select. rewrite Hun. answered_read_only.
  - (* payees POST *)
    unresolved_cases Hun; unfold lookup_name in Hun;
      run_select; run_select; rewrite Hun; cbn [map head];
      repeat match goal with
             | |- context [head ?l] => destruct (head l)
             end; answered_read_only.
  - (* payees PUT *)
    unresolved_cases Hun; repeat (step_resolve; try answered_read_only); congruence.
  - (* subscriptions POST *)
    unresolved_cases Hun; unfold lookup_name in Hun;
      run_select; run_select; run_select; rewrite Hun; cbn [map head];
      repeat match goal with
             | |- context [head ?l] => destruct (head l)
             end; answered_read_only.
  - (* subscriptions PUT *)
    unresolved_cases Hun; repeat (step_resolve; try answered_read_only); congruence.
Qed.

(** Ann's token authenticates her on every resource endpoint. *)
Lemma demo_authenticated (ep : endpoint) (body : list (string * value)) :
  is_user_endpoint ep = false ->
  authenticated demo_env ep (request (Some "Bearer tok7") body)
    (row [("user_id", VNum 7); ("id", VNum 7)]).
Proof.
  intros Hep. split.
  - unfold guard_passes. rewrite Hep. reflexivity.
  - exists "tok7". split; reflexivity.
Defined.

(** Ann creates a service under an entity name nobody has. *)
Lemma C7_unresolved_name_witness :
  passes_validation RServices mPOST (row [("service_name", VStr "Water");
     ("service_desc", VStr "water bill"); ("entity_name", VStr "Nowhere");
     ("min_duration", VNum 1); ("amount", VNum 30); ("category", VStr "Expense")]) = true /\
  exists w',
    run demo_env (Res RServices mPOST) service_for_unknown_entity demo_world = (json 404, w') /\
    read_only demo_world w'.
Proof.
  split; [vm_compute; reflexivity|].
  eapply (C7_unresolved_name demo_env RServices mPOST service_for_unknown_entity demo_world).
  - left. reflexivity.
  - apply demo_authenticated. reflexivity.
  - reflexivity.
  - vm_compute. reflexivity.
  - vm_compute. reflexivity.
Defined.

(** ** Updates and deletes, one statement at a time *)

Lemma rows_of_set_rows t l s : rows_of t (set_rows t l s) = l.
Proof. destruct t; reflexivity. Qed.

Lemma rows_of_set_rows_ne t t' l s : t <> t' -> rows_of t' (set_rows t l s) = rows_of t' s.
Proof. destruct t, t'; try reflexivity; congruence. Qed.

Lemma in_updated sets cs l x :
  In x (updated sets cs l) ->
  (exists r, In r l /\ matches cs r = true /\
             x = assign (map (fun cv => (cv.1, to_sql cv.2)) sets) r) \/
  (In x l /\ matches cs x = false).
Proof.
  unfold updated. rewrite in_map_iff. intros (r & Hx & Hr).
  destruct (matches cs r) eqn:Hm; subst x; [left | right]; eauto.
Qed.

Lemma updated_first_column col v rest id l x :
  In x (updated ((col, v) :: rest) [CEq "id" id] l) ->
  sql_eq x.["id"] id = true ->
  x.[col] = to_sql v.
Proof.
  intros Hin Hid. apply in_updated in Hin as [(r0 & _ & _ & ->) | [_ Hm]].
  - unfold assign, field. cbn [map foldr fst snd]. rewrite lookup_insert_eq. reflexivity.
  - unfold matches in Hm. cbn [forallb holds] in Hm. rewrite andb_true_r in Hm. congruence.
Qed.

Lemma to_sql_js_or a b : to_sql (js_or a b) = if truthy a then a else to_sql b.
Proof.
  unfold js_or. destruct (truthy a) eqn:Ha; [apply truthy_to_sql; exact Ha | reflexivity].
Qed.

Section UpdateStatement.
Context (env : Env).

Lemma db_update_run t sets cs w :
  db_update env t sets cs w =
    if undefined_bind_throws env && existsb is_undefined (map snd sets ++ map cond_value cs)
    then (Throw DbError, w)
    else (Val (Z.of_nat (List.length (List.filter (matches cs) (rows_of t (db w))))),
          {| db := set_rows t (updated sets cs (rows_of t (db w))) (db w);
             trace := trace w ++ [EvUpdate t (List.filter (matches cs) (rows_of t (db w)))] |}).
Proof.
  unfold db_update, bind, bind_params.
  destruct (undefined_bind_throws env && existsb is_undefined _); reflexivity.
Qed.

End UpdateStatement.

(** ** C10: the owner written by the payees and subscriptions PUT *)

(** Steps the goal past the [UPDATE] of a handler, splitting on whether the
    driver refuses its parameters. *)
Ltac step_update :=
  rewrite db_update_run; rewrite ?db_logged;
  match goal with
  | |- context [if ?c then (Throw DbError, _) else _] => destruct c eqn:?
  end.

(** Closes a goal whose hypotheses say that every supplied name resolves
    while one lookup of the run found no row. *)
Ltac refute_unresolved Hres :=
  cbn [existsb references] in Hres; unfold resolves_to_nothing in Hres;
  cbn [fst snd] in Hres;
  repeat match goal with
         | H : truthy _ = _ |- _ => rewrite H in Hres
         | H : lookup_name _ _ _ _ = _ |- _ => rewrite H in Hres
         end;
  cbn in Hres; discriminate Hres.

Lemma updated_has_row sets cs l old c :
  In old l -> ~ In c (map fst sets) ->
  exists x, In x (updated sets cs l) /\ x.[c] = old.[c].
Proof.
  intros Hold Hc. exists (if matches cs old
                           then assign (map (fun cv => (cv.1, to_sql cv.2)) sets) old
                           else old).
  split.
  - unfold updated. apply in_map_iff. exists old. tauto.
  - destruct (matches cs old); [|reflexivity].
    unfold assign. induction sets as [|[k v] sets IH]; [reflexivity|].
    cbn [map foldr fst snd]. unfold field at 1. rewrite lookup_insert_ne.
    + apply IH. intros H. apply Hc. right. exact H.
    + intros ->. apply Hc. left. reflexivity.
Qed.

(** C10: a payees or subscriptions PUT whose body has a truthy id and
    whose supplied names all resolve is answered 200, unless the driver
    refuses a bound parameter (500). After a PUT answered 200, every row of
    the table that carries the id of the body has as its stored user_id the
    user_id of the body when that is truthy, and the user id of the token
    only otherwise; and every row that carried that id before is still in
    the table under its id. *)
Theorem C10_put_owner_from_body (env : Env) (r : resource) (req : Request) (w : World)
        (decoded body : obj) :
  r = RPayees \/ r = RSubscriptions ->
  authenticated env (Res r mPUT) req decoded ->
  json_body req = Some body ->
  (truthy body.["id"] = true ->
   existsb (resolves_to_nothing (db w) body) (references r) = false ->
   status (run env (Res r mPUT) req w).1 = 200%Z \/
   (undefined_bind_throws env = true /\ status (run env (Res r mPUT) req w).1 = 500%Z)) /\
  (status (run env (Res r mPUT) req w).1 = 200%Z ->
   (forall x,
      In x (rows_of (table_of r) (db (run env (Res r mPUT) req w).2)) ->
      sql_eq x.["id"] body.["id"] = true ->
      x.["user_id"] = if truthy body.["user_id"] then body.["user_id"]
                      else to_sql decoded.["user_id"]) /\
   (forall old,
      In old (rows_of (table_of r) (db w)) ->
      exists x, In x (rows_of (table_of r) (db (run env (Res r mPUT) req w).2)) /\
                x.["id"] = old.["id"])).
Proof.
  intros Hr Hauth Hbody.
  remember (run env (Res r mPUT) req w) as res eqn:Hrun. symmetry in Hrun. revert Hrun.
  destruct Hr as [-> | ->]; enter_handler Hauth; read_body Hbody;
    (destruct (falsy body.["id"]) eqn:Hf;
     [intros <-; split; [intros Hid; unfold falsy in Hf; rewrite Hid in Hf|]; discriminate|]).
  all: repeat (step_resolve;
               try (intros <-; split; [intros _ Hres; refute_unresolved Hres | discriminate])).
  all: step_update;
    [ intros <-; split; [|discriminate]; intros _ _; right;
      match goal with
      | H : _ && _ = true |- _ => apply andb_prop in H as [H _]
      end; split; [assumption | reflexivity]
    | intros <-; split; [intros _ _; left; reflexivity|]; intros _;
      cbn [fst snd db table_of]; rewrite rows_of_set_rows; split;
      [ intros x Hin Hid; rewrite (updated_first_column _ _ _ _ _ _ Hin Hid);
        apply to_sql_js_or
      | intros old Hold; apply updated_has_row; [exact Hold|];
        simpl; intuition discriminate ] ].
Qed.

(** Ann hands her payee Landlord and her subscription to bob: both
    requests are answered 200 and the stored owner is the 8 of the body. *)
Lemma C10_put_owner_from_body_witness :
  (status (run demo_env (Res RPayees mPUT) reassign_landlord demo_world).1 = 200%Z /\
   In landlord_reassigned
      (rows_of Payees (db (run demo_env (Res RPayees mPUT) reassign_landlord demo_world).2)) /\
   landlord_reassigned.["user_id"] = VNum 8) /\
  (status (run demo_env (Res RSubscriptions mPUT) reassign_lease demo_world).1 = 200%Z /\
   In lease_reassigned
      (rows_of Subscriptions
               (db (run demo_env (Res RSubscriptions mPUT) reassign_lease demo_world).2)) /\
   lease_reassigned.["user_id"] = VNum 8).
Proof.
  destruct (C10_put_owner_from_body demo_env RPayees reassign_landlord demo_world
              (row [("user_id", VNum 7); ("id", VNum 7)])
              (row [("id", VNum 2); ("user_id", VNum 8); ("payee_name", VStr "Landlord");
                    ("phone", VStr "777"); ("email", VStr "l@x.io"); ("amount", VNum 900);
                    ("category", VStr "expense")])
              (or_introl eq_refl) (demo_authenticated (Res RPayees mPUT) _ eq_refl) eq_refl)
    as [Hrun1 Hpost1].
  destruct (C10_put_owner_from_body demo_env RSubscriptions reassign_lease demo_world
              (row [("user_id", VNum 7); ("id", VNum 7)])
              (row [("id", VNum 1); ("user_id", VNum 8); ("startDate", VStr "2025-01-01");
                    ("endDate", VStr "2025-12-31"); ("amount", VNum 900);
                    ("paymentDate", VStr "2025-01-05"); ("category", VStr "expense")])
              (or_intror eq_refl) (demo_authenticated (Res RSubscriptions mPUT) _ eq_refl)
              eq_refl)
    as [Hrun2 Hpost2].
  assert (Hst1 : status (run demo_env (Res RPayees mPUT) reassign_landlord demo_world).1
                 = 200%Z).
  { destruct Hrun1 as [H | [_ H]]; [reflexivity | vm_compute; reflexivity | exact H |].
    exfalso. revert H. compute_done. }
  assert (Hst2 : status (run demo_env (Res RSubscriptions mPUT) reassign_lease demo_world).1
                 = 200%Z).
  { destruct Hrun2 as [H | [_ H]]; [reflexivity | vm_compute; reflexivity | exact H |].
    exfalso. revert H. compute_done. }
  assert (Hin1 : In landlord_reassigned
     (rows_of Payees (db (run demo_env (Res RPayees mPUT) reassign_landlord demo_world).2)))
    by (apply list_elem_of_In; compute_done).
  assert (Hin2 : In lease_reassigned
     (rows_of Subscriptions
              (db (run demo_env (Res RSubscriptions mPUT) reassign_lease demo_world).2)))
    by (apply list_elem_of_In; compute_done).
  split; (split; [assumption|]; split; [assumption|]).
  - refine (eq_trans (proj1 (Hpost1 Hst1) landlord_reassigned Hin1 _) _); compute_done.
  - refine (eq_trans (proj1 (Hpost2 Hst2) lease_reassigned Hin2 _) _); compute_done.
Defined.

(** ** Deletes and the referential action *)

Lemma store_le_refl s : store_le s s.
Proof. intros t r H. exact H. Qed.

Lemma store_le_trans s1 s2 s3 : store_le s1 s2 -> store_le s2 s3 -> store_le s1 s3.
Proof. intros H12 H23 t r H. apply H23, H12, H. Qed.

Lemma store_le_filter t f s : store_le (set_rows t (List.filter f (rows_of t s)) s) s.
Proof.
  intros t' r H. destruct (decide (t = t')) as [<-|Hne].
  - rewrite rows_of_set_rows in H. apply filter_In in H. tauto.
  - rewrite rows_of_set_rows_ne in H by assumption. exact H.
Qed.

Lemma foldl_store_le {A} (f : World -> A -> World) (l : list A) :
  (forall w a, store_le (db (f w a)) (db w)) ->
  forall w, store_le (db (foldl f w l)) (db w).
Proof.
  intros Hf. induction l as [|a l IH]; intros w; simpl.
  - apply store_le_refl.
  - eapply store_le_trans; [apply IH | apply Hf].
Qed.

Lemma cascade_le fuel : forall t dead w, store_le (db (cascade fuel t dead w)) (db w).
Proof.
  induction fuel as [|fuel IH]; intros t dead w; simpl.
  - apply store_le_refl.
  - apply foldl_store_le. intros w0 cf.
    eapply store_le_trans; [apply IH|]. simpl. apply store_le_filter.
Qed.


Section DeleteStatement.
Context (env : Env).

Lemma db_delete_run t cs w :
  db_delete env t cs w =
    if undefined_bind_throws env && existsb is_undefined (map cond_value cs)
    then (Throw DbError, w)
    else (Val (Z.of_nat (List.length (List.filter (matches cs) (rows_of t (db w))))),
          deleted env t cs w).
Proof.
  unfold db_delete, deleted, bind, bind_params.
  destruct (undefined_bind_throws env && existsb is_undefined _); reflexivity.
Qed.

Lemma deleted_le t cs w : store_le (db (deleted env t cs w)) (db w).
Proof.
  unfold deleted. destruct (on_delete_cascade env).
  - eapply store_le_trans; [apply cascade_le|]. simpl. apply store_le_filter.
  - simpl. apply store_le_filter.
Qed.

Lemma deleted_no_match t cs w r :
  In r (rows_of t (db (deleted env t cs w))) -> matches cs r = false.
Proof.
  unfold deleted. intros H.
  assert (In r (List.filter (fun r => negb (matches cs r)) (rows_of t (db w)))) as Hf.
  { destruct (on_delete_cascade env).
    - apply cascade_le in H. simpl in H. rewrite rows_of_set_rows in H. exact H.
    - simpl in H. rewrite rows_of_set_rows in H. exact H. }
  apply filter_In in Hf as [_ Hf]. apply negb_true_iff in Hf. exact Hf.
Qed.


End DeleteStatement.

Lemma sql_eq_eq a b : sql_eq a b = true -> a = b.
Proof.
  destruct a, b; simpl; try discriminate.
  - intros H. apply Bool.eqb_prop in H. congruence.
  - intros H. apply Z.eqb_eq in H. congruence.
  - intros H. apply String.eqb_eq in H. congruence.
Qed.

Lemma matches_single col v r : matches [CEq col v] r = sql_eq r.[col] v.
Proof. unfold matches. simpl. apply andb_true_r. Qed.

Lemma matches_pair c1 v1 c2 v2 r :
  matches [CEq c1 v1; CEq c2 v2] r = sql_eq r.[c1] v1 && sql_eq r.[c2] v2.
Proof. unfold matches. simpl. rewrite andb_true_r. reflexivity. Qed.

(** Steps the goal past one [DELETE], splitting on whether the driver
    refuses its parameters. *)
Ltac step_delete :=
  rewrite db_delete_run; rewrite ?db_logged;
  match goal with
  | |- context [if ?c then (Throw DbError, _) else _] => destruct c eqn:?
  end.

(** Steps the goal past one [SELECT], splitting on whether the driver
    refuses its parameters. *)
Lemma db_select_cases env cols t cs lim w :
  db_select env cols t cs lim w =
    if undefined_bind_throws env && existsb is_undefined (map cond_value cs)
    then (Throw DbError, w)
    else
      let found := List.filter (matches cs) (rows_of t (db w)) in
      let found := if lim then take 1 found else found in
      (Val (map (project cols) found), logged w (EvSelect t found)).
Proof.
  unfold db_select, bind, bind_params.
  destruct (undefined_bind_throws env && existsb is_undefined _); reflexivity.
Qed.

Ltac step_select :=
  rewrite db_select_cases; rewrite ?db_logged;
  match goal with
  | |- context [if ?c then (Throw DbError, _) else _] => destruct c eqn:?
  end; cbv zeta.


(** ** What a list handler returns *)

Lemma field_insert_eq (o : obj) k v : (<[k := v]> o).[k] = v.
Proof. unfold field. rewrite lookup_insert_eq. reflexivity. Qed.

Lemma field_insert_ne (o : obj) k k' v : k <> k' -> (<[k := v]> o).[k'] = o.[k'].
Proof. intros H. unfold field. rewrite lookup_insert_ne by exact H. reflexivity. Qed.

Lemma extend_keep proj p c : ~ In c (map fst proj) -> forall r, (extend proj p r).[c] = r.[c].
Proof.
  unfold extend. induction proj as [|[a col] proj IH]; intros Hc r; simpl; [reflexivity|].
  rewrite IH by (intros H; apply Hc; right; exact H).
  apply field_insert_ne. intros ->. apply Hc. left. reflexivity.
Qed.

Lemma in_join_rows s j r x :
  In x (join_rows s j r) ->
  x = extend (j_proj j) None r \/
  exists p, In p (rows_of (j_table j) s) /\ sql_eq r.[j_fk j] p.[pk (j_table j)] = true /\
            x = extend (j_proj j) (Some p) r.
Proof.
  unfold join_rows. destruct (List.filter _ _) as [|p ps] eqn:Hf.
  - destruct (j_left j); simpl; [|tauto]. intros [<-|[]]. left. reflexivity.
  - rewrite <- Hf. rewrite in_map_iff. intros (p' & <- & Hp).
    apply filter_In in Hp as [Hp Hm]. right. eauto.
Qed.

Lemma join_rows_keep s j r x c :
  In x (join_rows s j r) -> ~ In c (map fst (j_proj j)) -> x.[c] = r.[c].
Proof.
  intros Hx Hc. apply in_join_rows in Hx as [->|(p & _ & _ & ->)]; apply extend_keep, Hc.
Qed.

Lemma sql_eq_defined a b : sql_eq a b = true -> to_sql b = b.
Proof. destruct a, b; simpl; congruence. Qed.



Lemma run_list env r : run env (Res r mGET) = list_rows env (table_of r) (list_joins r).
Proof. destruct r; reflexivity. Qed.

Lemma db_select_join_run env t js where_ w :
  db_select_join env t js where_ w =
    if undefined_bind_throws env && existsb is_undefined [cond_value where_]
    then (Throw DbError, w)
    else (Val (flat_map (joined (db w) js where_) (rows_of t (db w))),
          logged w (EvSelect t (List.filter
                                  (fun r => match joined (db w) js where_ r with
                                            | [] => false
                                            | _ => true
                                            end)
                                  (rows_of t (db w))))).
Proof.
  unfold db_select_join, bind, bind_params.
  destruct (undefined_bind_throws env && existsb is_undefined _); reflexivity.
Qed.



(** ** C6: deleting an entity *)


Lemma sql_eq_defined_l a b : sql_eq a b = true -> is_undefined b = false.
Proof. destruct a, b; simpl; congruence. Qed.




(** ** C2: whose rows a handler touches *)

(** C2, as stated, fails by the design of name resolution and of the
    cascade. Ann (7) creates a service under the entity name Acme: the
    lookup is by name alone and reads bob's (8) entity row. When bob then
    deletes Acme, the dependents are removed by entity id alone, and ann's
    service row is among them. *)
Lemma C2_resolution_and_cascade_cross_owners :
  acme.["user_id"] = VNum 8 /\
  run demo_env (Res RServices mPOST) create_service_under_acme (fresh demo_store) =
    ({| status := 201;
        data := DataObj (row [("id", VNum 5); ("user_id", VNum 7); ("entity_id", VNum 5);
                              ("entity_name", VStr "Acme");
                              ("service_name", VStr "Consulting");
                              ("service_desc", VStr "side job"); ("min_duration", VNum 1);
                              ("amount", VNum 100); ("category", VStr "income")]) |},
     {| db := set_rows Services [rent; salary; consulting] demo_store;
        trace := [EvVerify "tok7"; EvSelect Entities [acme]; EvInsert Services consulting] |}) /\
  consulting.["user_id"] = VNum 7 /\
  trace (run demo_env (Res REntities mDELETE) delete_acme
           (fresh (set_rows Services [rent; salary; consulting] demo_store))).2 =
    [EvVerify "tok8"; EvSelect Entities [acme]; EvDelete Services [salary; consulting];
     EvDelete Payees [bob_ltd]; EvDelete Subscriptions []; EvDelete Entities [acme]].
Proof. compute_done. Qed.

Lemma fk_children_rank t c fk : In (c, fk) (fk_children t) -> rank t < rank c.
Proof.
  destruct t; simpl; intros H;
    repeat match goal with
           | H : _ \/ _ |- _ => destruct H as [H|H]
           | H : False |- _ => destruct H
           | H : (_, _) = (_, _) |- _ => injection H as <- _
           end; simpl; lia.
Qed.

Lemma touched_app l1 l2 : touched (l1 ++ l2) = touched l1 ++ touched l2.
Proof. unfold touched. apply flat_map_app. Qed.

Lemma cascade_trace fuel :
  forall t dead w, exists evs,
    trace (cascade fuel t dead w) = trace w ++ evs /\
    forall t' r, In (t', r) (touched evs) -> rank t < rank t'.
Proof.
  induction fuel as [|fuel IH]; intros t dead w.
  - exists []. split; [symmetry; apply app_nil_r | intros t' r []].
  - simpl. pose proof (fk_children_rank t) as Hrank. revert Hrank w.
    generalize (fk_children t). intros l.
    induction l as [|[c fk] l IHl]; intros Hrank w.
    + exists []. split; [symmetry; apply app_nil_r | intros t' r []].
    + simpl.
      match goal with
      | |- context [cascade fuel c ?dead' ?w'] =>
          destruct (IH c dead' w') as (evs1 & Htr1 & Hev1);
          destruct (IHl (fun c' fk' H => Hrank c' fk' (or_intror H))
                        (cascade fuel c dead' w')) as (evs2 & Htr2 & Hev2)
      end.
      eexists. split.
      * rewrite Htr2, Htr1. simpl. rewrite <- !app_assoc. reflexivity.
      * intros t' r Hin. rewrite !touched_app in Hin.
        assert (rank t < rank c) as Hc by (apply (Hrank c fk); left; reflexivity).
        apply in_app_or in Hin as [Hin|Hin]; [|apply in_app_or in Hin as [Hin|Hin]].
        -- unfold touched in Hin. cbn [flat_map event_rows] in Hin.
           rewrite app_nil_r in Hin. apply in_map_iff in Hin as (x & [= <- _] & _).
           exact Hc.
        -- apply Hev1 in Hin. lia.
        -- apply Hev2 in Hin. exact Hin.
Qed.

Lemma scoped_fresh u t s : scoped u t (fresh s).
Proof. intros r []. Qed.

Lemma scoped_trace u t w w' ev :
  trace w' = trace w ++ [ev] ->
  scoped u t w ->
  (forall r, In (t, r) (event_rows ev) -> r.["user_id"] = VNum u) ->
  scoped u t w'.
Proof.
  intros Htr Hw Hev r Hin. rewrite Htr, touched_app in Hin.
  apply in_app_or in Hin as [Hin|Hin]; [apply Hw, Hin|].
  unfold touched in Hin. simpl in Hin. rewrite app_nil_r in Hin. apply Hev, Hin.
Qed.

Lemma scoped_logged u t w ev :
  scoped u t w ->
  (forall r, In (t, r) (event_rows ev) -> r.["user_id"] = VNum u) ->
  scoped u t (logged w ev).
Proof. apply scoped_trace. reflexivity. Qed.

Lemma scoped_deleted env u t T cs w :
  scoped u t w ->
  rank t <= rank T ->
  (T = t -> forall r, In r (rows_of T (db w)) -> matches cs r = true ->
            r.["user_id"] = VNum u) ->
  scoped u t (deleted env T cs w).
Proof.
  intros Hw Hrank Hown. unfold deleted.
  set (w1 := {| db := _; trace := _ |}).
  assert (scoped u t w1) as Hw1.
  { apply (scoped_trace u t w w1 _ eq_refl Hw). intros r Hin. simpl in Hin.
    apply in_map_iff in Hin as (x & [= -> ->] & Hx). apply filter_In in Hx as [Hx Hm].
    exact (Hown eq_refl _ Hx Hm). }
  destruct (on_delete_cascade env); [|exact Hw1].
  destruct (cascade_trace 3 T (List.filter (matches cs) (rows_of T (db w))) w1)
    as (evs & Htr & Hev).
  intros r Hin. rewrite Htr, touched_app in Hin.
  apply in_app_or in Hin as [Hin|Hin]; [apply Hw1, Hin|].
  apply Hev in Hin. lia.
Qed.

Lemma in_take1 {A} (x : A) l : In x (take 1 l) -> In x l.
Proof. destruct l as [|a l]; simpl; [tauto|]. intros [->|[]]. left. reflexivity. Qed.

Lemma db_insert_run env t cols w :
  db_insert env t cols w =
    if undefined_bind_throws env && existsb is_undefined (map snd cols)
    then (Throw DbError, w)
    else
      let id := fresh_id (pk t) (rows_of t (db w)) in
      let new := <[pk t := VNum id]> (list_to_map (map (fun cv => (cv.1, to_sql cv.2)) cols)) in
      (Val id, {| db := set_rows t (rows_of t (db w) ++ [new]) (db w);
                  trace := trace w ++ [EvInsert t new] |}).
Proof.
  unfold db_insert, bind, bind_params.
  destruct (undefined_bind_throws env && existsb is_undefined _); reflexivity.
Qed.

Ltac step_insert :=
  rewrite db_insert_run; rewrite ?db_logged;
  match goal with
  | |- context [if ?c then (Throw DbError, _) else _] => destruct c eqn:?
  end; cbv zeta.

(** The user join puts the user's key, which is the row's owner, in the
    [user_id] column. *)
Lemma join_users_ref s r x :
  In x (join_rows s join_users r) -> x.["user_id"] = r.["user_id"].
Proof.
  unfold join_rows. destruct (List.filter _ _) as [|p ps] eqn:Hf; [intros []|].
  rewrite <- Hf. rewrite in_map_iff. intros (p' & <- & Hp).
  apply filter_In in Hp as [_ Hm]. simpl in Hm.
  unfold extend. simpl. rewrite field_insert_eq.
  rewrite (sql_eq_defined _ _ Hm). apply sql_eq_eq in Hm. congruence.
Qed.

Lemma joined_user_ref s r' where_ r x :
  In x (joined s (list_joins r') where_ r) ->
  x.["user_id"] = r.["user_id"] /\ holds x where_ = true.
Proof.
  unfold joined. intros Hx. apply filter_In in Hx as [Hx Hh]. split; [|exact Hh].
  destruct r'; simpl in Hx;
    repeat match goal with
           | H : In _ (flat_map _ _) |- _ => apply in_flat_map in H as (? & H & ?)
           | H : In _ (_ ++ _) |- _ => apply in_app_or in H as [H|H]
           | H : In _ [] |- _ => destruct H
           end.
  all: repeat match goal with
              | H : In ?y (join_rows _ ?j ?z) |- ?y.[_] = _ =>
                  first [ rewrite (join_users_ref _ _ _ H)
                        | rewrite (join_rows_keep _ _ _ _ "user_id" H)
                            by (simpl; intuition discriminate) ]; clear H
              end.
  all: reflexivity.
Qed.

Lemma list_base_owned s r' u r :
  In r (List.filter (fun r => match joined s (list_joins r') (CEq "user_id" (VNum u)) r with
                              | [] => false
                              | _ => true
                              end) (rows_of (table_of r') s)) ->
  r.["user_id"] = VNum u.
Proof.
  intros Hr. apply filter_In in Hr as [_ Hj].
  destruct (joined _ _ _ r) as [|x xs] eqn:Hx; [discriminate|].
  assert (In x (joined s (list_joins r') (CEq "user_id" (VNum u)) r)) as Hin
    by (rewrite Hx; left; reflexivity).
  apply joined_user_ref in Hin as [Heq Hh]. simpl in Hh. apply sql_eq_eq in Hh. congruence.
Qed.

Lemma category_invalid_pure v w : exists o, category_invalid v w = (o, w).
Proof.
  unfold category_invalid, bind, toLowerCase, ret, throw.
  destruct (truthy v); [|eauto]. destruct v; eauto.
Qed.

Lemma category_or_pure v e w : exists o, category_or v e w = (o, w).
Proof.
  unfold category_or, bind, toLowerCase, ret, throw.
  destruct (truthy v); [|eauto]. destruct v; eauto.
Qed.

Lemma toLowerCase_pure v w : exists o, toLowerCase v w = (o, w).
Proof. unfold toLowerCase, ret, throw. destruct v; eauto. Qed.

Lemma field_list_to_map_head k v (l : list (string * value)) :
  (list_to_map ((k, v) :: l) : obj).[k] = v.
Proof. simpl. apply field_insert_eq. Qed.

(** From a row that satisfies a [WHERE] clause with [user_id = u]: the row
    is the caller's. *)
Ltac owner_from_match Hu Hm :=
  unfold matches in Hm; cbn [forallb holds] in Hm; rewrite ?Hu in Hm;
  repeat match type of Hm with
         | (_ && _) = true =>
             let H := fresh "Hc" in apply andb_prop in Hm as [H Hm]
         end;
  match goal with
  | H : sql_eq _.["user_id"] (VNum _) = true |- _ => apply sql_eq_eq in H; exact H
  end.

(** Proves that the rows of one recorded event are the caller's, or that
    the event is on another table. *)
Ltac own_event Hu :=
  let r := fresh "r" in
  let Hin := fresh "Hin" in
  intros r Hin; cbn [event_rows In] in Hin;
  lazymatch type of Hin with
  | False => destruct Hin
  | In _ (map _ _) =>
      apply in_map_iff in Hin as (? & [= ?] & Hin); subst; try discriminate;
      repeat match goal with
             | Hs : _ = ?l |- _ =>
                 match type of Hin with In _ l => rewrite <- Hs in Hin end
             end;
      try apply in_take1 in Hin;
      apply filter_In in Hin as [_ Hin]; owner_from_match Hu Hin
  | _ \/ False =>
      destruct Hin as [[= ?]|[]]; subst; try discriminate;
      rewrite field_insert_ne by discriminate;
      cbn [map fst snd]; rewrite ?field_list_to_map_head, ?field_insert_eq, Hu; reflexivity
  end.

Ltac own_delete Hu :=
  let Heq := fresh "Heq" in
  let r := fresh "r" in
  let Hr := fresh "Hr" in
  let Hm := fresh "Hm" in
  intros Heq; try discriminate Heq; intros r Hr Hm; owner_from_match Hu Hm.

(** Proves that a world built from recorded statements touches only the
    caller's rows of the table. *)
Ltac scoped_auto Hu :=
  cbv beta iota; cbn [snd];
  repeat first
    [ apply scoped_fresh
    | apply scoped_logged; [| own_event Hu]
    | apply scoped_deleted; [| simpl; lia | own_delete Hu]
    | eapply scoped_trace; [reflexivity | | own_event Hu] ].

(** Takes the goal past a computation that leaves the world as it is,
    splitting on its outcome. *)
Ltac step_pure :=
  match goal with
  | |- context [toLowerCase ?v ?w] =>
      let o := fresh "o" in destruct (toLowerCase_pure v w) as [[o|?] ->]
  | |- context [category_invalid ?v ?w] =>
      let o := fresh "o" in destruct (category_invalid_pure v w) as [[o|?] ->]
  | |- context [category_or ?v ?e ?w] =>
      let o := fresh "o" in destruct (category_or_pure v e w) as [[o|?] ->]
  end; cbv beta iota.

(** Takes the goal past the parsing of the body. *)
Ltac step_body :=
  let body := fresh "body" in
  let Hbody := fresh "Hbody" in
  unfold request_json;
  destruct (json_body _) as [body|] eqn:Hbody;
  cbv beta iota delta [bind ret throw].

Ltac step_if :=
  match goal with
  | |- context [if ?c then (fun w : World => _) else _] => destruct c eqn:?
  end; cbv beta iota.

Ltac step_rows :=
  match goal with
  | |- context [map (project ?cols) ?l] => destruct l eqn:?; cbn [map head]; cbv beta iota
  end.

(** Runs the handler of the goal to each of its ends and shows that the
    world reached touches only the caller's rows. *)
Ltac step Hu :=
  first [ step_pure
        | step_select; [|try step_rows]
        | step_insert
        | step_update
        | step_delete
        | step_if ].

Ltac crunch Hu := repeat (try solve [scoped_auto Hu]; step Hu).

(** The part_000 and part_002 DELETE remove by id alone, after having found
    the caller's row with that id: where ids are unique that is the one
    row removed. *)
Lemma legacy_delete_owned env u t s tok id g l :
  key_unique t s -> pk t = "id" ->
  take 1 (List.filter (matches [CEq "id" id; CEq "user_id" (VNum u)]) (rows_of t s)) = g :: l ->
  scoped u t (deleted env t [CEq "id" id]
                (logged (logged (fresh s) (EvVerify tok)) (EvSelect t (g :: l)))).
Proof.
  intros Hkey Hpk Hsel.
  assert (Hu : VNum u = VNum u) by reflexivity.
  assert (In g (rows_of t s) /\ sql_eq g.["id"] id = true /\ g.["user_id"] = VNum u)
    as (Hg & Hgid & Hgu).
  { assert (In g (g :: l)) as Hin by (left; reflexivity).
    rewrite <- Hsel in Hin. apply in_take1 in Hin. apply filter_In in Hin as [Hin Hm].
    rewrite matches_pair in Hm. apply andb_prop in Hm as [Hm1 Hm2].
    apply sql_eq_eq in Hm2. tauto. }
  apply scoped_deleted; [|lia|].
  - apply scoped_logged; [apply scoped_logged; [apply scoped_fresh | own_event Hu]|].
    intros r Hin. cbn [event_rows] in Hin. apply in_map_iff in Hin as (x & [= ->] & Hin).
    rewrite <- Hsel in Hin. apply in_take1 in Hin. apply filter_In in Hin as [_ Hm].
    rewrite matches_pair in Hm. apply andb_prop in Hm as [_ Hm]. apply sql_eq_eq, Hm.
  - intros _ r Hr Hm. cbn [db logged fresh] in Hr. rewrite matches_single in Hm.
    assert (r = g) as ->; [|exact Hgu].
    apply Hkey; [exact Hr | exact Hg |]. rewrite Hpk.
    apply sql_eq_eq in Hm, Hgid. congruence.
Qed.

Theorem C2_own_table_rows_owned (env : Env) (ep : endpoint) (t : table) (req : Request)
        (s : Store) (decoded : obj) (u : Z) :
  owner_scoped ep = true ->
  own_table ep = Some t ->
  authenticated env ep req decoded ->
  decoded.["user_id"] = VNum u ->
  (ep = EntitiesDELETE000 \/ ep = ServicesDELETE002 -> key_unique t s) ->
  forall r, In (t, r) (touched (trace (run env ep req (fresh s)).2)) ->
            r.["user_id"] = VNum u.
Proof.
  intros Hscope Hown Hauth Hu Hkey. change (scoped u t (run env ep req (fresh s)).2).
  destruct ep as [r m| | | |]; try discriminate Hscope; injection Hown as <-.
  - destruct m.
    + (* list *)
      rewrite run_list. destruct Hauth as (Hg & tok & Ht & Hv).
      unfold guard_passes in Hg. simpl in Hg.
      unfold list_rows, try_catch. rewrite (bearer_accept _ _ _ _ tok _ Hg Ht Hv).
      unfold bind at 1. rewrite db_select_join_run, Hu.
      destruct (undefined_bind_throws env && _).
      * cbn [snd]. apply scoped_logged; [apply scoped_fresh | own_event Hu].
      * rewrite db_logged. destruct (flat_map _ _); cbn [snd];
          (apply scoped_logged; [apply scoped_logged; [apply scoped_fresh | own_event Hu]|]);
          intros x Hin; cbn [event_rows] in Hin;
          apply in_map_iff in Hin as (? & [= ->] & Hin); exact (list_base_owned _ _ _ _ Hin).
    + (* create *)
      destruct r; enter_handler Hauth; step_body; crunch Hu.
    + (* update *)
      destruct r; try discriminate Hscope; enter_handler Hauth; step_body; crunch Hu.
    + (* delete *)
      destruct r; enter_handler Hauth; step_body; crunch Hu.
  - enter_handler Hauth; step_body; crunch Hu.
    rewrite Hu in *. apply legacy_delete_owned; [apply Hkey; left| |]; auto.
  - enter_handler Hauth; step_body; crunch Hu.
    rewrite Hu in *. apply legacy_delete_owned; [apply Hkey; right| |]; auto.
Qed.

(** The entity ids of the demo store are unique. *)
Lemma demo_entities_key_unique : key_unique Entities demo_store.
Proof.
  intros r1 r2 [<-|[<-|[]]] [<-|[<-|[]]] H; try reflexivity; vm_compute in H; discriminate H.
Defined.

(** Ann deletes Home through the part_000 handler: the entity rows touched
    are hers. *)
Lemma C2_own_table_rows_owned_witness :
  key_unique Entities demo_store /\
  forall r,
    In (Entities, r)
       (touched (trace (run demo_env_cascade EntitiesDELETE000 delete_home
                            (fresh demo_store)).2)) ->
    r.["user_id"] = VNum 7.
Proof.
  split; [exact demo_entities_key_unique|].
  apply (C2_own_table_rows_owned demo_env_cascade EntitiesDELETE000 Entities delete_home
           demo_store (row [("user_id", VNum 7); ("id", VNum 7)]) 7).
  - reflexivity.
  - reflexivity.
  - split; [reflexivity|]. exists "tok7". split; reflexivity.
  - reflexivity.
  - intros _. exact demo_entities_key_unique.
Defined.

(** ** C3, C4, C5: the payees and subscriptions handlers at concrete inputs *)

(** C3 at its failing inputs: the payees POST stores the category [Bogus]
    and answers 201, and the subscriptions POST stores [INCOME] as it is;
    neither handler has the test or the lowercasing of the entities and
    services handlers. *)
Lemma C3_payee_category_unchecked :
  category_accepted (VStr "Bogus") = false /\
  run demo_env (Res RPayees mPOST) create_payee_bogus_category demo_world =
    (json 201,
     {| db := set_rows Payees
                [bob_ltd; landlord;
                 row [("id", VNum 3); ("user_id", VNum 7); ("entity_id", VNum 6);
                      ("service_id", VNum 3); ("payee_name", VStr "Gym");
                      ("phone", VStr "123"); ("email", VStr "g@x.io");
                      ("amount", VNum 40); ("category", VStr "Bogus")]]
                demo_store;
        trace := [EvVerify "tok7"; EvSelect Entities [home]; EvSelect Services [rent];
                  EvInsert Payees
                    (row [("id", VNum 3); ("user_id", VNum 7); ("entity_id", VNum 6);
                          ("service_id", VNum 3); ("payee_name", VStr "Gym");
                          ("phone", VStr "123"); ("email", VStr "g@x.io");
                          ("amount", VNum 40); ("category", VStr "Bogus")])] |}) /\
  (run demo_env (Res RSubscriptions mPOST) create_subscription_upper_category demo_world).1
    = json 201 /\
  subscriptions (db (run demo_env (Res RSubscriptions mPOST)
                         create_subscription_upper_category demo_world).2) =
    [lease;
     row [("id", VNum 2); ("user_id", VNum 7); ("entity_id", VNum 6); ("service_id", VNum 3);
          ("payee_id", VNum 2); ("startDate", VStr "2026-01-01");
          ("endDate", VStr "2026-12-31"); ("amount", VNum 900);
          ("paymentDate", VStr "2026-01-05"); ("category", VStr "INCOME")]].
Proof. compute_done. Qed.

(** C4 at its failing input: bob updates his payee 1 and leaves
    [entity_name] and [service_name] out. The answer is 200 and the stored
    [entity_id] and [service_id], 5 and 4 before, are now null. With a
    driver that sends [undefined] as null, a body with the id and the phone
    only also nulls the name, email, amount and category. *)
Lemma C4_payee_put_overwrites_omitted :
  bob_ltd.["entity_id"] = VNum 5 /\ bob_ltd.["service_id"] = VNum 4 /\
  run demo_env (Res RPayees mPUT) update_payee_phone demo_world =
    (json 200,
     {| db := set_rows Payees
                [row [("id", VNum 1); ("user_id", VNum 8); ("entity_id", VNull);
                      ("service_id", VNull); ("payee_name", VStr "Bob Ltd");
                      ("phone", VStr "556"); ("email", VStr "b@x.io");
                      ("amount", VNum 3000); ("category", VStr "income")];
                 landlord]
                demo_store;
        trace := [EvVerify "tok8"; EvUpdate Payees [bob_ltd]] |}) /\
  run demo_env_lenient (Res RPayees mPUT) update_payee_phone_only demo_world =
    (json 200,
     {| db := set_rows Payees
                [row [("id", VNum 1); ("user_id", VNum 8); ("entity_id", VNull);
                      ("service_id", VNull); ("payee_name", VNull);
                      ("phone", VStr "556"); ("email", VNull);
                      ("amount", VNull); ("category", VNull)];
                 landlord]
                demo_store;
        trace := [EvVerify "tok8"; EvUpdate Payees [bob_ltd]] |}).
Proof. compute_done. Qed.

(** C5 at its failing input: ann (7) sends a payees PUT for payee 1, which
    belongs to bob (8). No payee with id 1 is owned by ann, yet the answer
    is 200 and bob's row is overwritten and handed to ann. The
    subscriptions PUT does the same to ann's subscription on bob's request. *)
Lemma C5_put_updates_foreign_row :
  List.filter (matches [CEq "id" (VNum 1); CEq "user_id" (VNum 7)]) (payees demo_store) = [] /\
  run demo_env (Res RPayees mPUT) overwrite_foreign_payee demo_world =
    (json 200,
     {| db := set_rows Payees
                [row [("id", VNum 1); ("user_id", VNum 7); ("entity_id", VNull);
                      ("service_id", VNull); ("payee_name", VStr "Mine");
                      ("phone", VStr "000"); ("email", VStr "a@x.io");
                      ("amount", VNum 1); ("category", VStr "expense")];
                 landlord]
                demo_store;
        trace := [EvVerify "tok7"; EvUpdate Payees [bob_ltd]] |}) /\
  List.filter (matches [CEq "id" (VNum 1); CEq "user_id" (VNum 8)])
              (subscriptions demo_store) = [] /\
  (run demo_env (Res RSubscriptions mPUT) overwrite_foreign_subscription demo_world).1
    = json 200 /\
  subscriptions (db (run demo_env (Res RSubscriptions mPUT)
                         overwrite_foreign_subscription demo_world).2) =
    [row [("id", VNum 1); ("user_id", VNum 8); ("entity_id", VNull); ("service_id", VNull);
          ("payee_id", VNull); ("startDate", VStr "2030-01-01");
          ("endDate", VStr "2030-01-02"); ("amount", VNum 1);
          ("paymentDate", VStr "2030-01-01"); ("category", VStr "income")]].
Proof. compute_done. Qed.

(** ** The entities and services handlers do what C3, C4 and C5 ask *)

Lemma field_list_to_map (l : list (string * value)) k :
  (list_to_map l : obj).[k] =
  match find (fun kv => String.eqb kv.1 k) l with
  | Some kv => kv.2
  | None => VUndef
  end.
Proof.
  induction l as [|[k' v] l IH]; [reflexivity|].
  cbn [list_to_map foldr find fst snd]. destruct (String.eqb k' k) eqn:Hk.
  - apply String.eqb_eq in Hk as ->. apply field_insert_eq.
  - apply String.eqb_neq in Hk. rewrite field_insert_ne by exact Hk. exact IH.
Qed.

(** X27: the category test of the entities and services POST and PUT: a
    supplied category string outside income and expense is answered 400
    before any statement. *)
Lemma entities_services_reject_category (env : Env) (r : resource) (m : method)
      (req : Request) (w : World) (decoded body : obj) (c : string) :
  r = REntities \/ r = RServices ->
  m = mPOST \/ m = mPUT ->
  authenticated env (Res r m) req decoded ->
  json_body req = Some body ->
  missing (required_fields r m) body = false ->
  body.["category"] = VStr c -> truthy (VStr c) = true ->
  category_accepted (VStr c) = false ->
  exists tok, run env (Res r m) req w = (json 400, logged w (EvVerify tok)).
Proof.
  intros Hr Hm Hauth Hbody Hreq Hc Htr Hacc.
  destruct Hr as [-> | ->]; destruct Hm as [-> | ->];
    simpl in Hreq; rewrite ?orb_false_r, ?orb_assoc in Hreq;
    enter_handler Hauth; read_body Hbody; rewrite Hreq, Hc;
    unfold category_invalid; rewrite ?Htr; reduce; simpl in Hacc; rewrite Hacc;
    eexists; reflexivity.
Qed.


Lemma project_id (e : obj) : (project (Some ["id"]) e).["id"] = e.["id"].
Proof. unfold project. cbn [map]. apply field_list_to_map_head. Qed.

Lemma filter_nil_more (cs1 cs2 : list cond) (l : list obj) :
  List.filter (matches cs1) l = [] ->
  (forall r, matches cs2 r = true -> matches cs1 r = true) ->
  List.filter (matches cs2) l = [].
Proof.
  intros Hnil Hsub. induction l as [|x l IH]; [reflexivity|].
  simpl in *. destruct (matches cs1 x) eqn:H1; [discriminate|].
  destruct (matches cs2 x) eqn:H2; [|apply IH, Hnil].
  apply Hsub in H2. congruence.
Qed.

Lemma filter_all_false {A} (f : A -> bool) (l : list A) :
  (forall x, In x l -> f x = false) -> List.filter f l = [].
Proof.
  induction l as [|a l IH]; simpl; [reflexivity|]. intros H.
  rewrite (H a) by (left; reflexivity). apply IH. intros x Hx. apply H. right. exact Hx.
Qed.

(** X29: the ownership test of the entities and services PUT, for a key
    sent as a number and a token whose user id is a number: if no row of
    the table has that key and the caller as its owner, the answer is 404
    and nothing is written. *)
Lemma entities_services_put_checks_owner (env : Env) (r : resource)
      (req : Request) (w : World) (decoded body : obj) (n u : Z) :
  r = REntities \/ r = RServices ->
  authenticated env (Res r mPUT) req decoded ->
  json_body req = Some body ->
  passes_validation r mPUT body = true ->
  body.["id"] = VNum n ->
  decoded.["user_id"] = VNum u ->
  (forall e, In e (rows_of Entities (db w)) -> is_undefined e.["id"] = false) ->
  (forall x, In x (rows_of (table_of r) (db w)) ->
             x.["id"] = VNum n -> x.["user_id"] <> VNum u) ->
  exists w', run env (Res r mPUT) req w = (json 404, w') /\ read_only w w'.
Proof.
  intros Hr Hauth Hbody Hval Hn Hu Hids Hforeign.
  assert (List.filter (matches [CEq "id" body.["id"]; CEq "user_id" (VNum u)])
                      (rows_of (table_of r) (db w)) = []) as Hnone.
  { apply filter_all_false. intros x Hx. rewrite matches_pair, Hn.
    destruct (sql_eq x.["id"] (VNum n)) eqn:E1; [|reflexivity].
    destruct (sql_eq x.["user_id"] (VNum u)) eqn:E2; [|reflexivity].
    apply sql_eq_eq in E1, E2. destruct (Hforeign x Hx E1 E2). }
  clear Hforeign Hn.
  apply andb_prop in Hval as [Hreq Hcat]. apply negb_true_iff in Hreq.
  destruct Hr as [-> | ->];
    simpl in Hreq; rewrite ?orb_false_r, ?orb_assoc in Hreq;
    enter_handler Hauth; read_body Hbody; rewrite Hreq, Hu;
    repeat (apply orb_false_elim in Hreq as [Hreq ?]);
    rewrite (category_invalid_run _ _ Hcat); reduce.
  - run_select. cbn [table_of] in Hnone. rewrite Hnone. answered_read_only.
  - run_select.
    destruct (List.filter (matches [CEq "entity_name" _]) _) as [|e es] eqn:He;
      [answered_read_only|].
    cbn [take map]. cbv beta iota.
    rewrite project_id.
    assert (is_undefined e.["id"] = false) as Hid.
    { apply Hids.
      assert (In e (e :: es)) as Hin by (left; reflexivity).
      rewrite <- He in Hin. apply filter_In in Hin. tauto. }
    rewrite db_select_run
      by (cbn [map cond_value existsb is_undefined];
          rewrite Hid, (falsy_false_defined _ Hreq); reflexivity).
    cbv zeta. rewrite db_logged.
    rewrite (filter_nil_more _ _ _ Hnone); [answered_read_only|].
    intros x. unfold matches. cbn [forallb holds]. intros Hm.
    repeat (apply andb_prop in Hm as [? Hm]).
    repeat (apply andb_true_intro; split); assumption.
Qed.

Lemma field_assign sets (r : obj) c :
  (assign sets r).[c] =
  match find (fun kv => String.eqb kv.1 c) sets with
  | Some kv => kv.2
  | None => r.[c]
  end.
Proof.
  unfold assign. induction sets as [|[k v] sets IH]; [reflexivity|].
  cbn [foldr find fst snd]. destruct (String.eqb k c) eqn:Hk.
  - apply String.eqb_eq in Hk as ->. apply field_insert_eq.
  - apply String.eqb_neq in Hk. rewrite field_insert_ne by exact Hk. exact IH.
Qed.

Lemma category_or_falsy v e w a w' :
  category_or v e w = (Val a, w') -> falsy v = true -> a = e.
Proof.
  unfold category_or, falsy. intros H Hv. apply negb_true_iff in Hv. rewrite Hv in H.
  unfold ret in H. congruence.
Qed.

Lemma selected_is_old t s cs id existing rest old :
  pk t = "id" -> key_unique t s ->
  take 1 (List.filter (matches (CEq "id" id :: cs)) (rows_of t s)) = existing :: rest ->
  In old (rows_of t s) -> sql_eq old.["id"] id = true ->
  old = existing /\ matches (CEq "id" id :: cs) existing = true.
Proof.
  intros Hpk Hkey Hsel Hold Hid.
  assert (In existing (existing :: rest)) as Hin by (left; reflexivity).
  rewrite <- Hsel in Hin. apply in_take1 in Hin. apply filter_In in Hin as [Hin Hm].
  split; [|exact Hm]. apply Hkey; [exact Hold | exact Hin |]. rewrite Hpk.
  unfold matches in Hm. cbn [forallb holds] in Hm. apply andb_prop in Hm as [Hm _].
  apply sql_eq_eq in Hm, Hid. congruence.
Qed.

(** Evaluates the comparisons of column names in the goal. *)
Ltac eval_names :=
  repeat match goal with
         | |- context [String.eqb ?a ?b] =>
             let v := eval vm_compute in (String.eqb a b) in
             change (String.eqb a b) with v
         end; cbv beta iota.

(** X30: the fallback of the entities and services PUT: after a
    successful update of the row with the body's id, every updatable field
    the body leaves unset holds its previous value and every other column
    is untouched. *)
Lemma entities_services_put_keeps_omitted (env : Env) (r : resource)
      (req : Request) (w : World) (decoded body old : obj) :
  r = REntities \/ r = RServices ->
  authenticated env (Res r mPUT) req decoded ->
  json_body req = Some body ->
  status (run env (Res r mPUT) req w).1 = 200%Z ->
  key_unique (table_of r) (db w) ->
  In old (rows_of (table_of r) (db w)) ->
  sql_eq old.["id"] body.["id"] = true ->
  exists new,
    In new (rows_of (table_of r) (db (run env (Res r mPUT) req w).2)) /\
    forall c,
      (In c (updatable r) -> falsy body.[c] = true -> new.[c] = to_sql old.[c]) /\
      (~ In c (updatable r) -> new.[c] = old.[c]).
Proof.
  intros Hr Hauth Hbody.
  remember (run env (Res r mPUT) req w) as res eqn:Hrun. symmetry in Hrun. revert Hrun.
  destruct Hr as [-> | ->]; enter_handler Hauth; read_body Hbody;
    (step_if; [intros <-; discriminate|]);
    (step_pure; [|intros <-; discriminate]);
    (step_if; [intros <-; discriminate|]).
  - step_select; [intros <-; discriminate|].
    destruct (take 1 _) as [|existing rest] eqn:Hsel; [intros <-; discriminate|].
    cbn [map]. change (project None existing) with existing. cbv beta iota.
    match goal with
    | |- context [category_or ?v ?e ?w0] =>
        destruct (category_or_pure v e w0) as [[a|?] Hco]; rewrite Hco; cbv beta iota
    end; [|intros <-; discriminate].
    step_update; [intros <-; discriminate|].
    intros <- _ Hkey Hold Hid. cbn [fst snd db table_of] in *.
    rewrite rows_of_set_rows.
    destruct (selected_is_old Entities (db w) _ _ _ _ old eq_refl Hkey Hsel Hold Hid)
      as [-> Hm].
    eexists. split.
    + unfold updated. apply in_map_iff. exists existing. rewrite Hm.
      split; [reflexivity | exact Hold].
    + intros c. rewrite field_assign. cbn [map find fst snd]. split.
      * intros Hc Hf. cbn [updatable In] in Hc.
        assert (truthy body.[c] = false) as Hfc by (apply negb_true_iff, Hf).
        repeat destruct Hc as [<-|Hc]; try destruct Hc; eval_names;
          try (unfold js_or; rewrite Hfc; reflexivity).
        rewrite (category_or_falsy _ _ _ _ _ Hco Hf). reflexivity.
      * intros Hc.
        repeat match goal with
               | |- context [String.eqb ?k c] =>
                   let E := fresh "E" in
                   destruct (String.eqb k c) eqn:E;
                   [apply String.eqb_eq in E; subst c; exfalso; apply Hc; simpl; tauto|]
               end.
        reflexivity.
  - step_select; [intros <-; discriminate|].
    destruct (take 1 _) as [|entity es]; [intros <-; discriminate|].
    cbn [map]. cbv beta iota.
    step_select; [intros <-; discriminate|].
    destruct (take 1 _) as [|existing rest] eqn:Hsel; [intros <-; discriminate|].
    cbn [map]. change (project None existing) with existing. cbv beta iota.
    match goal with
    | |- context [category_or ?v ?e ?w0] =>
        destruct (category_or_pure v e w0) as [[a|?] Hco]; rewrite Hco; cbv beta iota
    end; [|intros <-; discriminate].
    step_update; [intros <-; discriminate|].
    intros <- _ Hkey Hold Hid. cbn [fst snd db table_of] in *.
    rewrite rows_of_set_rows.
    destruct (selected_is_old Services (db w) _ _ _ _ old eq_refl Hkey Hsel Hold Hid)
      as [-> Hm].
    eexists. split.
    + unfold updated. apply in_map_iff. exists existing. rewrite Hm.
      split; [reflexivity | exact Hold].
    + intros c. rewrite field_assign. cbn [map find fst snd]. split.
      * intros Hc Hf. cbn [updatable In] in Hc.
        assert (truthy body.[c] = false) as Hfc by (apply negb_true_iff, Hf).
        repeat destruct Hc as [<-|Hc]; try destruct Hc; eval_names;
          try (unfold js_or; rewrite Hfc; reflexivity).
        rewrite (category_or_falsy _ _ _ _ _ Hco Hf). reflexivity.
      * intros Hc.
        repeat match goal with
               | |- context [String.eqb ?k c] =>
                   let E := fresh "E" in
                   destruct (String.eqb k c) eqn:E;
                   [apply String.eqb_eq in E; subst c; exfalso; apply Hc; simpl; tauto|]
               end.
        reflexivity.
Qed.

(** * Further properties of the handlers *)

(** ** Statements that match no row *)

Lemma set_rows_same t s : set_rows t (rows_of t s) s = s.
Proof. destruct t, s; reflexivity. Qed.

Lemma filter_none_negb {A} (f : A -> bool) (l : list A) :
  List.filter f l = [] -> List.filter (fun x => negb (f x)) l = l.
Proof.
  induction l as [|a l IH]; simpl; [reflexivity|].
  destruct (f a); [discriminate|]. intros H. simpl. f_equal. exact (IH H).
Qed.

Lemma filter_nil_false {A} (f : A -> bool) (l : list A) x :
  List.filter f l = [] -> In x l -> f x = false.
Proof.
  intros Hnil Hx. destruct (f x) eqn:Hf; [|reflexivity].
  assert (In x (List.filter f l)) as Hin by (apply filter_In; tauto).
  rewrite Hnil in Hin. destruct Hin.
Qed.

Lemma updated_none sets cs l : List.filter (matches cs) l = [] -> updated sets cs l = l.
Proof.
  unfold updated. induction l as [|a l IH]; simpl; [reflexivity|].
  destruct (matches cs a); [discriminate|]. intros H. f_equal. exact (IH H).
Qed.

Lemma count_zero {A} (l : list A) : (Z.of_nat (List.length l) =? 0)%Z = true -> l = [].
Proof.
  destruct l; [reflexivity|]. intros H. apply Z.eqb_eq in H.
  cbn [List.length] in H. lia.
Qed.

Lemma cascade_nil fuel : forall t w, db (cascade fuel t [] w) = db w.
Proof.
  induction fuel as [|fuel IH]; intros t w; [reflexivity|].
  simpl. generalize (fk_children t). intros l. revert w.
  induction l as [|cf l IHl]; intros w; simpl; [reflexivity|].
  rewrite IHl.
  rewrite (filter_all_false (fun _ : obj => false)) by reflexivity.
  rewrite IH. simpl.
  rewrite (filter_none_negb (fun _ : obj => false)) by (apply filter_all_false; reflexivity).
  apply set_rows_same.
Qed.

Lemma deleted_none env t cs w :
  List.filter (matches cs) (rows_of t (db w)) = [] -> db (deleted env t cs w) = db w.
Proof.
  intros Hnil. unfold deleted. rewrite Hnil, (filter_none_negb _ _ Hnil).
  destruct (on_delete_cascade env); [rewrite cascade_nil|]; simpl; apply set_rows_same.
Qed.

(** ** Every way a handler can end *)

Ltac step_join :=
  rewrite db_select_join_run; rewrite ?db_logged;
  match goal with
  | |- context [if ?c then (Throw DbError, _) else _] => destruct c eqn:?
  end;
  [| match goal with
     | |- context [match flat_map ?f ?l with _ => _ end] => destruct (flat_map f l) eqn:?
     end ].

(** Takes the goal past the parsing of the body, where it is parsed. *)
Ltac step_parse :=
  match goal with
  | |- context [request_json ?r] =>
      let body := fresh "body" in
      let Hbody := fresh "Hbody" in
      unfold request_json;
      destruct (json_body r) as [body|] eqn:Hbody;
      cbv beta iota delta [bind ret throw]
  end.

(** One step of the handler of the goal, whatever the statement. *)
Ltac step_any :=
  first [ step_parse
        | step_pure
        | step_resolve; cbv beta
        | step_join
        | step_select; [|try step_rows]
        | step_insert
        | step_update
        | step_delete
        | step_if
        | progress cbv beta iota delta [bind ret throw] ].

(** Runs the handler of the goal to each of its ends, closing with [leaf]
    those it proves. *)
Ltac walk leaf := repeat (try solve [leaf]; step_any).

Ltac outcome_leaf :=
  idtac;
  lazymatch goal with
  | |- (_, _) = _ -> _ =>
      let H := fresh in
      intros <-; cbn [fst snd status json]; split;
      [ cbn [statuses In]; auto 10
      | intros H; first [reflexivity | vm_compute in H; discriminate H] ]
  end.

Lemma authenticated_outcome (env : Env) (ep : endpoint) (req : Request) (w : World)
      (decoded : obj) :
  authenticated env ep req decoded ->
  In (status (run env ep req w).1) (statuses ep) /\
  (refusal (status (run env ep req w).1) = true -> db (run env ep req w).2 = db w).
Proof.
  intros Hauth.
  remember (run env ep req w) as res eqn:Hrun. symmetry in Hrun. revert Hrun.
  destruct ep as [[] []| | | |]; try (rewrite run_list; unfold list_rows);
    enter_handler Hauth; walk outcome_leaf.
  (* the two user handlers, when their statement matched no row *)
  all: intros <-; cbn [fst snd status json]; split; [cbn [statuses In]; auto 10 | intros _];
    match goal with
    | H : (Z.of_nat _ =? 0)%Z = true |- _ => apply count_zero in H; rename H into Hnone
    end.
  - cbn [db]. rewrite updated_none by exact Hnone. apply set_rows_same.
  - exact (deleted_none env Users _ (logged w (EvVerify tok)) Hnone).
Qed.

Lemma guard_gives_token (ep : endpoint) (h : option string) :
  guard_passes ep h = true -> exists tok, auth_token h = Some tok.
Proof.
  unfold guard_passes, has_second_word, bearer_header, auth_token.
  destruct (is_user_endpoint ep); destruct h as [h|]; try discriminate.
  - destruct (split " " h !! 1%nat); [eauto | discriminate].
  - apply startsWith_bearer_token.
Qed.

(** A request is either turned away at the header test, or carries a token
    that does not verify, or is authenticated. *)
Lemma credentials_cases (env : Env) (ep : endpoint) (req : Request) (w : World) :
  run env ep req w = (json 401, w) \/
  (exists tok, run env ep req w = (json 500, logged w (EvVerify tok))) \/
  (exists decoded, authenticated env ep req decoded).
Proof.
  destruct (guard_passes ep (authorization req)) eqn:Hg.
  - destruct (guard_gives_token _ _ Hg) as [tok Ht].
    destruct (jwt_verify env tok) as [decoded|] eqn:Hv.
    + right. right. exists decoded. split; [exact Hg|]. exists tok. tauto.
    + right. left. exists tok. apply run_verify_fail; assumption.
  - left. apply run_reject. exact Hg.
Qed.

Lemma statuses_credentials (ep : endpoint) :
  In 401%Z (statuses ep) /\ In 500%Z (statuses ep).
Proof. destruct ep as [[] []| | | |]; simpl; auto 10. Qed.

Lemma run_outcome (env : Env) (ep : endpoint) (req : Request) (w : World) :
  In (status (run env ep req w).1) (statuses ep) /\
  (refusal (status (run env ep req w).1) = true -> db (run env ep req w).2 = db w).
Proof.
  destruct (credentials_cases env ep req w) as [H | [[tok H] | [decoded H]]].
  - rewrite H. split; [apply statuses_credentials | reflexivity].
  - rewrite H. split; [apply statuses_credentials | reflexivity].
  - exact (authenticated_outcome env ep req w decoded H).
Qed.

(** ** Credentials, refusals and statuses *)

(** X1: whatever the endpoint, the request and the store, a handler
    answers 200 or 201, or leaves the store different from what it was,
    only for a request that passed the header test and whose token the
    verifier accepted. *)
Theorem served_only_with_verified_token (env : Env) (ep : endpoint) (req : Request)
        (w : World) :
  success (status (run env ep req w).1) = true \/ db (run env ep req w).2 <> db w ->
  exists decoded, authenticated env ep req decoded.
Proof.
  intros Hserved.
  destruct (credentials_cases env ep req w) as [H | [[tok H] | H]]; [| |exact H];
    rewrite H in Hserved; destruct Hserved as [Hs | Hdb];
    solve [discriminate Hs | exfalso; apply Hdb; reflexivity].
Qed.

(** Ann's service is created: her token verified. *)
Lemma served_only_with_verified_token_witness :
  success (status (run demo_env (Res RServices mPOST) create_service_under_acme
                      demo_world).1) = true /\
  exists decoded, authenticated demo_env (Res RServices mPOST) create_service_under_acme decoded.
Proof.
  assert (Hs : success (status (run demo_env (Res RServices mPOST) create_service_under_acme
                                  demo_world).1) = true) by compute_done.
  split; [exact Hs|].
  apply (served_only_with_verified_token demo_env (Res RServices mPOST)
           create_service_under_acme demo_world).
  left. exact Hs.
Defined.

(** X2: a handler that answers 400, 401, 404 or 409 has left every table
    as it was; this holds for all twenty handlers, the user handlers
    included, whose 404 comes after their UPDATE or DELETE has run and
    matched no row. *)
Theorem refusal_changes_nothing (env : Env) (ep : endpoint) (req : Request) (w : World) :
  refusal (status (run env ep req w).1) = true ->
  db (run env ep req w).2 = db w.
Proof. intros H. exact (proj2 (run_outcome env ep req w) H). Qed.

(** A user edit with a token whose id has no user row: 404 after the
    UPDATE ran, store unchanged. *)
Lemma refusal_changes_nothing_witness :
  status (run demo_env_stale EditUserPUT edit_nobody demo_world).1 = 404%Z /\
  db (run demo_env_stale EditUserPUT edit_nobody demo_world).2 = demo_store.
Proof.
  split; [compute_done|].
  apply (refusal_changes_nothing demo_env_stale EditUserPUT edit_nobody demo_world).
  compute_done.
Defined.

(** X3: the status of every answer of a handler is one of the statuses of
    its return statements: only the creates answer 201 and they never
    answer 200, only the user edit answers 409, the entities create never
    answers 404, the lists and the user delete never answer 400. *)
Theorem status_of_every_answer (env : Env) (ep : endpoint) (req : Request) (w : World) :
  In (status (run env ep req w).1) (statuses ep).
Proof. exact (proj1 (run_outcome env ep req w)). Qed.

(** ** The list handlers *)

(** What the list handler of a resource computes for an authenticated
    request. *)
Lemma list_run (env : Env) (r : resource) (req : Request) (w : World) (decoded : obj) :
  authenticated env (Res r mGET) req decoded ->
  exists tok,
    run env (Res r mGET) req w =
      if undefined_bind_throws env && is_undefined decoded.["user_id"]
      then (json 500, logged w (EvVerify tok))
      else
        (match flat_map (joined (db w) (list_joins r) (CEq "user_id" decoded.["user_id"]))
                        (rows_of (table_of r) (db w)) with
         | [] => json 404
         | rows => {| status := 200; data := DataRows rows |}
         end,
         logged (logged w (EvVerify tok))
           (EvSelect (table_of r)
              (List.filter
                 (fun x => match joined (db w) (list_joins r)
                                   (CEq "user_id" decoded.["user_id"]) x with
                           | [] => false
                           | _ => true
                           end)
                 (rows_of (table_of r) (db w))))).
Proof.
  intros (Hg & tok & Ht & Hv). exists tok.
  rewrite run_list. unfold list_rows, try_catch.
  unfold guard_passes in Hg. simpl in Hg.
  rewrite (bearer_accept _ _ _ _ tok _ Hg Ht Hv).
  unfold bind at 1. rewrite db_select_join_run. cbn [existsb cond_value].
  rewrite orb_false_r.
  destruct (undefined_bind_throws env && is_undefined _); [reflexivity|].
  rewrite db_logged. destruct (flat_map _ _); reflexivity.
Qed.

(** X4: a list request never writes: whatever the credentials and the
    outcome, the store after it is the store before it and the only calls
    recorded are the token verification and the SELECT. *)
Theorem list_never_writes (env : Env) (r : resource) (req : Request) (w : World) :
  read_only w (run env (Res r mGET) req w).2.
Proof.
  destruct (credentials_cases env (Res r mGET) req w) as [H | [[tok H] | [decoded H]]].
  - rewrite H. apply read_only_refl.
  - rewrite H. prove_read_only.
  - destruct (list_run env r req w decoded H) as [tok ->].
    destruct (undefined_bind_throws env && _); cbn [snd]; prove_read_only.
Qed.

Lemma sql_eq_sym a b : sql_eq a b = sql_eq b a.
Proof.
  destruct a, b; simpl; try reflexivity.
  - destruct b, b0; reflexivity.
  - apply Z.eqb_sym.
  - apply String.eqb_sym.
Qed.

Lemma sql_eq_trans a b c : sql_eq a b = true -> sql_eq b c = true -> sql_eq a c = true.
Proof. intros H1 H2. apply sql_eq_eq in H1 as ->. exact H2. Qed.

(** The user join keeps a row only if some user row has its owner as key. *)
Lemma join_users_row s r y :
  In y (join_rows s join_users r) ->
  exists p, In p (users s) /\ sql_eq r.["user_id"] p.["sr"] = true.
Proof.
  unfold join_rows. destruct (List.filter _ _) as [|p ps] eqn:Hf; [intros []|].
  intros _. exists p.
  assert (In p (p :: ps)) as Hin by (left; reflexivity).
  rewrite <- Hf in Hin. apply filter_In in Hin. exact Hin.
Qed.

(** A row of a list comes from a row of the table with the same id and
    owner, whose owner has a user row. *)
Lemma joined_origin s r' where_ r x :
  In x (joined s (list_joins r') where_ r) ->
  x.["id"] = r.["id"] /\
  exists p, In p (users s) /\ sql_eq r.["user_id"] p.["sr"] = true.
Proof.
  unfold joined. intros Hx. apply filter_In in Hx as [Hx _].
  destruct r'; simpl in Hx;
    repeat match goal with
           | H : In _ (flat_map _ _) |- _ => apply in_flat_map in H as (? & H & ?)
           | H : In _ (_ ++ _) |- _ => apply in_app_or in H as [H|H]
           | H : In _ [] |- _ => destruct H
           end.
  all: split;
    [ repeat match goal with
             | H : In ?y (join_rows _ ?j ?z) |- ?y.[_] = _ =>
                 rewrite (join_rows_keep _ _ _ _ "id" H)
                   by (simpl; intuition discriminate); clear H
             end; reflexivity
    | match goal with
      | H : In _ (join_rows _ join_users _) |- _ => exact (join_users_row _ _ _ H)
      end ].
Qed.

(** X5: a list answered 200 carries at least one row, every row carries
    the user id of the token in its user_id column, and every row comes
    from a row of the resource's table that has the same id, is owned by
    that user, and whose owner has a row in the users table. *)
Theorem list_answers_own_rows (env : Env) (r : resource) (req : Request) (w : World)
        (decoded : obj) :
  authenticated env (Res r mGET) req decoded ->
  status (run env (Res r mGET) req w).1 = 200%Z ->
  exists rows,
    data (run env (Res r mGET) req w).1 = DataRows rows /\
    rows <> [] /\
    forall x, In x rows ->
      x.["user_id"] = decoded.["user_id"] /\
      exists r0 p,
        In r0 (rows_of (table_of r) (db w)) /\ r0.["id"] = x.["id"] /\
        r0.["user_id"] = decoded.["user_id"] /\
        In p (users (db w)) /\ p.["sr"] = decoded.["user_id"].
Proof.
  intros Hauth. destruct (list_run env r req w decoded Hauth) as [tok ->].
  destruct (undefined_bind_throws env && _); [discriminate|].
  destruct (flat_map _ _) as [|x0 rows] eqn:Hrows; [discriminate|].
  intros _. exists (x0 :: rows). split; [reflexivity|]. split; [discriminate|].
  intros x Hx. rewrite <- Hrows in Hx. apply in_flat_map in Hx as (r0 & Hr0 & Hx).
  destruct (joined_user_ref _ _ _ _ _ Hx) as [Hu Hh].
  destruct (joined_origin _ _ _ _ _ Hx) as [Hid (p & Hp & Hrp)].
  simpl in Hh. apply sql_eq_eq in Hh. split; [exact Hh|].
  exists r0, p. repeat split; try assumption; try congruence.
  apply sql_eq_eq in Hrp. congruence.
Qed.

(** Ann lists her payees. *)
Lemma list_answers_own_rows_witness :
  status (run demo_env (Res RPayees mGET) (request (Some "Bearer tok7") []) demo_world).1
    = 200%Z /\
  exists rows,
    data (run demo_env (Res RPayees mGET) (request (Some "Bearer tok7") []) demo_world).1
      = DataRows rows /\
    rows <> [] /\
    forall x, In x rows ->
      x.["user_id"] = (row [("user_id", VNum 7); ("id", VNum 7)]).["user_id"] /\
      exists r0 p,
        In r0 (rows_of (table_of RPayees) (db demo_world)) /\ r0.["id"] = x.["id"] /\
        r0.["user_id"] = (row [("user_id", VNum 7); ("id", VNum 7)]).["user_id"] /\
        In p (users (db demo_world)) /\
        p.["sr"] = (row [("user_id", VNum 7); ("id", VNum 7)]).["user_id"].
Proof.
  assert (Hst : status (run demo_env (Res RPayees mGET) (request (Some "Bearer tok7") [])
                          demo_world).1 = 200%Z) by compute_done.
  split; [exact Hst|].
  exact (list_answers_own_rows demo_env RPayees (request (Some "Bearer tok7") []) demo_world
           (row [("user_id", VNum 7); ("id", VNum 7)])
           (demo_authenticated (Res RPayees mGET) [] eq_refl) Hst).
Defined.

(** A left join never drops a row. *)
Lemma join_rows_left s j y : j_left j = true -> exists z, In z (join_rows s j y).
Proof.
  intros Hl. unfold join_rows. destruct (List.filter _ _) as [|p ps].
  - rewrite Hl. eexists. left. reflexivity.
  - eexists. left. reflexivity.
Qed.

Lemma left_joins_keep s js :
  Forall (fun j => j_left j = true /\ ~ In "user_id" (map fst (j_proj j)) /\
                   ~ In "id" (map fst (j_proj j))) js ->
  forall acc y, In y acc ->
    exists x, In x (foldl (fun acc j => flat_map (join_rows s j) acc) acc js) /\
              x.["user_id"] = y.["user_id"] /\ x.["id"] = y.["id"].
Proof.
  induction 1 as [|j js (Hl & Hu & Hi) _ IH]; intros acc y Hy; simpl.
  - exists y. tauto.
  - destruct (join_rows_left s j y Hl) as [z Hz].
    destruct (IH (flat_map (join_rows s j) acc) z) as (x & Hx & Hxu & Hxi).
    { apply in_flat_map. exists y. tauto. }
    exists x. split; [exact Hx|].
    rewrite Hxu, Hxi, (join_rows_keep _ _ _ _ "user_id" Hz Hu),
      (join_rows_keep _ _ _ _ "id" Hz Hi). tauto.
Qed.

Lemma list_joins_shape r :
  exists rest, list_joins r = join_users :: rest /\
    Forall (fun j => j_left j = true /\ ~ In "user_id" (map fst (j_proj j)) /\
                     ~ In "id" (map fst (j_proj j))) rest.
Proof.
  destruct r; eexists; (split; [reflexivity|]);
    repeat constructor; simpl; intuition discriminate.
Qed.

(** A row whose owner has a user row appears in the joined rows of its
    owner's list. *)
Lemma joined_own_row s r' v r0 p :
  In p (users s) -> sql_eq p.["sr"] v = true -> sql_eq r0.["user_id"] v = true ->
  exists x, In x (joined s (list_joins r') (CEq "user_id" v) r0) /\ x.["id"] = r0.["id"].
Proof.
  intros Hp Hpv Hrv.
  assert (sql_eq r0.["user_id"] p.["sr"] = true) as Hrp.
  { rewrite sql_eq_sym in Hpv. exact (sql_eq_trans _ _ _ Hrv Hpv). }
  destruct (list_joins_shape r') as (rest & -> & Hrest).
  assert (exists y, In y (join_rows s join_users r0)) as [y Hy].
  { unfold join_rows.
    destruct (List.filter _ _) as [|q qs] eqn:Hf.
    - assert (In p []) as []. rewrite <- Hf. apply filter_In. split; [exact Hp | exact Hrp].
    - eexists. left. reflexivity. }
  destruct (left_joins_keep s rest Hrest (flat_map (join_rows s join_users) [r0]) y)
    as (x & Hx & Hxu & Hxi).
  { simpl. rewrite app_nil_r. exact Hy. }
  exists x. split.
  - unfold joined. apply filter_In. split; [exact Hx|]. simpl.
    rewrite Hxu, (join_users_ref _ _ _ Hy). exact Hrv.
  - rewrite Hxi. apply (join_rows_keep _ _ _ _ "id" Hy). simpl. intuition discriminate.
Qed.

(** X6: every row of the resource's table that the caller owns shows in
    the caller's list, provided the caller has a row in the users table
    (the list query joins the users table): the answer is 200 and its data
    has a row with the id of that table row. *)
Theorem list_shows_every_own_row (env : Env) (r : resource) (req : Request) (w : World)
        (decoded p r0 : obj) :
  authenticated env (Res r mGET) req decoded ->
  In p (users (db w)) -> sql_eq p.["sr"] decoded.["user_id"] = true ->
  In r0 (rows_of (table_of r) (db w)) ->
  sql_eq r0.["user_id"] decoded.["user_id"] = true ->
  exists rows x,
    (run env (Res r mGET) req w).1 = {| status := 200; data := DataRows rows |} /\
    In x rows /\ x.["id"] = r0.["id"].
Proof.
  intros Hauth Hp Hpv Hr0 Hrv. destruct (list_run env r req w decoded Hauth) as [tok ->].
  assert (is_undefined decoded.["user_id"] = false) as ->.
  { destruct decoded.["user_id"]; try reflexivity. destruct p.["sr"]; discriminate. }
  rewrite andb_false_r.
  destruct (joined_own_row (db w) r _ r0 p Hp Hpv Hrv) as (x & Hx & Hxi).
  assert (In x (flat_map (joined (db w) (list_joins r) (CEq "user_id" decoded.["user_id"]))
                         (rows_of (table_of r) (db w)))) as Hin.
  { apply in_flat_map. exists r0. tauto. }
  destruct (flat_map _ _) as [|x0 rows]; [destruct Hin|].
  exists (x0 :: rows), x. tauto.
Qed.

(** Bob's list of services shows his service Salary (id 4). *)
Lemma list_shows_every_own_row_witness :
  exists rows x,
    (run demo_env (Res RServices mGET) (request (Some "Bearer tok8") []) demo_world).1
      = {| status := 200; data := DataRows rows |} /\
    In x rows /\ x.["id"] = salary.["id"].
Proof.
  apply (list_shows_every_own_row demo_env RServices (request (Some "Bearer tok8") [])
           demo_world (row [("user_id", VNum 8); ("id", VNum 8)])
           (row [("sr", VNum 8); ("username", VStr "bob")]) salary).
  - split; [reflexivity|]. exists "tok8". split; reflexivity.
  - right. left. reflexivity.
  - reflexivity.
  - right. left. reflexivity.
  - reflexivity.
Defined.

(** ** The create handlers *)

Ltac create_leaf :=
  idtac;
  lazymatch goal with
  | |- (_, _) = _ -> _ =>
      let H := fresh in
      intros <-; cbn [fst snd status json]; split;
      [ intros H; first
          [ discriminate H
          | eexists; split; [reflexivity|]; split; [reflexivity|];
            rewrite field_insert_ne by discriminate;
            cbn [map fst snd]; apply field_list_to_map_head ]
      | intros H; first [reflexivity | exfalso; apply H; reflexivity] ]
  end.

Lemma create_outcome (env : Env) (r : resource) (req : Request) (w : World) (decoded : obj) :
  authenticated env (Res r mPOST) req decoded ->
  (status (run env (Res r mPOST) req w).1 = 201%Z ->
   exists new,
     db (run env (Res r mPOST) req w).2
       = set_rows (table_of r) (rows_of (table_of r) (db w) ++ [new]) (db w) /\
     new.["id"] = VNum (fresh_id "id" (rows_of (table_of r) (db w))) /\
     new.["user_id"] = to_sql decoded.["user_id"]) /\
  (status (run env (Res r mPOST) req w).1 <> 201%Z ->
   db (run env (Res r mPOST) req w).2 = db w).
Proof.
  intros Hauth.
  remember (run env (Res r mPOST) req w) as res eqn:Hrun. symmetry in Hrun. revert Hrun.
  destruct r; enter_handler Hauth; walk create_leaf.
Qed.

Lemma fresh_id_above key (l : list obj) r n :
  In r l -> r.[key] = VNum n -> (n < fresh_id key l)%Z.
Proof.
  unfold fresh_id. induction l as [|a l IH]; simpl; [tauto|].
  intros [<-|Hin] Hn.
  - rewrite Hn. lia.
  - specialize (IH Hin Hn). destruct a.[key]; lia.
Qed.

(** X7: a create either answers 201 and has appended exactly one row to
    the table of its resource, every other table and row being as before,
    or has left the store as it was. The appended row has a key that no
    row of the table had, and is owned by the user id of the token,
    whatever [user_id] the body carries. *)
Theorem create_appends_one_owned_row (env : Env) (r : resource) (req : Request) (w : World)
        (decoded : obj) :
  authenticated env (Res r mPOST) req decoded ->
  (status (run env (Res r mPOST) req w).1 = 201%Z ->
   exists new,
     db (run env (Res r mPOST) req w).2
       = set_rows (table_of r) (rows_of (table_of r) (db w) ++ [new]) (db w) /\
     (forall r0, In r0 (rows_of (table_of r) (db w)) -> r0.["id"] <> new.["id"]) /\
     new.["user_id"] = to_sql decoded.["user_id"]) /\
  (status (run env (Res r mPOST) req w).1 <> 201%Z ->
   db (run env (Res r mPOST) req w).2 = db w).
Proof.
  intros Hauth. destruct (create_outcome env r req w decoded Hauth) as [Hnew Hsame].
  split; [|exact Hsame].
  intros Hst. destruct (Hnew Hst) as (new & Hdb & Hid & Hown).
  exists new. split; [exact Hdb|]. split; [|exact Hown].
  intros r0 Hr0 Heq. rewrite Hid in Heq.
  pose proof (fresh_id_above "id" _ r0 _ Hr0 Heq). lia.
Qed.

(** Ann creates a payee and names bob (8) as its owner in the body: the
    answer is 201, the stored owner is ann (7) and the key is new. *)
Lemma create_appends_one_owned_row_witness :
  status (run demo_env (Res RPayees mPOST) create_payee_for_bob demo_world).1 = 201%Z /\
  exists new,
    db (run demo_env (Res RPayees mPOST) create_payee_for_bob demo_world).2
      = set_rows Payees (payees demo_store ++ [new]) demo_store /\
    (forall r0, In r0 (payees demo_store) -> r0.["id"] <> new.["id"]) /\
    new.["user_id"] = VNum 7.
Proof.
  assert (Hst : status (run demo_env (Res RPayees mPOST) create_payee_for_bob demo_world).1
                = 201%Z) by compute_done.
  split; [exact Hst|].
  apply (create_appends_one_owned_row demo_env RPayees create_payee_for_bob demo_world
           (row [("user_id", VNum 7); ("id", VNum 7)])).
  - apply demo_authenticated. reflexivity.
  - exact Hst.
Defined.

Lemma authenticated_resource env r m m' req decoded :
  authenticated env (Res r m) req decoded -> authenticated env (Res r m') req decoded.
Proof. intros H. exact H. Qed.

Lemma sql_eq_refl_of a b : sql_eq a b = true -> sql_eq b b = true.
Proof. intros H. pose proof (sql_eq_eq _ _ H) as Heq. rewrite Heq in H. exact H. Qed.

(** X8: create, then list. After a create answered 201 for a caller who
    has a row in the users table, the caller's list of the same resource,
    run on the store the create left, answers 200 and shows a row with the
    key of the row the create appended. *)
Theorem created_row_is_listed (env : Env) (r : resource) (req : Request) (w : World)
        (decoded p : obj) :
  authenticated env (Res r mPOST) req decoded ->
  In p (users (db w)) -> sql_eq p.["sr"] decoded.["user_id"] = true ->
  status (run env (Res r mPOST) req w).1 = 201%Z ->
  exists new rows x,
    rows_of (table_of r) (db (run env (Res r mPOST) req w).2)
      = rows_of (table_of r) (db w) ++ [new] /\
    (run env (Res r mGET) req (run env (Res r mPOST) req w).2).1
      = {| status := 200; data := DataRows rows |} /\
    In x rows /\
    x.["id"] = new.["id"].
Proof.
  intros Hauth Hp Hpv Hst.
  destruct (create_outcome env r req w decoded Hauth) as [Hnew _].
  destruct (Hnew Hst) as (new & Hdb & Hid & Hown).
  destruct (list_run env r req (run env (Res r mPOST) req w).2 decoded
              (authenticated_resource _ _ _ mGET _ _ Hauth)) as [tok ->].
  rewrite (sql_eq_defined _ _ Hpv) in Hown.
  assert (is_undefined decoded.["user_id"] = false) as ->.
  { destruct decoded.["user_id"]; try reflexivity. destruct p.["sr"]; discriminate. }
  rewrite andb_false_r, Hdb.
  destruct (joined_own_row (set_rows (table_of r) (rows_of (table_of r) (db w) ++ [new]) (db w))
              r decoded.["user_id"] new p) as (x & Hx & Hxi).
  { destruct r; exact Hp. }
  { exact Hpv. }
  { rewrite Hown. exact (sql_eq_refl_of _ _ Hpv). }
  match goal with
  | |- context [flat_map ?f ?l] => assert (In x (flat_map f l)) as Hin
  end.
  { apply in_flat_map. exists new. split; [|exact Hx].
    rewrite rows_of_set_rows. apply in_or_app. right. left. reflexivity. }
  destruct (flat_map _ _) as [|x0 rows]; [destruct Hin|].
  exists new, (x0 :: rows), x. split; [apply rows_of_set_rows|].
  split; [reflexivity|]. split; [exact Hin | exact Hxi].
Qed.

(** Ann's new service Consulting shows in her list of services. *)
Lemma created_row_is_listed_witness :
  status (run demo_env (Res RServices mPOST) create_service_under_acme demo_world).1
    = 201%Z /\
  exists new rows x,
    rows_of (table_of RServices)
            (db (run demo_env (Res RServices mPOST) create_service_under_acme demo_world).2)
      = rows_of (table_of RServices) (db demo_world) ++ [new] /\
    (run demo_env (Res RServices mGET) create_service_under_acme
       (run demo_env (Res RServices mPOST) create_service_under_acme demo_world).2).1
      = {| status := 200; data := DataRows rows |} /\
    In x rows /\ x.["id"] = new.["id"].
Proof.
  assert (Hst : status (run demo_env (Res RServices mPOST) create_service_under_acme
                          demo_world).1 = 201%Z) by compute_done.
  split; [exact Hst|].
  apply (created_row_is_listed demo_env RServices create_service_under_acme demo_world
           (row [("user_id", VNum 7); ("id", VNum 7)])
           (row [("sr", VNum 7); ("username", VStr "ann")])).
  - apply demo_authenticated. reflexivity.
  - left. reflexivity.
  - reflexivity.
  - exact Hst.
Defined.

(** ** The delete handlers *)

Ltac not_ok_leaf :=
  idtac;
  lazymatch goal with
  | |- (_, _) = _ -> _ =>
      let H := fresh in intros <- H; discriminate H
  end.

Lemma delete_outcome (env : Env) (ep : endpoint) (t : table) (f : string) (req : Request)
      (w : World) (decoded body : obj) :
  delete_endpoint ep = Some (t, f) ->
  authenticated env ep req decoded ->
  json_body req = Some body ->
  status (run env ep req w).1 = 200%Z ->
  truthy body.[f] = true /\
  (exists r0, In r0 (rows_of t (db w)) /\
              matches (own_row body.[f] decoded.["user_id"]) r0 = true) /\
  (forall r, In r (rows_of t (db (run env ep req w).2)) ->
             matches (own_row body.[f] decoded.["user_id"]) r = false) /\
  store_le (db (run env ep req w).2) (db w).
Proof.
  intros Hep Hauth Hbody.
  remember (run env ep req w) as res eqn:Hrun. symmetry in Hrun. revert Hrun.
  destruct ep as [[] []| | | |]; try discriminate Hep; injection Hep as <- <-;
    enter_handler Hauth; read_body Hbody; walk not_ok_leaf.
  all: intros <- _; cbn [fst snd].
  all: match goal with
       | H : falsy _ = false |- _ => unfold falsy in H; apply negb_false_iff in H
       end.
  all: split; [assumption|].
  all: split;
    [ match goal with
      | H : _ = ?g :: ?l |- _ =>
          exists g; assert (In g (g :: l)) as Hin by (left; reflexivity);
          rewrite <- H in Hin; try apply in_take1 in Hin;
          apply filter_In in Hin; exact Hin
      end |].
  all: split; [| repeat (eapply store_le_trans; [apply deleted_le|]); apply store_le_refl].
  1-4: intros r Hr; exact (deleted_no_match _ _ _ _ _ Hr).
  all: intros r Hr; apply deleted_no_match in Hr; rewrite matches_single in Hr;
    unfold own_row; rewrite matches_pair, Hr; reflexivity.
Qed.

(** The referential action on a table leaves that table and the tables
    above it in the reference chain as they are. *)
Lemma cascade_rows fuel :
  forall T dead w t, rank t <= rank T ->
    rows_of t (db (cascade fuel T dead w)) = rows_of t (db w).
Proof.
  induction fuel as [|fuel IH]; intros T dead w t Hrank; [reflexivity|].
  simpl. pose proof (fk_children_rank T) as Hch. revert Hch w.
  generalize (fk_children T). intros l.
  induction l as [|[c fk] l IHl]; intros Hch w; simpl; [reflexivity|].
  assert (rank T < rank c) as Hc by (apply (Hch c fk); left; reflexivity).
  rewrite IHl by (intros c' fk' H; apply (Hch c' fk'); right; exact H).
  rewrite IH by lia. simpl. apply rows_of_set_rows_ne. intros ->. lia.
Qed.

Lemma deleted_rows_own env T cs w :
  rows_of T (db (deleted env T cs w))
    = List.filter (fun r => negb (matches cs r)) (rows_of T (db w)).
Proof.
  unfold deleted. destruct (on_delete_cascade env).
  - rewrite cascade_rows by lia. simpl. apply rows_of_set_rows.
  - simpl. apply rows_of_set_rows.
Qed.

Lemma deleted_rows_above env T cs w t :
  rank t < rank T -> rows_of t (db (deleted env T cs w)) = rows_of t (db w).
Proof.
  intros Hrank. unfold deleted.
  assert (T <> t) as Hne by (intros ->; lia).
  destruct (on_delete_cascade env).
  - rewrite cascade_rows by lia. simpl. apply rows_of_set_rows_ne. exact Hne.
  - simpl. apply rows_of_set_rows_ne. exact Hne.
Qed.

(** X9: a delete answers 200 only if the caller owned a row with the key
    of the body. After it no row with that key and owner is left in the
    table, every row of every table was there before (nothing is added or
    modified), and the users table is untouched. *)
Theorem delete_removes_own_row (env : Env) (ep : endpoint) (t : table) (f : string)
        (req : Request) (w : World) (decoded body : obj) :
  delete_endpoint ep = Some (t, f) ->
  authenticated env ep req decoded ->
  json_body req = Some body ->
  status (run env ep req w).1 = 200%Z ->
  (exists r0, In r0 (rows_of t (db w)) /\ sql_eq r0.["id"] body.[f] = true /\
              r0.["user_id"] = decoded.["user_id"]) /\
  (forall r, In r (rows_of t (db (run env ep req w).2)) ->
             sql_eq r.["id"] body.[f] = true -> r.["user_id"] <> decoded.["user_id"]) /\
  store_le (db (run env ep req w).2) (db w) /\
  users (db (run env ep req w).2) = users (db w).
Proof.
  intros Hep Hauth Hbody Hst.
  destruct (delete_outcome env ep t f req w decoded body Hep Hauth Hbody Hst)
    as (_ & (r0 & Hr0 & Hm0) & Hgone & Hle).
  unfold own_row in *. rewrite matches_pair in Hm0. apply andb_prop in Hm0 as [Hid0 Hu0].
  split; [exists r0; split; [exact Hr0|]; split; [exact Hid0 | apply sql_eq_eq, Hu0]|].
  split; [|split; [exact Hle|]].
  - intros r Hr Hid Hu. specialize (Hgone r Hr). rewrite matches_pair, Hid, Hu in Hgone.
    rewrite (sql_eq_refl_of _ _ Hu0) in Hgone. discriminate Hgone.
  - clear Hgone Hle Hst Hr0.
    remember (run env ep req w) as res eqn:Hrun. symmetry in Hrun. revert Hrun.
    destruct ep as [[] []| | | |]; try discriminate Hep; injection Hep as <- <-;
      enter_handler Hauth; read_body Hbody; walk ltac:(idtac; intros <-; reflexivity).
    all: intros <-; cbn [fst snd];
      repeat (rewrite (deleted_rows_above _ _ _ _ Users) by (simpl; lia)); reflexivity.
Qed.

(** Ann deletes her payee Landlord. *)
Lemma delete_removes_own_row_witness :
  status (run demo_env (Res RPayees mDELETE) delete_landlord demo_world).1 = 200%Z /\
  (exists r0, In r0 (rows_of Payees (db demo_world)) /\
              sql_eq r0.["id"] (row [("id", VNum 2)]).["id"] = true /\
              r0.["user_id"] = (row [("user_id", VNum 7); ("id", VNum 7)]).["user_id"]) /\
  (forall r, In r (rows_of Payees (db (run demo_env (Res RPayees mDELETE) delete_landlord
                                           demo_world).2)) ->
             sql_eq r.["id"] (row [("id", VNum 2)]).["id"] = true ->
             r.["user_id"] <> (row [("user_id", VNum 7); ("id", VNum 7)]).["user_id"]) /\
  store_le (db (run demo_env (Res RPayees mDELETE) delete_landlord demo_world).2)
           (db demo_world) /\
  users (db (run demo_env (Res RPayees mDELETE) delete_landlord demo_world).2)
    = users (db demo_world).
Proof.
  assert (Hst : status (run demo_env (Res RPayees mDELETE) delete_landlord demo_world).1
                = 200%Z) by compute_done.
  split; [exact Hst|].
  exact (delete_removes_own_row demo_env (Res RPayees mDELETE) Payees "id" delete_landlord
           demo_world (row [("user_id", VNum 7); ("id", VNum 7)]) (row [("id", VNum 2)])
           eq_refl (demo_authenticated (Res RPayees mDELETE) _ eq_refl) eq_refl Hst).
Defined.

Lemma delete_absent (env : Env) (ep : endpoint) (t : table) (f : string) (req : Request)
      (w : World) (decoded body : obj) :
  delete_endpoint ep = Some (t, f) ->
  authenticated env ep req decoded ->
  json_body req = Some body ->
  truthy body.[f] = true ->
  is_undefined decoded.["user_id"] = false ->
  List.filter (matches (own_row body.[f] decoded.["user_id"])) (rows_of t (db w)) = [] ->
  exists w', run env ep req w = (json 404, w') /\ read_only w w'.
Proof.
  intros Hep Hauth Hbody Htr Hdef Hnone. unfold own_row in Hnone.
  assert (falsy body.[f] = false) as Hf by (unfold falsy; rewrite Htr; reflexivity).
  destruct ep as [[] []| | | |]; try discriminate Hep; injection Hep as <- <-;
    enter_handler Hauth; read_body Hbody; rewrite Hf;
    (rewrite db_select_run
       by (cbn [map cond_value existsb]; rewrite (truthy_defined _ Htr), Hdef; reflexivity));
    cbv zeta; rewrite db_logged, Hnone; answered_read_only.
Qed.

(** X10: a delete for a key, sent as a number, under which the caller
    (whose token carries a number as user id) owns no row, because no row
    has the key or because every row that has it belongs to someone else,
    is answered 404 and only reads: nothing is deleted, in particular no
    dependent row of the other user's entity, service or payee. *)
Theorem delete_without_own_row (env : Env) (ep : endpoint) (t : table) (f : string)
        (req : Request) (w : World) (decoded body : obj) (n u : Z) :
  delete_endpoint ep = Some (t, f) ->
  authenticated env ep req decoded ->
  json_body req = Some body ->
  body.[f] = VNum n -> n <> 0%Z ->
  decoded.["user_id"] = VNum u ->
  (forall r, In r (rows_of t (db w)) -> r.["id"] = VNum n -> r.["user_id"] <> VNum u) ->
  exists w', run env ep req w = (json 404, w') /\ read_only w w'.
Proof.
  intros Hep Hauth Hbody Hn Hn0 Hu Hforeign.
  apply (delete_absent env ep t f req w decoded body Hep Hauth Hbody).
  - rewrite Hn. simpl. apply negb_true_iff, Z.eqb_neq. exact Hn0.
  - rewrite Hu. reflexivity.
  - apply filter_all_false. intros r Hr. unfold own_row. rewrite matches_pair, Hu, Hn.
    destruct (sql_eq r.["id"] (VNum n)) eqn:Hid; [|reflexivity].
    destruct (sql_eq r.["user_id"] (VNum u)) eqn:Hown; [|reflexivity].
    apply sql_eq_eq in Hid, Hown. destruct (Hforeign r Hr Hid Hown).
Qed.

(** Ann asks to delete bob's entity Acme (5): 404, and bob's service and
    payee under it stay. *)
Lemma delete_without_own_row_witness :
  exists w',
    run demo_env (Res REntities mDELETE) (request (Some "Bearer tok7") [("entity_id", VNum 5)])
        demo_world = (json 404, w') /\
    read_only demo_world w'.
Proof.
  apply (delete_without_own_row demo_env (Res REntities mDELETE) Entities "entity_id"
           (request (Some "Bearer tok7") [("entity_id", VNum 5)]) demo_world
           (row [("user_id", VNum 7); ("id", VNum 7)]) (row [("entity_id", VNum 5)]) 5 7).
  - reflexivity.
  - apply demo_authenticated. reflexivity.
  - reflexivity.
  - reflexivity.
  - discriminate.
  - reflexivity.
  - intros r [<-|[<-|[]]] Hid Hown; [vm_compute in Hown | vm_compute in Hid]; discriminate.
Defined.

(** X11: a delete is final. The same request sent again after a delete
    that answered 200 is answered 404 and changes nothing: the first run
    removed every row the second one could find. *)
Theorem delete_twice_is_not_found (env : Env) (ep : endpoint) (t : table) (f : string)
        (req : Request) (w : World) (decoded body : obj) :
  delete_endpoint ep = Some (t, f) ->
  authenticated env ep req decoded ->
  json_body req = Some body ->
  status (run env ep req w).1 = 200%Z ->
  exists w', run env ep req (run env ep req w).2 = (json 404, w') /\
             read_only (run env ep req w).2 w'.
Proof.
  intros Hep Hauth Hbody Hst.
  destruct (delete_outcome env ep t f req w decoded body Hep Hauth Hbody Hst)
    as (Htr & (r0 & _ & Hm0) & Hgone & _).
  apply (delete_absent env ep t f req _ decoded body Hep Hauth Hbody Htr).
  - unfold own_row in Hm0. rewrite matches_pair in Hm0. apply andb_prop in Hm0 as [_ Hu0].
    destruct decoded.["user_id"]; try reflexivity. destruct r0.["user_id"]; discriminate.
  - apply filter_all_false. exact Hgone.
Qed.

(** Bob deletes his service Salary twice. *)
Lemma delete_twice_is_not_found_witness :
  status (run demo_env (Res RServices mDELETE) delete_salary demo_world).1 = 200%Z /\
  exists w',
    run demo_env (Res RServices mDELETE) delete_salary
        (run demo_env (Res RServices mDELETE) delete_salary demo_world).2 = (json 404, w') /\
    read_only (run demo_env (Res RServices mDELETE) delete_salary demo_world).2 w'.
Proof.
  assert (Hst : status (run demo_env (Res RServices mDELETE) delete_salary demo_world).1
                = 200%Z) by compute_done.
  split; [exact Hst|].
  apply (delete_twice_is_not_found demo_env (Res RServices mDELETE) Services "id"
           delete_salary demo_world (row [("user_id", VNum 8); ("id", VNum 8)])
           (row [("id", VNum 4)])).
  - reflexivity.
  - split; [reflexivity|]. exists "tok8". split; reflexivity.
  - reflexivity.
  - exact Hst.
Defined.



(** ** The user handlers *)




(** X14: a user edit answered 200 found a user row whose key is the id
    of the token; afterwards every row with that key holds the five body
    fields as they were sent (the password included, an absent field as
    null), no row with another key has the username of the body, the rows
    with another key are the rows that were there, and the other tables are
    as before. *)
Theorem edit_user_overwrites_own_row (env : Env) (req : Request) (w : World)
        (decoded body : obj) :
  authenticated env EditUserPUT req decoded ->
  json_body req = Some body ->
  status (run env EditUserPUT req w).1 = 200%Z ->
  (exists p, In p (users (db w)) /\ sql_eq p.["sr"] decoded.["id"] = true) /\
  (forall x, In x (users (db (run env EditUserPUT req w).2)) ->
     (sql_eq x.["sr"] decoded.["id"] = true ->
      forall c, In c user_fields -> x.[c] = to_sql body.[c]) /\
     (sql_eq x.["sr"] decoded.["id"] = false -> In x (users (db w))) /\
     (sql_eq x.["username"] body.["username"] = true ->
      sql_ne x.["sr"] decoded.["id"] = false)) /\
  (forall t, t <> Users ->
     rows_of t (db (run env EditUserPUT req w).2) = rows_of t (db w)).
Proof.
  intros Hauth Hbody.
  remember (run env EditUserPUT req w) as res eqn:Hrun. symmetry in Hrun. revert Hrun.
  enter_handler Hauth; read_body Hbody.
  step_select; [intros <-; discriminate|].
  destruct (List.filter _ _) as [|q qs] eqn:Hfree; [|intros <-; discriminate].
  cbn [map]. step_update; [intros <-; discriminate|].
  destruct (_ =? 0)%Z eqn:Hcount; intros <-; [discriminate|]. intros _.
  cbn [fst snd db]. split; [|split].
  - destruct (List.filter (matches [CEq "sr" _]) _) as [|p ps] eqn:Hf; [discriminate Hcount|].
    exists p. assert (In p (p :: ps)) as Hin by (left; reflexivity).
    rewrite <- Hf in Hin. apply filter_In in Hin as [Hin Hm].
    rewrite matches_single in Hm. tauto.
  - intros x Hx. apply in_updated in Hx as [(r0 & Hr0 & Hm & ->) | [Hx Hm]];
      rewrite matches_single in Hm.
    + split; [|split].
      * intros _ c Hc. rewrite field_assign. cbn [map find fst snd].
        cbn [user_fields In] in Hc.
        repeat destruct Hc as [<-|Hc]; try destruct Hc; reflexivity.
      * rewrite field_assign. cbn [map find fst snd]. eval_names. congruence.
      * intros _. rewrite field_assign. cbn [map find fst snd]. eval_names.
        unfold sql_ne. rewrite Hm, andb_false_r. reflexivity.
    + split; [congruence|]. split; [intros _; exact Hx|].
      intros Hname. pose proof (filter_nil_false _ _ x Hfree Hx) as Hno.
      unfold matches in Hno. cbn [forallb holds] in Hno.
      rewrite Hname, andb_true_r in Hno. exact Hno.
  - intros t Hne. apply rows_of_set_rows_ne. congruence.
Qed.

(** Ann renames herself to anna. *)
Lemma edit_user_overwrites_own_row_witness :
  status (run demo_env EditUserPUT rename_ann demo_world).1 = 200%Z /\
  users (db (run demo_env EditUserPUT rename_ann demo_world).2) =
    [row [("sr", VNum 7); ("username", VStr "anna"); ("name", VStr "Ann");
          ("email", VStr "a@x.io"); ("phone", VStr "111"); ("password", VStr "pw")];
     row [("sr", VNum 8); ("username", VStr "bob")]] /\
  forall t, t <> Users ->
    rows_of t (db (run demo_env EditUserPUT rename_ann demo_world).2) = rows_of t (db demo_world).
Proof.
  assert (Hst : status (run demo_env EditUserPUT rename_ann demo_world).1 = 200%Z)
    by compute_done.
  split; [exact Hst|]. split; [compute_done|].
  apply (edit_user_overwrites_own_row demo_env rename_ann demo_world
           (row [("user_id", VNum 7); ("id", VNum 7)])
           (row [("name", VStr "Ann"); ("email", VStr "a@x.io"); ("phone", VStr "111");
                 ("username", VStr "anna"); ("password", VStr "pw")])).
  - split; [reflexivity|]. exists "tok7". split; reflexivity.
  - reflexivity.
  - exact Hst.
Defined.



(** Without a user row for the owner no list shows anything. *)
Lemma list_without_user s r' v :
  (forall p, In p (users s) -> sql_eq p.["sr"] v = false) ->
  flat_map (joined s (list_joins r') (CEq "user_id" v)) (rows_of (table_of r') s) = [].
Proof.
  intros Hnone. destruct (flat_map _ _) as [|x xs] eqn:Hrows; [reflexivity|].
  assert (In x (x :: xs)) as Hx by (left; reflexivity).
  rewrite <- Hrows in Hx. apply in_flat_map in Hx as (r0 & _ & Hx).
  destruct (joined_user_ref _ _ _ _ _ Hx) as [Hu Hh].
  destruct (joined_origin _ _ _ _ _ Hx) as [_ (p & Hp & Hrp)].
  simpl in Hh. rewrite Hu in Hh.
  specialize (Hnone p Hp). rewrite sql_eq_sym in Hrp.
  rewrite (sql_eq_trans _ _ _ Hrp Hh) in Hnone. discriminate Hnone.
Qed.

(** X16: a user delete answered 200 found a user row whose key is the
    [id] claim of the token and removed every such row, the other user rows
    staying. From then on every list requested with a token whose [user_id]
    is that key is answered 404, whatever rows of that user the tables
    still hold: the list queries join the users table. *)
Theorem deleted_user_lists_nothing (env : Env) (req req' : Request) (w : World)
        (decoded decoded' : obj) (r : resource) :
  authenticated env DeleteUserDELETE req decoded ->
  status (run env DeleteUserDELETE req w).1 = 200%Z ->
  authenticated env (Res r mGET) req' decoded' ->
  decoded'.["user_id"] = decoded.["id"] ->
  (exists p, In p (users (db w)) /\ sql_eq p.["sr"] decoded.["id"] = true) /\
  users (db (run env DeleteUserDELETE req w).2)
    = List.filter (fun p => negb (sql_eq p.["sr"] decoded.["id"])) (users (db w)) /\
  exists w', run env (Res r mGET) req' (run env DeleteUserDELETE req w).2 = (json 404, w').
Proof.
  intros Hauth Hst Hauth' Hclaim.
  destruct (list_run env r req' (run env DeleteUserDELETE req w).2 decoded' Hauth') as [tok' ->].
  rewrite Hclaim. revert Hst.
  remember (run env DeleteUserDELETE req w) as res eqn:Hrun. symmetry in Hrun. revert Hrun.
  enter_handler Hauth. cbv beta iota delta [bind ret].
  step_delete; [intros <-; discriminate|].
  destruct (_ =? 0)%Z eqn:Hcount; intros <-; [discriminate|]. intros _. cbn [fst snd].
  assert (exists p, In p (users (db w)) /\ sql_eq p.["sr"] decoded.["id"] = true)
    as (p & Hp & Hpid).
  { destruct (List.filter _ _) as [|p ps] eqn:Hf; [discriminate Hcount|].
    exists p. assert (In p (p :: ps)) as Hin by (left; reflexivity).
    rewrite <- Hf in Hin. apply filter_In in Hin as [Hin Hm].
    rewrite matches_single in Hm. tauto. }
  split; [exists p; tauto|]. split.
  - change (users (db ?w0)) with (rows_of Users (db w0)).
    rewrite deleted_rows_own. apply filter_ext. intros a. rewrite matches_single. reflexivity.
  - rewrite (sql_eq_defined_l _ _ Hpid), andb_false_r.
    rewrite list_without_user; [eexists; reflexivity|].
    intros q Hq. change (users ?s) with (rows_of Users s) in Hq.
    apply deleted_no_match in Hq. rewrite matches_single in Hq. exact Hq.
Qed.

(** Ann deletes her account, then lists her entities: Home is still in the
    table, the list is answered 404. *)
Lemma deleted_user_lists_nothing_witness :
  status (run demo_env DeleteUserDELETE (request (Some "Bearer tok7") []) demo_world).1
    = 200%Z /\
  entities (db (run demo_env DeleteUserDELETE (request (Some "Bearer tok7") [])
                    demo_world).2) = [acme; home] /\
  exists w',
    run demo_env (Res REntities mGET) (request (Some "Bearer tok7") [])
        (run demo_env DeleteUserDELETE (request (Some "Bearer tok7") []) demo_world).2
      = (json 404, w').
Proof.
  assert (Hst : status (run demo_env DeleteUserDELETE (request (Some "Bearer tok7") [])
                          demo_world).1 = 200%Z) by compute_done.
  split; [exact Hst|]. split; [compute_done|].
  apply (deleted_user_lists_nothing demo_env (request (Some "Bearer tok7") [])
           (request (Some "Bearer tok7") []) demo_world
           (row [("user_id", VNum 7); ("id", VNum 7)])
           (row [("user_id", VNum 7); ("id", VNum 7)]) REntities).
  - split; [reflexivity|]. exists "tok7". split; reflexivity.
  - exact Hst.
  - apply demo_authenticated. reflexivity.
  - reflexivity.
Defined.

(** ** The update handlers *)

Lemma updated_keeps sets cs l x :
  In x l -> matches cs x = false -> In x (updated sets cs l).
Proof.
  intros Hx Hm. unfold updated. apply in_map_iff. exists x. rewrite Hm. tauto.
Qed.

Lemma matches_id_first id cs x :
  sql_eq x.["id"] id = false -> matches (CEq "id" id :: cs) x = false.
Proof. intros H. unfold matches. cbn [forallb holds]. rewrite H. reflexivity. Qed.

Ltac frame_leaf :=
  idtac;
  lazymatch goal with
  | |- (_, _) = _ -> _ =>
      let t := fresh "t" in
      let x := fresh "x" in
      let Hx := fresh "Hx" in
      let Hk := fresh "Hk" in
      intros <-; cbn [fst snd db]; split;
      [ intros t x Hx Hk; first
          [ exact Hx
          | match goal with
            | |- In x (rows_of t (set_rows ?T _ _)) =>
                destruct (decide (T = t)) as [<-|Hne];
                [ rewrite rows_of_set_rows; apply updated_keeps; [exact Hx|];
                  apply matches_id_first;
                  destruct Hk as [Hk | (?n & ?m & Hk & ?Hm & ?Hnm)];
                  [ exfalso; apply Hk; reflexivity
                  | rewrite Hk, Hm; apply Z.eqb_neq; assumption ]
                | rewrite rows_of_set_rows_ne by exact Hne; exact Hx ]
            end ]
      | intros t; first
          [ reflexivity
          | match goal with
            | |- context [rows_of t (set_rows ?T _ _)] =>
                destruct (decide (T = t)) as [<-|Hne];
                [ rewrite rows_of_set_rows; unfold updated; rewrite length_map; reflexivity
                | rewrite rows_of_set_rows_ne by exact Hne; reflexivity ]
            end ] ]
  end.

(** X17: an update touches only the rows of its own table that carry
    the key of the body. Whatever the credentials and the outcome, every
    row of another table is still there afterwards; so is, when the body
    carries a number as id, every row of the table itself whose id is
    another number; and no table has gained or lost a row. *)
Theorem update_touches_only_its_key (env : Env) (r : resource) (req : Request) (w : World)
        (body : obj) :
  json_body req = Some body ->
  (forall t x, In x (rows_of t (db w)) ->
     t <> table_of r \/
     (exists n m, body.["id"] = VNum n /\ x.["id"] = VNum m /\ m <> n) ->
     In x (rows_of t (db (run env (Res r mPUT) req w).2))) /\
  (forall t, List.length (rows_of t (db (run env (Res r mPUT) req w).2))
             = List.length (rows_of t (db w))).
Proof.
  intros Hbody.
  destruct (credentials_cases env (Res r mPUT) req w) as [H | [[tok H] | [decoded Hauth]]];
    try (rewrite H; split; [intros t x Hx _; exact Hx | reflexivity]).
  remember (run env (Res r mPUT) req w) as res eqn:Hrun. symmetry in Hrun. revert Hrun.
  destruct r; enter_handler Hauth; read_body Hbody; walk frame_leaf.
Qed.

(** Ann hands her payee Landlord (2) to bob: bob's payee Bob Ltd (1) and
    every other table stay as they are. *)
Lemma update_touches_only_its_key_witness :
  In bob_ltd (rows_of Payees (db (run demo_env (Res RPayees mPUT) reassign_landlord
                                      demo_world).2)) /\
  forall t, List.length (rows_of t (db (run demo_env (Res RPayees mPUT) reassign_landlord
                                            demo_world).2))
            = List.length (rows_of t (db demo_world)).
Proof.
  destruct (update_touches_only_its_key demo_env RPayees reassign_landlord demo_world
              (row [("id", VNum 2); ("user_id", VNum 8); ("payee_name", VStr "Landlord");
                    ("phone", VStr "777"); ("email", VStr "l@x.io"); ("amount", VNum 900);
                    ("category", VStr "expense")]) eq_refl) as [Hkeep Hlen].
  split; [|exact Hlen].
  apply (Hkeep Payees bob_ltd).
  - left. reflexivity.
  - right. exists 2%Z, 1%Z. split; [reflexivity|]. split; [reflexivity | discriminate].
Defined.

(** ** Bodies *)

(** X18: the category test of the entities and services POST and PUT
    calls [toLowerCase] on whatever truthy value the body carries. A
    category that is a number or a boolean makes it throw, and the request
    is answered 500 by the catch-all, not 400, before any statement. *)
Theorem category_not_a_string (env : Env) (r : resource) (m : method)
        (req : Request) (w : World) (decoded body : obj) :
  r = REntities \/ r = RServices ->
  m = mPOST \/ m = mPUT ->
  authenticated env (Res r m) req decoded ->
  json_body req = Some body ->
  missing (required_fields r m) body = false ->
  truthy body.["category"] = true ->
  (forall s, body.["category"] <> VStr s) ->
  exists tok, run env (Res r m) req w = (json 500, logged w (EvVerify tok)).
Proof.
  intros Hr Hm Hauth Hbody Hreq Htr Hns.
  destruct Hr as [-> | ->]; destruct Hm as [-> | ->];
    simpl in Hreq; rewrite ?orb_false_r, ?orb_assoc in Hreq;
    enter_handler Hauth; read_body Hbody; rewrite Hreq;
    unfold category_invalid; rewrite ?Htr;
    (destruct body.["category"] as [| | | |s]; [| | | |destruct (Hns s eq_refl)]);
    try discriminate Htr; eexists; reflexivity.
Qed.

(** Ann creates an entity with the category 1. *)
Lemma category_not_a_string_witness :
  exists tok,
    run demo_env (Res REntities mPOST) create_entity_numeric_category demo_world
      = (json 500, logged demo_world (EvVerify tok)).
Proof.
  apply (category_not_a_string demo_env REntities mPOST create_entity_numeric_category
           demo_world (row [("user_id", VNum 7); ("id", VNum 7)])
           (row [("entity_name", VStr "Car"); ("entity_desc", VStr "car");
                 ("entity_short_desc", VStr "car"); ("category", VNum 1)])).
  - left. reflexivity.
  - left. reflexivity.
  - apply demo_authenticated. reflexivity.
  - reflexivity.
  - vm_compute. reflexivity.
  - reflexivity.
  - intros s H. vm_compute in H. discriminate H.
Defined.

(** X19: a body that cannot be parsed. Every handler that reads the body
    does so after the header test and the token verification: for an
    authenticated request whose body is not JSON the answer is 500, the
    only recorded call is the verification, and no statement is executed. *)
Theorem unparseable_body (env : Env) (ep : endpoint) (req : Request) (w : World)
        (decoded : obj) :
  reads_body ep = true ->
  authenticated env ep req decoded ->
  json_body req = None ->
  exists tok, run env ep req w = (json 500, logged w (EvVerify tok)).
Proof.
  intros Hep Hauth Hbody.
  destruct ep as [[] []| | | |]; try discriminate Hep;
    enter_handler Hauth; unfold request_json; rewrite Hbody;
    eexists; reflexivity.
Qed.

(** A subscriptions PUT by ann without a JSON body. *)
Lemma unparseable_body_witness :
  exists tok,
    run demo_env (Res RSubscriptions mPUT)
        {| authorization := Some "Bearer tok7"; json_body := None |} demo_world
      = (json 500, logged demo_world (EvVerify tok)).
Proof.
  apply (unparseable_body demo_env (Res RSubscriptions mPUT)
           {| authorization := Some "Bearer tok7"; json_body := None |} demo_world
           (row [("user_id", VNum 7); ("id", VNum 7)])).
  - reflexivity.
  - split; [reflexivity|]. exists "tok7". split; reflexivity.
  - reflexivity.
Defined.

(** ** The token of a header *)

Lemma append_cons a s t : (String a s ++ t)%string = String a (s ++ t)%string.
Proof. reflexivity. Qed.

Lemma append_nil t : (EmptyString ++ t)%string = t.
Proof. reflexivity. Qed.

(** Splitting at spaces a word followed by nothing, or by a space and
    more: the word is the first piece. *)
Lemma split_word t : has_space t = false -> split " " t = [t].
Proof.
  induction t as [|c t IH]; simpl; [reflexivity|].
  intros H. apply orb_false_elim in H as [Hc Ht]. rewrite Hc, (IH Ht). reflexivity.
Qed.

Lemma split_word_more t rest :
  has_space t = false ->
  split " " (t ++ String " " rest) = t :: split " " rest.
Proof.
  induction t as [|c t IH]; intros H.
  - rewrite append_nil. simpl. reflexivity.
  - simpl in H. apply orb_false_elim in H as [Hc Ht].
    rewrite append_cons. simpl. rewrite Hc, (IH Ht). reflexivity.
Qed.

Lemma auth_token_bearer x :
  auth_token (Some ("Bearer " ++ x)%string) = head (split " " x).
Proof.
  unfold auth_token. rewrite !append_cons, append_nil. simpl.
  pose proof (split_nonempty " " x). destruct (split " " x); [congruence | reflexivity].
Qed.

Lemma bearer_header_prefix x : bearer_header (Some ("Bearer " ++ x)%string) = true.
Proof. unfold bearer_header. rewrite !append_cons, append_nil. reflexivity. Qed.

(** ** The payees and subscriptions update and the table it updates *)

(** X21: the payees and subscriptions PUT never read the table they
    update: the answer to a request is the same whatever rows that table
    holds. In particular the answer does not tell whether a row with the id
    of the body exists, nor whose it is. *)
Theorem put_answer_ignores_own_table (env : Env) (r : resource) (req : Request)
        (w : World) (rows : list obj) :
  r = RPayees \/ r = RSubscriptions ->
  (run env (Res r mPUT) req (with_rows (table_of r) rows w)).1
    = (run env (Res r mPUT) req w).1.
Proof.
  intros Hr.
  destruct (guard_passes (Res r mPUT) (authorization req)) eqn:Hg;
    [|rewrite !run_reject by exact Hg; reflexivity].
  destruct (guard_gives_token _ _ Hg) as [tok Ht].
  destruct (jwt_verify env tok) as [decoded|] eqn:Hv;
    [|rewrite !(run_verify_fail env _ req _ tok Hg Ht Hv); reflexivity].
  unfold guard_passes in Hg. simpl in Hg.
  destruct Hr as [-> | ->];
    unfold run, PayeesRoute.PUT, SubscriptionsRoute.PUT, try_catch;
    rewrite !(bearer_accept _ _ _ _ tok _ Hg Ht Hv);
    unfold request_json; destruct (json_body req) as [body|];
    cbv beta iota delta [bind ret throw]; try reflexivity;
    (destruct (falsy body.["id"]); [reflexivity|]).
  all: repeat (rewrite ?resolve_run; unfold lookup_name;
               cbn [db logged with_rows rows_of set_rows table_of
                    users entities services payees subscriptions];
               match goal with
               | |- context [if truthy ?v then _ else _] => destruct (truthy v)
               end;
               [ match goal with
                 | |- context [match List.filter ?f ?l with _ => _ end] =>
                     destruct (List.filter f l)
                 end; [reflexivity|] | ]).
  all: rewrite !db_update_run;
    match goal with
    | |- context [if ?c then (Throw DbError, _) else _] => destruct c
    end; reflexivity.
Qed.

(** Ann's update of payee 1 is answered 200 on the demo store, where the
    payee is bob's, and on a store without any payee. *)
Lemma put_answer_ignores_own_table_witness :
  (run demo_env (Res RPayees mPUT) overwrite_foreign_payee
       (with_rows Payees [] demo_world)).1 = json 200 /\
  (run demo_env (Res RPayees mPUT) overwrite_foreign_payee demo_world).1 = json 200.
Proof.
  assert (H200 : (run demo_env (Res RPayees mPUT) overwrite_foreign_payee demo_world).1
                 = json 200) by compute_done.
  split; [|exact H200].
  rewrite <- H200.
  apply (put_answer_ignores_own_table demo_env RPayees overwrite_foreign_payee demo_world []).
  left. reflexivity.
Defined.

(** ** The entities and services validation at concrete requests *)

(** Ann creates a service with the category [Bogus]. *)
Lemma entities_services_reject_category_witness :
  exists tok,
    run demo_env (Res RServices mPOST) create_service_bogus_category demo_world
      = (json 400, logged demo_world (EvVerify tok)).
Proof.
  apply (entities_services_reject_category demo_env RServices mPOST
           create_service_bogus_category demo_world
           (row [("user_id", VNum 7); ("id", VNum 7)])
           (row [("service_name", VStr "Water"); ("service_desc", VStr "water bill");
                 ("entity_name", VStr "Home"); ("min_duration", VNum 1); ("amount", VNum 30);
                 ("category", VStr "Bogus")]) "Bogus").
  - right. reflexivity.
  - left. reflexivity.
  - apply demo_authenticated. reflexivity.
  - reflexivity.
  - vm_compute. reflexivity.
  - reflexivity.
  - reflexivity.
  - reflexivity.
Defined.


(** Ann updates bob's entity Acme. *)
Lemma entities_services_put_checks_owner_witness :
  exists w', run demo_env (Res REntities mPUT) update_foreign_entity demo_world = (json 404, w') /\
             read_only demo_world w'.
Proof.
  apply (entities_services_put_checks_owner demo_env REntities update_foreign_entity demo_world
           (row [("user_id", VNum 7); ("id", VNum 7)])
           (row [("id", VNum 5); ("entity_name", VStr "Mine"); ("entity_desc", VStr "mine");
                 ("entity_short_desc", VStr "mine")]) 5 7).
  - left. reflexivity.
  - apply demo_authenticated. reflexivity.
  - reflexivity.
  - vm_compute. reflexivity.
  - reflexivity.
  - reflexivity.
  - intros e [<-|[<-|[]]]; reflexivity.
  - intros x [<-|[<-|[]]] Hid Hown; [vm_compute in Hown | vm_compute in Hid]; discriminate.
Defined.

(** The service ids of the demo store are unique. *)
Lemma demo_services_key_unique : key_unique Services demo_store.
Proof.
  intros r1 r2 [<-|[<-|[]]] [<-|[<-|[]]] H; try reflexivity; vm_compute in H; discriminate H.
Defined.

(** Ann raises her rent: name, description, duration and category of the
    service are kept. *)
Lemma entities_services_put_keeps_omitted_witness :
  status (run demo_env (Res RServices mPUT) raise_rent demo_world).1 = 200%Z /\
  exists new,
    In new (rows_of (table_of RServices)
                    (db (run demo_env (Res RServices mPUT) raise_rent demo_world).2)) /\
    forall c,
      (In c (updatable RServices) ->
       falsy (row [("id", VNum 3); ("entity_name", VStr "Home"); ("amount", VNum 950)]).[c]
         = true ->
       new.[c] = to_sql rent.[c]) /\
      (~ In c (updatable RServices) -> new.[c] = rent.[c]).
Proof.
  assert (Hst : status (run demo_env (Res RServices mPUT) raise_rent demo_world).1 = 200%Z)
    by compute_done.
  split; [exact Hst|].
  apply (entities_services_put_keeps_omitted demo_env RServices raise_rent demo_world
           (row [("user_id", VNum 7); ("id", VNum 7)])
           (row [("id", VNum 3); ("entity_name", VStr "Home"); ("amount", VNum 950)]) rent).
  - right. reflexivity.
  - apply demo_authenticated. reflexivity.
  - reflexivity.
  - exact Hst.
  - exact demo_services_key_unique.
  - left. reflexivity.
  - reflexivity.
Defined.

(** ** Name resolution on create *)

Lemma take1_cons {A} (l : list A) g l0 : take 1 l = g :: l0 -> exists l', l = g :: l'.
Proof. destruct l as [|a l]; simpl; [discriminate|]. intros [= -> _]. eauto. Qed.

(** X22: the references of a created row. A create answered 201 found,
    for each name the resource resolves (the entity of a service; the
    entity and the service of a payee; those and the payee of a
    subscription), at least one row with the name of the body, and the
    appended row references the first of them in table order, whoever owns
    it. *)
Theorem create_references_first_match (env : Env) (r : resource) (req : Request) (w : World)
        (decoded body : obj) :
  authenticated env (Res r mPOST) req decoded ->
  json_body req = Some body ->
  status (run env (Res r mPOST) req w).1 = 201%Z ->
  exists new,
    rows_of (table_of r) (db (run env (Res r mPOST) req w).2)
      = rows_of (table_of r) (db w) ++ [new] /\
    forall col t, In (col, t) (references r) ->
      exists e es, lookup_name (db w) t col body.[col] = e :: es /\
                   new.[fk_to t] = to_sql e.["id"].
Proof.
  intros Hauth Hbody.
  remember (run env (Res r mPOST) req w) as res eqn:Hrun. symmetry in Hrun. revert Hrun.
  destruct r; enter_handler Hauth; read_body Hbody; walk not_ok_leaf.
  all: intros <- _; cbn [fst snd db table_of]; rewrite rows_of_set_rows;
    eexists; (split; [reflexivity|]); intros col t Hin; cbn [references In] in Hin.
  all: repeat destruct Hin as [[= <- <-]|Hin]; try destruct Hin.
  all: unfold lookup_name;
    match goal with
    | H : take 1 (List.filter (matches [CEq ?col _]) (rows_of ?t _)) = ?g :: _
      |- context [List.filter (matches [CEq ?col _]) (rows_of ?t _)] =>
        let l' := fresh "l'" in
        let Hl := fresh "Hl" in
        destruct (take1_cons _ _ _ H) as [l' Hl]; exists g, l'; split; [exact Hl|]
    | H : List.filter (matches [CEq ?col _]) (rows_of ?t _) = ?g :: ?l
      |- context [List.filter (matches [CEq ?col _]) (rows_of ?t _)] =>
        exists g, l; split; [exact H|]
    end;
    cbn [pk fk_to]; rewrite field_insert_ne by discriminate;
    rewrite field_list_to_map; cbn [map find fst snd]; eval_names;
    rewrite project_id; reflexivity.
Qed.

(** Ann creates a service under the name Acme: it references bob's
    entity (5). *)
Lemma create_references_first_match_witness :
  status (run demo_env (Res RServices mPOST) create_service_under_acme demo_world).1
    = 201%Z /\
  exists new,
    rows_of (table_of RServices)
            (db (run demo_env (Res RServices mPOST) create_service_under_acme demo_world).2)
      = rows_of (table_of RServices) (db demo_world) ++ [new] /\
    forall col t, In (col, t) (references RServices) ->
      exists e es,
        lookup_name (db demo_world) t col
          (row [("service_name", VStr "Consulting"); ("service_desc", VStr "side job");
                ("entity_name", VStr "Acme"); ("min_duration", VNum 1); ("amount", VNum 100);
                ("category", VStr "income")]).[col] = e :: es /\
        new.[fk_to t] = to_sql e.["id"].
Proof.
  assert (Hst : status (run demo_env (Res RServices mPOST) create_service_under_acme
                          demo_world).1 = 201%Z) by compute_done.
  split; [exact Hst|].
  exact (create_references_first_match demo_env RServices create_service_under_acme
           demo_world (row [("user_id", VNum 7); ("id", VNum 7)]) _
           (demo_authenticated (Res RServices mPOST) _ eq_refl) eq_refl Hst).
Defined.

(** ** The order of the recorded calls *)

Lemma grows_refl w : grows w w.
Proof. exists []. symmetry. apply app_nil_r. Qed.

Lemma grows_step w w1 d ev : grows w w1 -> grows w {| db := d; trace := trace w1 ++ [ev] |}.
Proof. intros [evs H]. exists (evs ++ [ev]). simpl. rewrite H, app_assoc. reflexivity. Qed.

Lemma grows_logged w w1 ev : grows w w1 -> grows w (logged w1 ev).
Proof. apply grows_step. Qed.

Lemma grows_deleted env t cs w w1 : grows w w1 -> grows w (deleted env t cs w1).
Proof.
  intros [evs H]. unfold deleted.
  destruct (on_delete_cascade env).
  - match goal with
    | |- grows _ (cascade ?n ?t ?dead ?w0) =>
        destruct (cascade_trace n t dead w0) as (evs' & Htr & _)
    end.
    exists (evs ++ [EvDelete t (List.filter (matches cs) (rows_of t (db w1)))] ++ evs').
    rewrite Htr. simpl. rewrite H, <- !app_assoc. reflexivity.
  - apply grows_step. exists evs. exact H.
Qed.

Lemma verified_from_grows w tok w' :
  grows (logged w (EvVerify tok)) w' ->
  exists evs, trace w' = trace w ++ evs /\ verified_first evs = true.
Proof.
  intros [evs H]. exists (EvVerify tok :: evs). split; [|reflexivity].
  rewrite H. simpl. rewrite <- app_assoc. reflexivity.
Qed.

Ltac grows_leaf :=
  idtac;
  lazymatch goal with
  | |- (_, _) = _ -> _ =>
      intros <-; cbn [snd]; eapply verified_from_grows;
      repeat first [ apply grows_refl
                   | apply grows_logged
                   | apply grows_deleted
                   | apply grows_step ]
  end.

(** X23: no statement before the verification. The calls a handler
    records are added after those recorded before, and the first of them,
    if there is any, is the token verification: no handler reads or writes
    the store before it has verified the token, whatever the request. *)
Theorem verification_precedes_statements (env : Env) (ep : endpoint) (req : Request)
        (w : World) :
  exists evs,
    trace (run env ep req w).2 = trace w ++ evs /\ verified_first evs = true.
Proof.
  destruct (credentials_cases env ep req w) as [H | [[tok H] | [decoded Hauth]]].
  - rewrite H. exists []. split; [symmetry; apply app_nil_r | reflexivity].
  - rewrite H. exists [EvVerify tok]. split; reflexivity.
  - remember (run env ep req w) as res eqn:Hrun. symmetry in Hrun. revert Hrun.
    destruct ep as [[] []| | | |]; try (rewrite run_list; unfold list_rows);
      enter_handler Hauth; walk grows_leaf.
Qed.

(** ** The word that is verified *)

Ltac grows_from_leaf :=
  idtac;
  lazymatch goal with
  | |- (_, _) = _ -> _ =>
      intros <-; cbn [snd];
      match goal with
      | Ht : auth_token _ = Some ?tok |- _ => exists tok; split; [exact Ht|]
      end;
      repeat first [ apply grows_refl
                   | apply grows_logged
                   | apply grows_deleted
                   | apply grows_step ]
  end.

(** The calls of an authenticated run start with the verification of the
    second word of the header. *)
Lemma run_grows_from_verification (env : Env) (ep : endpoint) (req : Request) (w : World)
      (decoded : obj) :
  authenticated env ep req decoded ->
  exists tok, auth_token (authorization req) = Some tok /\
              grows (logged w (EvVerify tok)) (run env ep req w).2.
Proof.
  intros Hauth.
  remember (run env ep req w) as res eqn:Hrun. symmetry in Hrun. revert Hrun.
  destruct ep as [[] []| | | |]; try (rewrite run_list; unfold list_rows);
    enter_handler Hauth; walk grows_from_leaf.
Qed.

(** X20: which text a handler verifies. For the entities, services,
    payees and subscriptions handlers and a header that is [Bearer ], a
    word without spaces and then nothing or a space and anything: the first
    call the handler records is the verification of exactly that word (what
    follows a second space is ignored, and two spaces after [Bearer] have
    the empty string verified); if the verifier rejects the word the answer
    is 500 with no other call, and if it accepts it the request is
    authenticated with the payload it returns. *)
Theorem bearer_word_is_verified (env : Env) (ep : endpoint) (req : Request)
        (t rest : string) (w : World) :
  is_user_endpoint ep = false ->
  has_space t = false ->
  authorization req = Some ("Bearer " ++ t)%string \/
  authorization req = Some ("Bearer " ++ t ++ String " " rest)%string ->
  (exists evs, trace (run env ep req w).2 = trace w ++ EvVerify t :: evs) /\
  (jwt_verify env t = None -> run env ep req w = (json 500, logged w (EvVerify t))) /\
  (forall decoded, jwt_verify env t = Some decoded -> authenticated env ep req decoded).
Proof.
  intros Hep Ht Hh.
  assert (auth_token (authorization req) = Some t /\ bearer_header (authorization req) = true)
    as [Htok Hb].
  { destruct Hh as [-> | ->]; rewrite auth_token_bearer, bearer_header_prefix.
    - rewrite (split_word _ Ht). tauto.
    - rewrite (split_word_more _ _ Ht). tauto. }
  assert (guard_passes ep (authorization req) = true) as Hg
    by (unfold guard_passes; rewrite Hep; exact Hb).
  assert (forall decoded, jwt_verify env t = Some decoded -> authenticated env ep req decoded)
    as Hauth.
  { intros decoded Hv. split; [exact Hg|]. exists t. tauto. }
  split; [|split; [|exact Hauth]].
  - destruct (jwt_verify env t) as [decoded|] eqn:Hv.
    + destruct (run_grows_from_verification env ep req w decoded (Hauth decoded eq_refl))
        as (tok & Htok' & evs & Htr).
      rewrite Htok in Htok'. injection Htok' as <-.
      exists evs. rewrite Htr. simpl. rewrite <- app_assoc. reflexivity.
    + rewrite (run_verify_fail env ep req w t Hg Htok Hv). exists []. reflexivity.
  - intros Hv. exact (run_verify_fail env ep req w t Hg Htok Hv).
Qed.

(** The header [Bearer tok7 and more] sent to the entities list: the
    word verified is [tok7], and the list is served. *)
Lemma bearer_word_is_verified_witness :
  (run demo_env (Res REntities mGET) (request (Some "Bearer tok7 and more") []) demo_world).1
    = {| status := 200; data := DataRows [<["username" := VStr "ann"]> home] |} /\
  exists evs,
    trace (run demo_env (Res REntities mGET) (request (Some "Bearer tok7 and more") [])
               demo_world).2
    = trace demo_world ++ EvVerify "tok7" :: evs.
Proof.
  split; [compute_done|].
  apply (bearer_word_is_verified demo_env (Res REntities mGET)
           (request (Some "Bearer tok7 and more") []) "tok7" "and more" demo_world).
  - reflexivity.
  - reflexivity.
  - right. reflexivity.
Defined.

(** ** The services update and the entity it names *)

(** X24: the entity name of a services PUT is a condition, not a new
    value. The name is resolved to the first entity that has it, whoever
    owns it, and the caller's service is looked up under that entity. For
    a key sent as a number and a token whose user id is a number: if no
    service with the key of the body that the caller owns is under that
    entity, the answer is 404 and nothing is written. *)
Theorem service_put_under_other_entity (env : Env) (req : Request) (w : World)
        (decoded body e : obj) (es : list obj) (n u k : Z) :
  authenticated env (Res RServices mPUT) req decoded ->
  json_body req = Some body ->
  passes_validation RServices mPUT body = true ->
  body.["id"] = VNum n ->
  decoded.["user_id"] = VNum u ->
  lookup_name (db w) Entities "entity_name" body.["entity_name"] = e :: es ->
  e.["id"] = VNum k ->
  (forall s, In s (services (db w)) -> s.["id"] = VNum n -> s.["user_id"] = VNum u ->
             s.["entity_id"] <> VNum k) ->
  exists w', run env (Res RServices mPUT) req w = (json 404, w') /\ read_only w w'.
Proof.
  intros Hauth Hbody Hval Hn Hu He Hk Hother.
  apply andb_prop in Hval as [Hreq Hcat]. apply negb_true_iff in Hreq.
  simpl in Hreq; rewrite ?orb_false_r, ?orb_assoc in Hreq.
  enter_handler Hauth; read_body Hbody; rewrite Hreq, Hu.
  apply orb_false_elim in Hreq as [Hreq ?].
  rewrite (category_invalid_run _ _ Hcat). reduce.
  run_select. unfold lookup_name in He. rewrite He.
  cbn [take map]. cbv beta iota. rewrite project_id, Hk.
  rewrite db_select_run
    by (cbn [map cond_value existsb is_undefined];
        rewrite (falsy_false_defined _ Hreq); reflexivity).
  cbv zeta. rewrite db_logged.
  rewrite filter_all_false; [answered_read_only|].
  intros s Hs. unfold matches. cbn [forallb holds]. rewrite andb_true_r, Hn.
  destruct (sql_eq s.["id"] (VNum n)) eqn:Hsid; [|reflexivity].
  destruct (sql_eq s.["user_id"] (VNum u)) eqn:Hsu; [|reflexivity].
  destruct (sql_eq s.["entity_id"] (VNum k)) eqn:Hse; [|reflexivity].
  apply sql_eq_eq in Hsid, Hsu, Hse. destruct (Hother s Hs Hsid Hsu Hse).
Qed.

(** Ann sends an update of her service Rent, which is under Home, with
    the entity name Acme. *)
Lemma service_put_under_other_entity_witness :
  exists w', run demo_env (Res RServices mPUT) move_rent_to_acme demo_world = (json 404, w') /\
             read_only demo_world w'.
Proof.
  apply (service_put_under_other_entity demo_env move_rent_to_acme demo_world
           (row [("user_id", VNum 7); ("id", VNum 7)])
           (row [("id", VNum 3); ("entity_name", VStr "Acme"); ("amount", VNum 950)])
           acme [] 3 7 5).
  - apply demo_authenticated. reflexivity.
  - reflexivity.
  - vm_compute. reflexivity.
  - reflexivity.
  - reflexivity.
  - vm_compute. reflexivity.
  - reflexivity.
  - intros s [<-|[<-|[]]] Hsid Hsu Hse; [vm_compute in Hse | vm_compute in Hsid]; discriminate.
Defined.

(** ** What the entities and services update stores *)




(** ** The references written by the payees and subscriptions update *)

(** X26: what a payees or subscriptions PUT answered 200 leaves in the
    reference columns of every row with the id of the body: for each name
    the resource resolves, the id of the first row that has the name of
    the body when the body supplies one, and null when it does not. *)
Theorem put_rewrites_references (env : Env) (r : resource) (req : Request) (w : World)
        (decoded body : obj) :
  r = RPayees \/ r = RSubscriptions ->
  authenticated env (Res r mPUT) req decoded ->
  json_body req = Some body ->
  status (run env (Res r mPUT) req w).1 = 200%Z ->
  forall x,
    In x (rows_of (table_of r) (db (run env (Res r mPUT) req w).2)) ->
    sql_eq x.["id"] body.["id"] = true ->
    forall col t, In (col, t) (references r) ->
      if truthy body.[col]
      then exists e es, lookup_name (db w) t col body.[col] = e :: es /\
                        x.[fk_to t] = to_sql e.["id"]
      else x.[fk_to t] = VNull.
Proof.
  intros Hr Hauth Hbody.
  remember (run env (Res r mPUT) req w) as res eqn:Hrun. symmetry in Hrun. revert Hrun.
  destruct Hr as [-> | ->]; enter_handler Hauth; read_body Hbody; walk not_ok_leaf.
  all: intros <- _ x Hx Hid col t Hin; cbn [fst snd db table_of] in Hx;
    rewrite rows_of_set_rows in Hx;
    apply in_updated in Hx as [(r0 & _ & _ & ->)|[_ Hm]];
    [|rewrite matches_single in Hm; congruence];
    cbn [references In] in Hin; repeat destruct Hin as [[= <- <-]|Hin]; try destruct Hin;
    cbn [fk_to]; rewrite field_assign; cbn [map find fst snd]; eval_names;
    match goal with
    | H : truthy ?v = _ |- context [if truthy ?v then _ else _] => rewrite H
    end;
    first [ reflexivity
          | eexists _, _; split; [eassumption|]; rewrite project_id; reflexivity ].
Qed.

(** Bob updates his payee Bob Ltd without naming its entity and service:
    both references are null afterwards. *)
Lemma put_rewrites_references_witness :
  status (run demo_env (Res RPayees mPUT) update_payee_phone demo_world).1 = 200%Z /\
  forall x,
    In x (rows_of (table_of RPayees)
                  (db (run demo_env (Res RPayees mPUT) update_payee_phone demo_world).2)) ->
    sql_eq x.["id"] (VNum 1) = true ->
    x.["entity_id"] = VNull /\ x.["service_id"] = VNull.
Proof.
  assert (Hst : status (run demo_env (Res RPayees mPUT) update_payee_phone demo_world).1
                = 200%Z) by compute_done.
  split; [exact Hst|]. intros x Hx Hid.
  pose proof (put_rewrites_references demo_env RPayees update_payee_phone demo_world
                (row [("user_id", VNum 8); ("id", VNum 8)])
                (row [("id", VNum 1); ("payee_name", VStr "Bob Ltd"); ("phone", VStr "556");
                      ("email", VStr "b@x.io"); ("amount", VNum 3000);
                      ("category", VStr "income")])
                (or_introl eq_refl)
                (conj eq_refl (ex_intro _ "tok8" (conj eq_refl eq_refl)))
                eq_refl Hst x Hx Hid) as Hrefs.
  split.
  - exact (Hrefs "entity_name" Entities (or_introl eq_refl)).
  - exact (Hrefs "service_name" Services (or_intror (or_introl eq_refl))).
Defined.
